(** * pymodbus framers: the RTU and the MBAP (socket) framer

    A shallow embedding of [pymodbus/framer/rtu_framer.py] and
    [pymodbus/framer/socket_framer.py].  Python [bytes] are lists of
    [Byte.byte], Python integers are [Z], a framer object is a record that
    the methods thread through a state-and-exception monad: a Python
    exception leaves the mutations made before it in place, so the monad
    returns the state in both outcomes. *)

From Stdlib Require Import String ZArith List Bool Lia.
From Stdlib Require Import Strings.Byte.
Import ListNotations.

Local Open Scope Z_scope.

(* ------------------------------------------------------------------ *)
(** ** Python sequences *)

Module Py.

Section Seq.
Context {A : Type}.

(** [len(l)] *)
Definition len (l : list A) : Z := Z.of_nat (length l).

(** How a slice bound is normalised against the length [n]. *)
Definition clamp (n i : Z) : Z :=
  if i <? 0 then Z.max 0 (n + i) else Z.min i n.

(** [l[lo:hi]], either bound possibly omitted. *)
Definition slice (l : list A) (lo hi : option Z) : list A :=
  let n := len l in
  let a := match lo with Some i => clamp n i | None => 0 end in
  let b := match hi with Some j => clamp n j | None => n end in
  firstn (Z.to_nat (b - a)) (skipn (Z.to_nat a) l).

(** [l[i:]] *)
Definition slice_from (l : list A) (i : Z) : list A := slice l (Some i) None.
(** [l[:j]] *)
Definition slice_upto (l : list A) (j : Z) : list A := slice l None (Some j).
(** [l[i:j]] *)
Definition slice_between (l : list A) (i j : Z) : list A :=
  slice l (Some i) (Some j).

(** [l[i]]; [None] stands for [IndexError]. *)
Definition getitem (l : list A) (i : Z) : option A :=
  let n := len l in
  let k := if i <? 0 then n + i else i in
  if (0 <=? k) && (k <? n) then nth_error l (Z.to_nat k) else None.
End Seq.

(** [int(b)] for one element of a [bytes] object. *)
Definition int (b : byte) : Z := Z.of_N (Byte.to_N b).

(** [x in xs] for a list of integers. *)
Definition mem (x : Z) (xs : list Z) : bool := existsb (Z.eqb x) xs.

End Py.

(* ------------------------------------------------------------------ *)
(** ** The [struct] formats the framers use

    [None] stands for [struct.error]: [pack] refuses a value outside the
    range of its format, [unpack] a buffer of the wrong size. *)

Module struct.

Definition pack_B (v : Z) : option (list byte) :=
  if (0 <=? v) && (v <? 256)
  then option_map (fun b => [b]) (Byte.of_N (Z.to_N v))
  else None.

(** [pack(">H", v)]: high byte first. *)
Definition pack_H (v : Z) : option (list byte) :=
  if (0 <=? v) && (v <? 65536)
  then match Byte.of_N (Z.to_N (Z.shiftr v 8)),
             Byte.of_N (Z.to_N (Z.land v 255)) with
       | Some hi, Some lo => Some [hi; lo]
       | _, _ => None
       end
  else None.

Definition be16 (hi lo : byte) : Z := Z.shiftl (Py.int hi) 8 + Py.int lo.

Definition app_opt (a b : option (list byte)) : option (list byte) :=
  match a, b with
  | Some x, Some y => Some (x ++ y)
  | _, _ => None
  end.

(** [pack(">BB", a, b)] *)
Definition pack_BB (a b : Z) : option (list byte) :=
  app_opt (pack_B a) (pack_B b).

(** [pack(">HHHBB", t, p, l, u, f)] *)
Definition pack_HHHBB (t p l u f : Z) : option (list byte) :=
  app_opt (pack_H t)
    (app_opt (pack_H p) (app_opt (pack_H l) (app_opt (pack_B u) (pack_B f)))).

(** [unpack(">HHHB", b)] *)
Definition unpack_HHHB (b : list byte) : option (Z * Z * Z * Z) :=
  match b with
  | [t1; t0; p1; p0; l1; l0; u] =>
      Some (be16 t1 t0, be16 p1 p0, be16 l1 l0, Py.int u)
  | _ => None
  end.

(** [unpack(">HHHBB", b)] *)
Definition unpack_HHHBB (b : list byte) : option (Z * Z * Z * Z * Z) :=
  match b with
  | [t1; t0; p1; p0; l1; l0; u; f] =>
      Some (be16 t1 t0, be16 p1 p0, be16 l1 l0, Py.int u, Py.int f)
  | _ => None
  end.

End struct.

(* ------------------------------------------------------------------ *)
(** ** Messages, exceptions and the decoder factory *)

(** A request or response object, as far as the framers look at it.
    [encode] is the result of the object's [encode()] method. *)
Record PDU : Type := mkPDU {
  function_code : Z;
  slave_id : Z;
  transaction_id : Z;
  protocol_id : Z;
  encode : list byte
}.

Definition set_slave_id (v : Z) (m : PDU) : PDU :=
  mkPDU (function_code m) v (transaction_id m) (protocol_id m) (encode m).
Definition set_transaction_id (v : Z) (m : PDU) : PDU :=
  mkPDU (function_code m) (slave_id m) v (protocol_id m) (encode m).
Definition set_protocol_id (v : Z) (m : PDU) : PDU :=
  mkPDU (function_code m) (slave_id m) (transaction_id m) v (encode m).

(** The exceptions that occur in the two framers. *)
Inductive Exn : Type :=
| IndexError
| KeyError
| StructError
| ModbusIOException (msg : string)
| InvalidMessageReceivedException (r : PDU).

Inductive Res (A : Type) : Type :=
| Ok (a : A)
| Raise (e : Exn).
Arguments Ok {A} a.
Arguments Raise {A} e.

(** The decoder factory handed to a framer's constructor.
    [lookup_keys] is [decoder.lookup.keys()];
    [lookupPduClass fc data] is
    [decoder.lookupPduClass(fc).calculateRtuFrameSize(data)], where [None]
    is the [IndexError] of a buffer too short to hold the byte count. *)
Record Decoder : Type := mkDecoder {
  decode : list byte -> option PDU;
  lookup_keys : list Z;
  lookupPduClass : Z -> list byte -> option Z
}.

(* ------------------------------------------------------------------ *)
(** ** State and exceptions *)

Module Monad.

Definition M (S A : Type) : Type := S -> Res A * S.

Definition ret {S A : Type} (a : A) : M S A := fun s => (Ok a, s).

Definition bind {S A B : Type} (m : M S A) (k : A -> M S B) : M S B :=
  fun s =>
    match m s with
    | (Ok a, s') => k a s'
    | (Raise e, s') => (Raise e, s')
    end.

Definition raise {S A : Type} (e : Exn) : M S A := fun s => (Raise e, s).

Definition get {S : Type} : M S S := fun s => (Ok s, s).

Definition modify {S : Type} (f : S -> S) : M S unit := fun s => (Ok tt, f s).

(** [value] of an optional result, raising [e] when there is none. *)
Definition orRaise {S A : Type} (o : option A) (e : Exn) : M S A :=
  match o with
  | Some a => ret a
  | None => raise e
  end.

(** [try: m  except <caught>: h] *)
Definition try_except {S A : Type} (m : M S A) (caught : Exn -> bool)
    (h : M S A) : M S A :=
  fun s =>
    match m s with
    | (Ok a, s') => (Ok a, s')
    | (Raise e, s') => if caught e then h s' else (Raise e, s')
    end.

End Monad.

Import Monad.

Declare Scope monad_scope.
Delimit Scope monad_scope with monad.
Notation "x <- m ;; k" := (bind m (fun x => k))
  (at level 61, m at next level, right associativity) : monad_scope.
Notation "m ;;; k" := (bind m (fun _ => k))
  (at level 61, right associativity) : monad_scope.
Local Open Scope monad_scope.

(* ------------------------------------------------------------------ *)
(** ** The MBAP (socket) framer: [pymodbus/framer/socket_framer.py] *)

Module Socket.

(** [self._header] *)
Record Header : Type := mkHeader { tid : Z; pid : Z; len : Z; uid : Z }.

(** What the framer asks of [self.transport]:
    [get_extra_info('peername')], a host and a port when there is one. *)
Record Transport : Type := mkTransport { peername : option (string * Z) }.

(** An entry of the [slaves] list: a unit id, or a pair of a peer host
    and a unit id. *)
Inductive Slave : Type :=
| Unit (u : Z)
| Peer (host : string) (u : Z).

Definition Slave_eqb (a b : Slave) : bool :=
  match a, b with
  | Unit u, Unit v => u =? v
  | Peer h u, Peer k v => String.eqb h k && (u =? v)
  | _, _ => false
  end.

(** [x in slaves] *)
Definition mem (x : Slave) (slaves : list Slave) : bool :=
  existsb (Slave_eqb x) slaves.

(** The framer object.  [called] lists the results handed to the callback
    so far, oldest first. *)
Record Framer : Type := mkFramer {
  _buffer : list byte;
  _header : Header;
  transport : option Transport;
  called : list PDU
}.

Definition set_buffer (b : list byte) (w : Framer) : Framer :=
  mkFramer b (_header w) (transport w) (called w).
Definition set_header (h : Header) (w : Framer) : Framer :=
  mkFramer (_buffer w) h (transport w) (called w).

(** [callback(result)] *)
Definition callback (result : PDU) : M Framer unit :=
  modify (fun w =>
    mkFramer (_buffer w) (_header w) (transport w) (called w ++ [result])).

Definition _hsize : Z := 0x07.

(** A new framer on an empty buffer. *)
Definition init (t : option Transport) : Framer :=
  mkFramer [] (mkHeader 0 0 0 0) t [].

(** Modelled from the spec: [ModbusFramer.resetFrame] of
    [pymodbus/framer/base.py], which the socket framer inherits, is not in
    the sources.  Section 4.4 has it "reset the buffer entirely", section 3
    has the header "reset to zero on reset_frame()". *)
Definition resetFrame : M Framer unit :=
  modify (fun w => mkFramer [] (mkHeader 0 0 0 0) (transport w) (called w)).

(** Modelled from the spec: [ModbusFramer.populateResult] of
    [pymodbus/framer/base.py], which the socket framer inherits, is not in
    the sources.  By section 4.4 and scenario 4 of section 8 the delivered
    PDU carries the tid, the pid and the uid of the MBAP header. *)
Definition populateResult (result : PDU) : M Framer PDU :=
  w <- get ;;
  ret (set_protocol_id (pid (_header w))
        (set_transaction_id (tid (_header w))
          (set_slave_id (uid (_header w)) result))).

Section Framer.
Variable decoder : Decoder.

Definition _validate_slave_id (slaves : list Slave) (single : bool)
  : M Framer bool :=
  w <- get ;;
  if single then ret true
  else if mem (Unit 0) slaves then ret true
  else match transport w with
       | None => ret (mem (Unit (uid (_header w))) slaves)
       | Some t =>
           match peername t with
           | None => ret (mem (Unit (uid (_header w))) slaves)
           | Some peer => ret (mem (Peer (fst peer) (uid (_header w))) slaves)
           end
       end.

Definition isFrameReady : M Framer bool :=
  w <- get ;;
  ret (_hsize <? Py.len (_buffer w)).

Definition advanceFrame : M Framer unit :=
  w <- get ;;
  let length := _hsize + len (_header w) in
  modify (set_buffer (Py.slice_from (_buffer w) length)) ;;;
  modify (set_header (mkHeader 0 0 0 0)).

Definition checkFrame : M Framer bool :=
  ready <- isFrameReady ;;
  if negb ready then ret false
  else
    w <- get ;;
    h <- orRaise (struct.unpack_HHHB (Py.slice_between (_buffer w) 0 _hsize))
           StructError ;;
    let '(t, p, l, u) := h in
    modify (set_header (mkHeader t p l u)) ;;;
    if l <? 2 then advanceFrame ;;; ret false
    else if l <=? Py.len (_buffer w) - _hsize + 1 then ret true
    else ret false.

Definition getFrame : M Framer (list byte) :=
  w <- get ;;
  let length := _hsize + len (_header w) in
  ret (Py.slice_between (_buffer w) _hsize length).

Definition decode_data (data : list byte)
  : Res (option (Z * Z * Z * Z * Z)) :=
  if _hsize <? Py.len data
  then match struct.unpack_HHHBB (Py.slice_between data 0 (_hsize + 1)) with
       | Some v => Ok (Some v)
       | None => Raise StructError
       end
  else Ok None.

(** [tid and tid != result.transaction_id] *)
Definition tid_mismatch (tid : option Z) (result : PDU) : bool :=
  match tid with
  | None => false
  | Some t => negb (t =? 0) && negb (t =? transaction_id result)
  end.

Definition _process (tid : option Z) (error : bool) : M Framer unit :=
  w <- get ;;
  data <- (if error then ret (_buffer w) else getFrame) ;;
  match decode decoder data with
  | None =>
      resetFrame ;;;
      raise (ModbusIOException "Unable to decode request")
  | Some result =>
      if error && (function_code result <? 0x80)
      then raise (InvalidMessageReceivedException result)
      else
        result <- populateResult result ;;
        advanceFrame ;;;
        if tid_mismatch tid result then resetFrame else callback result
  end.

Definition frameProcessIncomingPacket (single : bool) (slave : list Slave)
    (tid : option Z) : M Framer unit :=
  ok <- checkFrame ;;
  if negb ok then ret tt
  else
    valid <- _validate_slave_id slave single ;;
    if negb valid then resetFrame
    else _process tid false.

(** [n] calls of [frameProcessIncomingPacket] in a row, on what the buffer
    holds; an exception ends the run. *)
Fixpoint poll (n : nat) (single : bool) (slave : list Slave)
    (tid : option Z) : M Framer unit :=
  match n with
  | O => ret tt
  | S k =>
      frameProcessIncomingPacket single slave tid ;;;
      poll k single slave tid
  end.

(** Modelled from the spec: the format [SOCKET_FRAME_HEADER] of
    [pymodbus/framer/base.py] is not in the sources.  Section 4.5 has the
    five fields tid, pid, length, slave id and function code packed
    big-endian, which is [">HHHBB"]; [decode_data] unpacks the same format
    from [_hsize + 1] bytes. *)
Definition pack_SOCKET_FRAME_HEADER := struct.pack_HHHBB.

Definition buildPacket (message : PDU) : Res (list byte) :=
  let data := encode message in
  match pack_SOCKET_FRAME_HEADER
          (transaction_id message) (protocol_id message)
          (Py.len data + 2) (slave_id message) (function_code message) with
  | None => Raise StructError
  | Some packet => Ok (packet ++ data)
  end.

End Framer.

End Socket.

(* ------------------------------------------------------------------ *)
(** ** CRC-16/Modbus *)

Module utilities.

(** Modelled from the spec: one bit of the CRC register, for [computeCRC]
    below; the polynomial is 0xA001, the reflected 0x8005 (section 4.1). *)
Definition crc_shift (crc : Z) : Z :=
  if Z.testbit crc 0 then Z.lxor (Z.shiftr crc 1) 0xA001 else Z.shiftr crc 1.

(** Modelled from the spec: one byte of input, for [computeCRC] below
    ("byte-wise", section 4.1). *)
Definition crc_byte (crc : Z) (b : byte) : Z :=
  Nat.iter 8 crc_shift (Z.lxor crc (Py.int b)).

(** Modelled from the spec: [computeCRC] of [pymodbus/utilities.py] is not
    in the sources.  Section 4.1: polynomial 0xA001, initial value 0xFFFF,
    no final XOR, byte-wise.  The framer takes its CRC function as a
    parameter; this one instantiates it in the worked examples. *)
Definition computeCRC (data : list byte) : Z := fold_left crc_byte data 0xFFFF.

(** Modelled from the spec: section 4.1 has the low byte of the CRC go
    first on the wire.  [buildPacket] packs the value [computeCRC] returns
    high byte first, so a [computeCRC] that gives this wire order returns
    the register with its two bytes exchanged. *)
Definition computeCRC_low_first (data : list byte) : Z :=
  let crc := computeCRC data in
  Z.lor (Z.land (Z.shiftl crc 8) 0xFF00) (Z.land (Z.shiftr crc 8) 0x00FF).

End utilities.

(* ------------------------------------------------------------------ *)
(** ** The RTU framer: [pymodbus/framer/rtu_framer.py] *)

Module Rtu.

(** [self._header].  The key ["tid"] is absent from the dictionary that
    [advanceFrame] installs, hence the option. *)
Record Header : Type := mkHeader {
  uid : Z;
  tid : option Z;
  len : Z;
  crc : list byte
}.

(** The framer object.  [called] lists the results handed to the callback
    so far, oldest first. *)
Record Framer : Type := mkFramer {
  _buffer : list byte;
  _header : Header;
  called : list PDU
}.

Definition set_buffer (b : list byte) (w : Framer) : Framer :=
  mkFramer b (_header w) (called w).
Definition set_header (h : Header) (w : Framer) : Framer :=
  mkFramer (_buffer w) h (called w).
Definition set_uid (v : Z) (w : Framer) : Framer :=
  let h := _header w in set_header (mkHeader v (tid h) (len h) (crc h)) w.
Definition set_tid (v : Z) (w : Framer) : Framer :=
  let h := _header w in set_header (mkHeader (uid h) (Some v) (len h) (crc h)) w.
Definition set_len (v : Z) (w : Framer) : Framer :=
  let h := _header w in set_header (mkHeader (uid h) (tid h) v (crc h)) w.
Definition set_crc (v : list byte) (w : Framer) : Framer :=
  let h := _header w in set_header (mkHeader (uid h) (tid h) (len h) v) w.

(** [callback(result)] *)
Definition callback (result : PDU) : M Framer unit :=
  modify (fun w => mkFramer (_buffer w) (_header w) (called w ++ [result])).

Definition _hsize : Z := 0x01.

(** Modelled from the spec: the header that [ModbusFramer.__init__] and
    [ModbusFramer.resetFrame] of [pymodbus/framer/base.py] install is not
    in the sources.  Section 3 has the RTU header as uid, tid, len and crc,
    "reset to zero". *)
Definition zero_header : Header := mkHeader 0 (Some 0) 0 [x00; x00].

(** A new framer on an empty buffer. *)
Definition init : Framer := mkFramer [] zero_header [].

(** Modelled from the spec: [ModbusFramer.resetFrame] of
    [pymodbus/framer/base.py] is not in the sources.  Section 4.4 has it
    "reset the buffer entirely", section 3 resets the header to zero. *)
Definition super_resetFrame : M Framer unit :=
  modify (fun w => mkFramer [] zero_header (called w)).

(** Modelled from the spec: [ModbusFramer._validate_slave_id] of
    [pymodbus/framer/base.py], which the RTU framer inherits, is not in the
    sources.  Step 4 of section 4.3: unless the context is single or the
    slave list holds the broadcast id 0, the uid must be in the list. *)
Definition _validate_slave_id (slaves : list Z) (single : bool)
  : M Framer bool :=
  w <- get ;;
  if single then ret true
  else if Py.mem 0 slaves then ret true
  else ret (Py.mem (uid (_header w)) slaves).

Definition is_IndexError (e : Exn) : bool :=
  match e with IndexError => true | _ => false end.

Definition is_Index_Key_struct_error (e : Exn) : bool :=
  match e with IndexError | KeyError | StructError => true | _ => false end.

Section Framer.
Variable decoder : Decoder.
Variable computeCRC : list byte -> Z.

(** Modelled from the spec: [checkCRC] of [pymodbus/utilities.py] is not in
    the sources.  Section 4.1 and step 3 of section 4.3: the CRC computed
    over the data is compared with the received one. *)
Definition checkCRC (data : list byte) (check : Z) : bool :=
  computeCRC data =? check.

(** [self.function_codes] *)
Definition function_codes : list Z := lookup_keys decoder.

Definition decode_data (data : list byte) : Res (option (Z * Z)) :=
  if _hsize <? Py.len data
  then match Py.getitem data 0, Py.getitem data 1 with
       | Some u, Some f => Ok (Some (Py.int u, Py.int f))
       | _, _ => Raise IndexError
       end
  else Ok None.

Definition get_expected_response_length (data : list byte) : M Framer Z :=
  b1 <- orRaise (Py.getitem data 1) IndexError ;;
  let func_code := Py.int b1 in
  orRaise (lookupPduClass decoder func_code data) IndexError.

Definition populateHeader (data : option (list byte)) : M Framer Z :=
  w <- get ;;
  let data := match data with Some d => d | None => _buffer w end in
  b0 <- orRaise (Py.getitem data 0) IndexError ;;
  modify (set_uid (Py.int b0)) ;;;
  modify (set_tid (Py.int b0)) ;;;
  size <- get_expected_response_length data ;;
  modify (set_len size) ;;;
  if Py.len data <? size then raise IndexError
  else
    modify (set_crc (Py.slice_between data (size - 2) size)) ;;;
    ret size.

Definition checkFrame : M Framer bool :=
  try_except
    (populateHeader None ;;;
     w <- get ;;
     let frame_size := len (_header w) in
     let data := Py.slice_upto (_buffer w) (frame_size - 2) in
     let crc := crc (_header w) in
     c0 <- orRaise (Py.getitem crc 0) IndexError ;;
     c1 <- orRaise (Py.getitem crc 1) IndexError ;;
     let crc_val := Z.shiftl (Py.int c0) 8 + Py.int c1 in
     ret (checkCRC data crc_val))
    is_Index_Key_struct_error
    (ret false).

Definition advanceFrame : M Framer unit :=
  w <- get ;;
  modify (set_buffer (Py.slice_from (_buffer w) (len (_header w)))) ;;;
  modify (set_header (mkHeader 0x00 None 0 [x00; x00])).

Definition resetFrame : M Framer unit :=
  w <- get ;;
  let x := _buffer w in
  super_resetFrame ;;;
  modify (set_buffer x).

Definition isFrameReady : M Framer bool :=
  w <- get ;;
  let size := len (_header w) in
  size <- (if (size =? 0) && (_hsize <? Py.len (_buffer w))
           then try_except
                  (size <- populateHeader None ;; ret (Some size))
                  is_IndexError
                  (ret None)
           else ret (Some size)) ;;
  match size with
  | None => ret false
  | Some size =>
      w <- get ;;
      ret (if 0 <? size then size <=? Py.len (_buffer w) else false)
  end.

Definition getFrame : M Framer (list byte) :=
  w <- get ;;
  let start := _hsize in
  let end_ := len (_header w) - 2 in
  let buffer := Py.slice_between (_buffer w) start end_ in
  if 0 <? end_ then ret buffer else ret [].

Definition populateResult (result : PDU) : M Framer PDU :=
  w <- get ;;
  let result := set_slave_id (uid (_header w)) result in
  t <- orRaise (tid (_header w)) KeyError ;;
  ret (set_transaction_id t result).

(** The test of one index [i] in the scan of [getFrameStart]: [true] when
    neither [continue] is taken.  Every index the scan visits has [i + 1]
    inside the buffer, so the default of [nth] is never read. *)
Definition is_start (slaves : list Z) (broadcast : bool) (buffer : list byte)
    (i : nat) : bool :=
  let at_ k := Py.int (nth k buffer x00) in
  negb (negb broadcast && negb (Py.mem (at_ i) slaves))
  && negb (negb (Py.mem (at_ (i + 1)%nat) function_codes)
           && negb (Py.mem (at_ (i + 1)%nat - 0x80) function_codes)).

Definition getFrameStart (slaves : list Z) (broadcast skip_cur_frame : bool)
  : M Framer bool :=
  w <- get ;;
  let start := if skip_cur_frame then 1%nat else 0%nat in
  let buf_len := length (_buffer w) in
  if (buf_len <? 4)%nat then ret false
  else
    match find (is_start slaves broadcast (_buffer w))
               (seq start (buf_len - 3 - start)) with
    | Some i =>
        (if (i =? 0)%nat then ret tt
         else modify (set_buffer (Py.slice_from (_buffer w) (Z.of_nat i)))) ;;;
        ret true
    | None =>
        (if (3 <? buf_len)%nat
         then modify (set_buffer (Py.slice_from (_buffer w) (-3)))
         else ret tt) ;;;
        ret false
    end.

Definition _process (error : bool) : M Framer unit :=
  w <- get ;;
  data <- (if error then ret (_buffer w) else getFrame) ;;
  match decode decoder data with
  | None => raise (ModbusIOException "Unable to decode request")
  | Some result =>
      if error && (function_code result <? 0x80)
      then raise (InvalidMessageReceivedException result)
      else
        result <- populateResult result ;;
        advanceFrame ;;;
        callback result
  end.

(** What one turn of the [while] loop of [frameProcessIncomingPacket] does
    after [getFrameStart] has returned [True]: leave the loop, or go round
    again with the given [skip_cur_frame]. *)
Inductive Turn : Type :=
| Break
| Continue (skip_cur_frame : bool).

Definition loop_body (single : bool) (slave : list Z) (skip_cur_frame : bool)
  : M Framer Turn :=
  ready <- isFrameReady ;;
  if negb ready then ret Break
  else
    ok <- checkFrame ;;
    if negb ok then resetFrame ;;; ret (Continue true)
    else
      valid <- _validate_slave_id slave single ;;
      if negb valid then resetFrame ;;; ret (Continue true)
      else _process false ;;; ret (Continue skip_cur_frame).

(** The [while] loop, at most [fuel] turns of it; the result is [false]
    when the turns ran out before the loop ended. *)
Fixpoint while_getFrameStart (fuel : nat) (single : bool) (slave : list Z)
    (broadcast skip_cur_frame : bool) : M Framer bool :=
  match fuel with
  | O => ret false
  | S fuel' =>
      found <- getFrameStart slave broadcast skip_cur_frame ;;
      if negb found then ret true
      else
        t <- loop_body single slave skip_cur_frame ;;
        match t with
        | Break => ret true
        | Continue skip =>
            while_getFrameStart fuel' single slave broadcast skip
        end
  end.

(** Turns that always suffice: a turn that goes round again shortens the
    buffer or raises [skip_cur_frame] for good. *)
Definition turns (w : Framer) : nat := (2 * length (_buffer w) + 2)%nat.

Definition frameProcessIncomingPacket (single : bool) (slave : list Z)
  : M Framer unit :=
  s0 <- orRaise (Py.getitem slave 0) IndexError ;;
  let broadcast := s0 =? 0 in
  let skip_cur_frame := false in
  w <- get ;;
  while_getFrameStart (turns w) single slave broadcast skip_cur_frame ;;;
  ret tt.

(** Modelled from the spec: the format [RTU_FRAME_HEADER], made of
    [BYTE_ORDER] and [FRAME_HEADER] of [pymodbus/framer/base.py], is not in
    the sources.  Section 4.5 has the two bytes slave id and function code
    in front of the encoded PDU, which is [">BB"]. *)
Definition pack_RTU_FRAME_HEADER := struct.pack_BB.

Definition buildPacket (message : PDU) : Res (list byte * PDU) :=
  let data := encode message in
  match pack_RTU_FRAME_HEADER (slave_id message) (function_code message) with
  | None => Raise StructError
  | Some hd =>
      let packet := hd ++ data in
      match struct.pack_H (computeCRC packet) with
      | None => Raise StructError
      | Some c =>
          let packet := packet ++ c in
          let message := set_transaction_id (slave_id message) message in
          Ok (packet, message)
      end
  end.

End Framer.

End Rtu.

(* ------------------------------------------------------------------ *)
(** ** The start of an RTU frame, in the words of the specification *)

(** Step 1 of section 4.3: index [i] is a plausible start when broadcast
    holds or [buf[i]] is a valid slave, and [buf[i+1]] is a known function
    code or one with the exception bit [0x80] added. *)
Definition plausible_start (function_codes slaves : list Z) (broadcast : bool)
    (buf : list byte) (i : nat) : Prop :=
  exists a b,
    nth_error buf i = Some a /\ nth_error buf (S i) = Some b
    /\ (broadcast = true \/ In (Py.int a) slaves)
    /\ (In (Py.int b) function_codes \/ In (Py.int b - 0x80) function_codes).

(* ------------------------------------------------------------------ *)
(** ** Well-framed RTU messages *)

(** An RTU frame that the framer built on [decoder] and [computeCRC]
    accepts for the slave list [slaves]: slave id, function code, payload
    and the two CRC bytes, high byte first; the slave id is served (or
    broadcast holds), the function code is known (possibly with the
    exception bit), the PDU class sizes the frame by what it starts with,
    and function code and payload decode to [result]. *)
Definition well_framed (decoder : Decoder) (computeCRC : list byte -> Z)
    (slaves : list Z) (broadcast : bool) (frame : list byte) (result : PDU)
  : Prop :=
  exists u c payload hi lo,
    frame = [u; c] ++ payload ++ [hi; lo]
    /\ struct.be16 hi lo = computeCRC ([u; c] ++ payload)
    /\ (broadcast = true \/ In (Py.int u) slaves)
    /\ (In (Py.int c) (lookup_keys decoder)
        \/ In (Py.int c - 0x80) (lookup_keys decoder))
    /\ decode decoder (c :: payload) = Some result
    /\ forall rest,
         lookupPduClass decoder (Py.int c) (frame ++ rest)
         = Some (Py.len frame).

(** The PDU the RTU framer hands to the callback for a frame that decodes
    to [result]: slave id and transaction id are the frame's first byte. *)
Definition delivered (frame : list byte) (result : PDU) : PDU :=
  match frame with
  | u :: _ => set_transaction_id (Py.int u) (set_slave_id (Py.int u) result)
  | [] => result
  end.

(* ------------------------------------------------------------------ *)
(** ** Outcomes of a call of the socket framer *)

(** The ways one call of the socket framer's [frameProcessIncomingPacket]
    can end, from the framer [w] it is called on. *)
Inductive socket_outcome (tid : option Z) (w : Socket.Framer)
  : Res unit -> Socket.Framer -> Prop :=
| so_untouched :
    (* not ready: at most [_hsize] bytes *)
    Py.len (Socket._buffer w) <= Socket._hsize ->
    socket_outcome tid w (Ok tt) w
| so_short (l : Z) :
    (* length field below 2: the frame is skipped *)
    l < 2 ->
    socket_outcome tid w (Ok tt)
      (Socket.mkFramer (Py.slice_from (Socket._buffer w) (Socket._hsize + l))
         (Socket.mkHeader 0 0 0 0) (Socket.transport w) (Socket.called w))
| so_waiting (h : Socket.Header) :
    (* the frame is not complete yet *)
    Py.len (Socket._buffer w) - Socket._hsize + 1 < Socket.len h ->
    socket_outcome tid w (Ok tt) (Socket.set_header h w)
| so_reset :
    (* wrong slave, or a transaction id that was not expected *)
    socket_outcome tid w (Ok tt)
      (Socket.mkFramer [] (Socket.mkHeader 0 0 0 0) (Socket.transport w)
         (Socket.called w))
| so_undecodable :
    socket_outcome tid w (Raise (ModbusIOException "Unable to decode request"))
      (Socket.mkFramer [] (Socket.mkHeader 0 0 0 0) (Socket.transport w)
         (Socket.called w))
| so_delivered (l : Z) (r : PDU) :
    2 <= l -> Socket._hsize - 1 + l <= Py.len (Socket._buffer w) ->
    Socket.tid_mismatch tid r = false ->
    socket_outcome tid w (Ok tt)
      (Socket.mkFramer (Py.slice_from (Socket._buffer w) (Socket._hsize + l))
         (Socket.mkHeader 0 0 0 0) (Socket.transport w)
         (Socket.called w ++ [r])).

(* ------------------------------------------------------------------ *)
(** ** Collaborators used in the worked examples *)

Module Demo.

(** A decoder factory that knows function code 3 only.  Its PDU decoder
    reads the function code off the first byte and keeps the rest as the
    data of the PDU, and refuses any other function code.  An RTU frame of
    function code 3 carries its byte count at offset 2; any other function
    code is sized as an exception response, five bytes. *)
Definition decode (data : list byte) : option PDU :=
  match data with
  | [] => None
  | fc :: rest =>
      if Py.int fc =? 3 then Some (mkPDU 3 0 0 0 rest) else None
  end.

Definition frame_size (fc : Z) (data : list byte) : option Z :=
  if fc =? 3
  then option_map (fun b => Py.int b + 2 + 3) (Py.getitem data 2)
  else Some 5.

Definition decoder : Decoder := mkDecoder decode [3] frame_size.

(** Scenario 4 of section 8: tid 1, pid 0, len 6, uid 1, fc 3. *)
Definition mbap_frame : list byte :=
  [x00; x01; x00; x00; x00; x06; x01; x03; x00; x00; x00; x0a].

(** uid 1, fc 3, byte count 2, value 10, and the CRC of these five bytes
    high byte first. *)
Definition rtu_frame : list byte := [x01; x03; x02; x00; x0a; x43; x38].

Definition read_reply : PDU := mkPDU 3 1 1 0 [x02; x00; x0a].

End Demo.

(* ------------------------------------------------------------------ *)
(** ** Bytes and [struct] *)

Lemma int_range (b : byte) : 0 <= Py.int b < 256.
Proof.
  unfold Py.int. pose proof (Byte.to_N_bounded b). lia.
Qed.

Lemma of_N_small (n : N) :
  (n <= 255)%N -> exists b, Byte.of_N n = Some b /\ Byte.to_N b = n.
Proof.
  intros Hn. pose proof (Byte.to_of_N_option_map n) as H.
  destruct (N.leb_spec n 255) as [_ | Hgt]; [| lia].
  destruct (Byte.of_N n) as [b |] eqn:E; simpl in H; [| discriminate].
  exists b. split; [reflexivity | congruence].
Qed.

Lemma pack_B_ok (v : Z) :
  0 <= v < 256 -> exists b, struct.pack_B v = Some [b] /\ Py.int b = v.
Proof.
  intros Hv. unfold struct.pack_B.
  destruct (Z.leb_spec 0 v); [| lia]. destruct (Z.ltb_spec v 256); [| lia].
  destruct (of_N_small (Z.to_N v)) as (b & Hb & Hn); [lia |].
  exists b. rewrite Hb. split; [reflexivity |].
  unfold Py.int. rewrite Hn. lia.
Qed.

Lemma pack_B_error (v : Z) : ~ 0 <= v < 256 -> struct.pack_B v = None.
Proof.
  intros Hv. unfold struct.pack_B.
  destruct (Z.leb_spec 0 v); destruct (Z.ltb_spec v 256); simpl;
    try reflexivity; lia.
Qed.

Lemma pack_H_ok (v : Z) :
  0 <= v < 65536 ->
  exists hi lo, struct.pack_H v = Some [hi; lo] /\ struct.be16 hi lo = v.
Proof.
  intros Hv. unfold struct.pack_H.
  destruct (Z.leb_spec 0 v); [| lia]. destruct (Z.ltb_spec v 65536); [| lia].
  simpl.
  assert (Hhi : 0 <= Z.shiftr v 8 < 256).
  { rewrite Z.shiftr_div_pow2 by lia. change (2 ^ 8) with 256.
    split; [apply Z.div_pos; lia | apply Z.div_lt_upper_bound; lia]. }
  assert (Hlo : Z.land v 255 = v mod 256).
  { change 255 with (Z.ones 8). rewrite Z.land_ones by lia. reflexivity. }
  assert (Hlo' : 0 <= v mod 256 < 256) by (apply Z.mod_pos_bound; lia).
  destruct (of_N_small (Z.to_N (Z.shiftr v 8))) as (hi & Ehi & Hhn); [lia |].
  destruct (of_N_small (Z.to_N (Z.land v 255))) as (lo & Elo & Hln); [lia |].
  exists hi, lo. rewrite Ehi, Elo. split; [reflexivity |].
  unfold struct.be16, Py.int. rewrite Hhn, Hln.
  rewrite !Z2N.id by lia. rewrite Hlo.
  rewrite Z.shiftl_mul_pow2 by lia. rewrite Z.shiftr_div_pow2 by lia.
  change (2 ^ 8) with 256. pose proof (Z.div_mod v 256). lia.
Qed.

Lemma pack_H_error (v : Z) : ~ 0 <= v < 65536 -> struct.pack_H v = None.
Proof.
  intros Hv. unfold struct.pack_H.
  destruct (Z.leb_spec 0 v); destruct (Z.ltb_spec v 65536); simpl;
    try reflexivity; lia.
Qed.

(** A big-endian pair of bytes determines its word and conversely. *)
Lemma be16_inj (a b c d : byte) :
  struct.be16 a b = struct.be16 c d -> a = c /\ b = d.
Proof.
  unfold struct.be16. rewrite !Z.shiftl_mul_pow2 by lia.
  change (2 ^ 8) with 256. intros H.
  pose proof (int_range a). pose proof (int_range b).
  pose proof (int_range c). pose proof (int_range d).
  assert (Py.int a = Py.int c /\ Py.int b = Py.int d) as [Ha Hb] by lia.
  unfold Py.int in Ha, Hb.
  apply N2Z.inj in Ha, Hb.
  split.
  - apply (f_equal Byte.of_N) in Ha. rewrite !Byte.of_to_N in Ha. congruence.
  - apply (f_equal Byte.of_N) in Hb. rewrite !Byte.of_to_N in Hb. congruence.
Qed.

Lemma be16_range (a b : byte) : 0 <= struct.be16 a b < 65536.
Proof.
  unfold struct.be16. rewrite Z.shiftl_mul_pow2 by lia.
  change (2 ^ 8) with 256.
  pose proof (int_range a). pose proof (int_range b). lia.
Qed.

(* ------------------------------------------------------------------ *)
(** ** The frame encoders *)

(** C7.  For a message whose transaction id and protocol id are 16-bit
    values, whose slave id and function code are bytes and whose encoded
    data leaves [len(data) + 2] a 16-bit value, the socket framer's
    [buildPacket] returns the seven header bytes, big-endian transaction
    id, protocol id and length [len(data) + 2] and then the slave id,
    followed by the function code byte and the encoded data. *)
Theorem socket_buildPacket_layout (m : PDU) :
  0 <= transaction_id m < 65536 ->
  0 <= protocol_id m < 65536 ->
  Py.len (encode m) + 2 < 65536 ->
  0 <= slave_id m < 256 ->
  0 <= function_code m < 256 ->
  exists t1 t0 p1 p0 l1 l0 u f,
    Socket.buildPacket m
      = Ok ([t1; t0; p1; p0; l1; l0; u] ++ [f] ++ encode m)
    /\ struct.be16 t1 t0 = transaction_id m
    /\ struct.be16 p1 p0 = protocol_id m
    /\ struct.be16 l1 l0 = Py.len (encode m) + 2
    /\ Py.int u = slave_id m
    /\ Py.int f = function_code m.
Proof.
  intros Ht Hp Hl Hu Hf.
  assert (Hl' : 0 <= Py.len (encode m) + 2 < 65536) by (unfold Py.len in *; lia).
  destruct (pack_H_ok _ Ht) as (t1 & t0 & Et & Vt).
  destruct (pack_H_ok _ Hp) as (p1 & p0 & Ep & Vp).
  destruct (pack_H_ok _ Hl') as (l1 & l0 & El & Vl).
  destruct (pack_B_ok _ Hu) as (u & Eu & Vu).
  destruct (pack_B_ok _ Hf) as (f & Ef & Vf).
  exists t1, t0, p1, p0, l1, l0, u, f.
  unfold Socket.buildPacket, Socket.pack_SOCKET_FRAME_HEADER, struct.pack_HHHBB.
  rewrite Et, Ep, El, Eu, Ef. simpl. auto 10.
Qed.

Lemma socket_buildPacket_layout_witness :
  exists t1 t0 p1 p0 l1 l0 u f,
    Socket.buildPacket Demo.read_reply
      = Ok ([t1; t0; p1; p0; l1; l0; u] ++ [f] ++ encode Demo.read_reply)
    /\ struct.be16 t1 t0 = 1
    /\ struct.be16 p1 p0 = 0
    /\ struct.be16 l1 l0 = 5
    /\ Py.int u = 1
    /\ Py.int f = 3.
Proof.
  apply (socket_buildPacket_layout Demo.read_reply); vm_compute;
    try split; congruence.
Defined.

(** Outside these ranges [struct.pack] refuses the header. *)
Lemma socket_buildPacket_struct_error (m : PDU) :
  ~ (0 <= transaction_id m < 65536 /\ 0 <= protocol_id m < 65536
     /\ Py.len (encode m) + 2 < 65536
     /\ 0 <= slave_id m < 256 /\ 0 <= function_code m < 256) ->
  Socket.buildPacket m = Raise StructError.
Proof.
  intros H. unfold Socket.buildPacket, Socket.pack_SOCKET_FRAME_HEADER,
    struct.pack_HHHBB.
  assert (Hn : 0 <= Py.len (encode m)) by (unfold Py.len; lia).
  destruct (struct.pack_H (transaction_id m)) eqn:Et;
  destruct (struct.pack_H (protocol_id m)) eqn:Ep;
  destruct (struct.pack_H (Py.len (encode m) + 2)) eqn:El;
  destruct (struct.pack_B (slave_id m)) eqn:Eu;
  destruct (struct.pack_B (function_code m)) eqn:Ef;
  try reflexivity.
  exfalso. apply H.
  repeat match goal with
  | E : struct.pack_H ?v = Some _ |- _ =>
      assert (0 <= v < 65536)
        by (destruct (Z.le_gt_cases 0 v); destruct (Z.lt_ge_cases v 65536);
            try lia; rewrite pack_H_error in E by lia; discriminate);
      clear E
  | E : struct.pack_B ?v = Some _ |- _ =>
      assert (0 <= v < 256)
        by (destruct (Z.le_gt_cases 0 v); destruct (Z.lt_ge_cases v 256);
            try lia; rewrite pack_B_error in E by lia; discriminate);
      clear E
  end.
  lia.
Qed.

(* ------------------------------------------------------------------ *)
(** ** Python slices on lists *)

Lemma len_nonneg {A} (l : list A) : 0 <= Py.len l.
Proof. unfold Py.len. lia. Qed.

Lemma len_app {A} (x y : list A) : Py.len (x ++ y) = Py.len x + Py.len y.
Proof. unfold Py.len. rewrite length_app. lia. Qed.

Lemma len_cons {A} (a : A) (l : list A) : Py.len (a :: l) = 1 + Py.len l.
Proof. unfold Py.len. simpl length. lia. Qed.

Lemma getitem_nat {A} (l : list A) (k : nat) :
  Py.getitem l (Z.of_nat k) = nth_error l k.
Proof.
  unfold Py.getitem, Py.len.
  destruct (Z.ltb_spec (Z.of_nat k) 0); [lia |].
  destruct (Z.leb_spec 0 (Z.of_nat k)); [| lia].
  rewrite Nat2Z.id.
  destruct (Z.ltb_spec (Z.of_nat k) (Z.of_nat (length l))); [reflexivity |].
  symmetry. apply nth_error_None. lia.
Qed.

Lemma getitem_0 {A} (a : A) (l : list A) : Py.getitem (a :: l) 0 = Some a.
Proof. apply (getitem_nat (a :: l) 0). Qed.

Lemma getitem_1 {A} (a b : A) (l : list A) :
  Py.getitem (a :: b :: l) 1 = Some b.
Proof. apply (getitem_nat (a :: b :: l) 1). Qed.

Lemma getitem_nil {A} (i : Z) : Py.getitem (@nil A) i = None.
Proof.
  unfold Py.getitem, Py.len. cbn [length Z.of_nat].
  destruct ((0 <=? (if i <? 0 then 0 + i else i))
            && ((if i <? 0 then 0 + i else i) <? 0)) eqn:E; [| reflexivity].
  apply andb_prop in E. destruct E as [E1 E2].
  apply Z.leb_le in E1. apply Z.ltb_lt in E2. lia.
Qed.

Lemma getitem_1_single {A} (a : A) : Py.getitem [a] 1 = None.
Proof. reflexivity. Qed.

(** [l[i:]] for [0 <= i] drops [i] elements. *)
Lemma slice_from_nonneg {A} (l : list A) (i : Z) :
  0 <= i -> Py.slice_from l i = skipn (Z.to_nat i) l.
Proof.
  intros Hi. unfold Py.slice_from, Py.slice, Py.clamp.
  destruct (Z.ltb_spec i 0); [lia |].
  destruct (Z.le_gt_cases i (Py.len l)) as [Hle | Hgt].
  - rewrite Z.min_l by lia. apply firstn_all2. rewrite length_skipn.
    unfold Py.len in *. lia.
  - rewrite Z.min_r by lia.
    rewrite (skipn_all2 l (n := Z.to_nat i)) by (unfold Py.len in *; lia).
    rewrite skipn_all2 by (unfold Py.len in *; lia).
    apply firstn_nil.
Qed.

(** [l[-k:]] for [0 < k <= len(l)] keeps the last [k] elements. *)
Lemma slice_from_neg {A} (l : list A) (k : Z) :
  0 < k <= Py.len l ->
  Py.slice_from l (- k) = skipn (Z.to_nat (Py.len l - k)) l.
Proof.
  intros Hk. unfold Py.slice_from, Py.slice, Py.clamp.
  destruct (Z.ltb_spec (- k) 0); [| lia].
  rewrite Z.max_r by lia.
  replace (Py.len l + - k) with (Py.len l - k) by lia.
  apply firstn_all2. rewrite length_skipn. unfold Py.len in *. lia.
Qed.

(** [l[:j]] for [0 <= j] keeps the first [j] elements. *)
Lemma slice_upto_nonneg {A} (l : list A) (j : Z) :
  0 <= j -> Py.slice_upto l j = firstn (Z.to_nat j) l.
Proof.
  intros Hj. unfold Py.slice_upto, Py.slice, Py.clamp.
  destruct (Z.ltb_spec j 0); [lia |].
  rewrite Z.sub_0_r. simpl skipn.
  destruct (Z.le_gt_cases j (Py.len l)) as [Hle | Hgt].
  - rewrite Z.min_l by lia. reflexivity.
  - rewrite Z.min_r by lia. rewrite !firstn_all2; unfold Py.len in *; try lia.
    reflexivity.
Qed.

(** [l[i:j]] inside the list. *)
Lemma slice_between_inside {A} (l : list A) (i j : Z) :
  0 <= i <= j -> j <= Py.len l ->
  Py.slice_between l i j = firstn (Z.to_nat (j - i)) (skipn (Z.to_nat i) l).
Proof.
  intros Hi Hj. unfold Py.slice_between, Py.slice, Py.clamp.
  destruct (Z.ltb_spec i 0); [lia |]. destruct (Z.ltb_spec j 0); [lia |].
  rewrite !Z.min_l by lia. reflexivity.
Qed.

Lemma length_slice {A} (l : list A) (lo hi : option Z) :
  Z.of_nat (length (Py.slice l lo hi))
  = let n := Py.len l in
    let a := match lo with Some i => Py.clamp n i | None => 0 end in
    let b := match hi with Some j => Py.clamp n j | None => n end in
    Z.max 0 (Z.min (b - a) (n - a)).
Proof.
  unfold Py.slice. cbv zeta.
  set (n := Py.len l).
  set (a := match lo with Some i => Py.clamp n i | None => 0 end).
  set (b := match hi with Some j => Py.clamp n j | None => n end).
  assert (Ha : 0 <= a <= n).
  { subst a. pose proof (len_nonneg l). fold n in H.
    destruct lo as [i |]; [| lia]. unfold Py.clamp. destruct (i <? 0) eqn:E; lia. }
  rewrite length_firstn, length_skipn. unfold Py.len in n. lia.
Qed.

Lemma slice_app_middle {A} (x y z : list A) :
  Py.slice_between (x ++ y ++ z) (Py.len x) (Py.len x + Py.len y) = y.
Proof.
  pose proof (len_nonneg x). pose proof (len_nonneg y). pose proof (len_nonneg z).
  rewrite slice_between_inside by (rewrite ?len_app; lia).
  replace (Py.len x + Py.len y - Py.len x) with (Py.len y) by lia.
  unfold Py.len. rewrite !Nat2Z.id.
  rewrite skipn_app, skipn_all, Nat.sub_diag. simpl.
  rewrite firstn_app, firstn_all, Nat.sub_diag. simpl. apply app_nil_r.
Qed.

Lemma slice_upto_app {A} (x y : list A) :
  Py.slice_upto (x ++ y) (Py.len x) = x.
Proof.
  rewrite slice_upto_nonneg by apply len_nonneg.
  unfold Py.len. rewrite Nat2Z.id.
  rewrite firstn_app, firstn_all, Nat.sub_diag. simpl. apply app_nil_r.
Qed.

Lemma slice_from_app {A} (x y : list A) :
  Py.slice_from (x ++ y) (Py.len x) = y.
Proof.
  rewrite slice_from_nonneg by apply len_nonneg.
  unfold Py.len. rewrite Nat2Z.id.
  rewrite skipn_app, skipn_all, Nat.sub_diag. reflexivity.
Qed.

(* ------------------------------------------------------------------ *)
(** ** The RTU framer: what each method does to the framer *)

Ltac monad_unfold :=
  cbv beta iota zeta delta [bind ret get modify raise orRaise try_except].

Section RtuMethods.
Variable decoder : Decoder.
Variable computeCRC : list byte -> Z.

Local Abbreviation populateHeader := (Rtu.populateHeader decoder).
Local Abbreviation checkFrame := (Rtu.checkFrame decoder computeCRC).
Local Abbreviation isFrameReady := (Rtu.isFrameReady decoder).
Local Abbreviation getFrameStart := (Rtu.getFrameStart decoder).
Local Abbreviation _process := (Rtu._process decoder).
Local Abbreviation loop_body := (Rtu.loop_body decoder computeCRC).

(** The framer after [populateHeader] has gone through. *)
Local Abbreviation populated w b0 size :=
  (Rtu.set_crc (Py.slice_between (Rtu._buffer w) (size - 2) size)
     (Rtu.set_len size (Rtu.set_tid (Py.int b0) (Rtu.set_uid (Py.int b0) w)))).

Lemma populateHeader_eq (w : Rtu.Framer) :
  populateHeader None w =
  match Rtu._buffer w with
  | [] => (Raise IndexError, w)
  | b0 :: tl =>
      let w1 := Rtu.set_tid (Py.int b0) (Rtu.set_uid (Py.int b0) w) in
      match tl with
      | [] => (Raise IndexError, w1)
      | b1 :: _ =>
          match lookupPduClass decoder (Py.int b1) (Rtu._buffer w) with
          | None => (Raise IndexError, w1)
          | Some size =>
              if Py.len (Rtu._buffer w) <? size
              then (Raise IndexError, Rtu.set_len size w1)
              else (Ok size, populated w b0 size)
          end
      end
  end.
Proof.
  unfold Rtu.populateHeader, Rtu.get_expected_response_length. monad_unfold.
  destruct (Rtu._buffer w) as [| b0 [| b1 tl]] eqn:Eb.
  - rewrite getitem_nil. reflexivity.
  - rewrite getitem_0, getitem_1_single. reflexivity.
  - rewrite getitem_0, getitem_1. monad_unfold.
    destruct (lookupPduClass decoder (Py.int b1) (b0 :: b1 :: tl)) as [size |];
      [| reflexivity].
    destruct (Py.len (b0 :: b1 :: tl) <? size); reflexivity.
Qed.

Lemma populateHeader_frame (w w' : Rtu.Framer) (r : Res Z) :
  populateHeader None w = (r, w') ->
  Rtu._buffer w' = Rtu._buffer w /\ Rtu.called w' = Rtu.called w
  /\ (r = Raise IndexError \/ exists size, r = Ok size).
Proof.
  rewrite populateHeader_eq.
  destruct (Rtu._buffer w) as [| b0 [| b1 tl]] eqn:Eb; cbv zeta.
  - intros [= <- <-]. auto.
  - intros [= <- <-]. cbn. auto.
  - destruct (lookupPduClass decoder (Py.int b1) (b0 :: b1 :: tl)) as [size |].
    + destruct (Py.len (b0 :: b1 :: tl) <? size); intros [= <- <-]; cbn; eauto.
    + intros [= <- <-]. cbn. auto.
Qed.

(** [checkFrame] never raises and touches the header only; it returns
    [True] exactly when the PDU class sizes the frame within the buffer,
    the two bytes in front of that size are there, and the CRC of what
    precedes them is the big-endian word they spell. *)
Lemma checkFrame_eq (w : Rtu.Framer) :
  checkFrame w =
  match Rtu._buffer w with
  | [] => (Ok false, w)
  | b0 :: tl =>
      let w1 := Rtu.set_tid (Py.int b0) (Rtu.set_uid (Py.int b0) w) in
      match tl with
      | [] => (Ok false, w1)
      | b1 :: _ =>
          match lookupPduClass decoder (Py.int b1) (Rtu._buffer w) with
          | None => (Ok false, w1)
          | Some size =>
              if Py.len (Rtu._buffer w) <? size
              then (Ok false, Rtu.set_len size w1)
              else
                match Py.slice_between (Rtu._buffer w) (size - 2) size with
                | c0 :: c1 :: _ =>
                    (Ok (computeCRC (Py.slice_upto (Rtu._buffer w) (size - 2))
                         =? struct.be16 c0 c1),
                     populated w b0 size)
                | _ => (Ok false, populated w b0 size)
                end
          end
      end
  end.
Proof.
  unfold Rtu.checkFrame. monad_unfold. rewrite populateHeader_eq.
  destruct (Rtu._buffer w) as [| b0 [| b1 tl]] eqn:Eb; cbv zeta;
    try reflexivity.
  destruct (lookupPduClass decoder (Py.int b1) (b0 :: b1 :: tl)) as [size |];
    [| reflexivity].
  destruct (Py.len (b0 :: b1 :: tl) <? size); [reflexivity |].
  cbn [Rtu._header Rtu.set_crc Rtu.set_header Rtu.crc Rtu.len Rtu._buffer
       Rtu.set_len Rtu.set_tid Rtu.set_uid].
  rewrite Eb.
  destruct (Py.slice_between (b0 :: b1 :: tl) (size - 2) size)
    as [| c0 [| c1 more]].
  - rewrite getitem_nil. reflexivity.
  - rewrite getitem_0, getitem_1_single. reflexivity.
  - rewrite getitem_0, getitem_1. reflexivity.
Qed.

Lemma checkFrame_frame (w w' : Rtu.Framer) (r : Res bool) :
  checkFrame w = (r, w') ->
  Rtu._buffer w' = Rtu._buffer w /\ Rtu.called w' = Rtu.called w
  /\ exists ok, r = Ok ok.
Proof.
  rewrite checkFrame_eq.
  destruct (Rtu._buffer w) as [| b0 [| b1 tl]] eqn:Eb; cbv zeta.
  - intros [= <- <-]. eauto.
  - intros [= <- <-]. cbn. eauto.
  - destruct (lookupPduClass decoder (Py.int b1) (b0 :: b1 :: tl)) as [size |].
    + destruct (Py.len (b0 :: b1 :: tl) <? size).
      * intros [= <- <-]; cbn; eauto.
      * destruct (Py.slice_between (b0 :: b1 :: tl) (size - 2) size)
          as [| c0 [| c1 more]]; intros [= <- <-]; cbn; eauto.
    + intros [= <- <-]. cbn. eauto.
Qed.

(** What an accepted frame looks like. *)
Lemma checkFrame_true (w w' : Rtu.Framer) :
  checkFrame w = (Ok true, w') ->
  exists b0 b1 tl size c0 c1 more,
    Rtu._buffer w = b0 :: b1 :: tl
    /\ lookupPduClass decoder (Py.int b1) (Rtu._buffer w) = Some size
    /\ size <= Py.len (Rtu._buffer w)
    /\ Py.slice_between (Rtu._buffer w) (size - 2) size = c0 :: c1 :: more
    /\ computeCRC (Py.slice_upto (Rtu._buffer w) (size - 2))
       = struct.be16 c0 c1
    /\ w' = populated w b0 size.
Proof.
  rewrite checkFrame_eq.
  destruct (Rtu._buffer w) as [| b0 [| b1 tl]] eqn:Eb; cbv zeta;
    try discriminate.
  destruct (lookupPduClass decoder (Py.int b1) (b0 :: b1 :: tl))
    as [size |] eqn:El; [| discriminate].
  destruct (Z.ltb_spec (Py.len (b0 :: b1 :: tl)) size); [discriminate |].
  destruct (Py.slice_between (b0 :: b1 :: tl) (size - 2) size)
    as [| c0 [| c1 more]] eqn:Es; try discriminate.
  intros [= Hc <-]. apply Z.eqb_eq in Hc.
  exists b0, b1, tl, size, c0, c1, more. rewrite Es. repeat split; auto.
Qed.

Lemma isFrameReady_frame (w w' : Rtu.Framer) (r : Res bool) :
  isFrameReady w = (r, w') ->
  Rtu._buffer w' = Rtu._buffer w /\ Rtu.called w' = Rtu.called w
  /\ exists ready, r = Ok ready.
Proof.
  unfold Rtu.isFrameReady. monad_unfold.
  destruct ((Rtu.len (Rtu._header w) =? 0)
            && (Rtu._hsize <? Py.len (Rtu._buffer w))).
  - destruct (populateHeader None w) as [r0 w0] eqn:Ep.
    apply populateHeader_frame in Ep. destruct Ep as (Hb & Hc & [-> | [size ->]]).
    + cbn. intros [= <- <-]. eauto.
    + intros [= <- <-]. eauto.
  - intros [= <- <-]. eauto.
Qed.

Lemma resetFrame_eq (w : Rtu.Framer) :
  Rtu.resetFrame w
  = (Ok tt, Rtu.mkFramer (Rtu._buffer w) Rtu.zero_header (Rtu.called w)).
Proof. reflexivity. Qed.

End RtuMethods.

(* ------------------------------------------------------------------ *)
(** ** The CRC is a 16-bit value *)

Lemma lxor_u16 (a b : Z) :
  0 <= a < 65536 -> 0 <= b < 65536 -> 0 <= Z.lxor a b < 65536.
Proof.
  intros Ha Hb.
  assert (Hn : 0 <= Z.lxor a b) by (apply Z.lxor_nonneg; lia).
  split; [exact Hn |].
  destruct (Z.eq_dec (Z.lxor a b) 0) as [-> | Hz]; [lia |].
  change 65536 with (2 ^ 16). apply Z.log2_lt_pow2; [lia |].
  assert (La : Z.log2 a < 16).
  { destruct (Z.eq_dec a 0) as [-> | ?]; [reflexivity |].
    apply Z.log2_lt_pow2; [lia | change (2 ^ 16) with 65536; lia]. }
  assert (Lb : Z.log2 b < 16).
  { destruct (Z.eq_dec b 0) as [-> | ?]; [reflexivity |].
    apply Z.log2_lt_pow2; [lia | change (2 ^ 16) with 65536; lia]. }
  pose proof (Z.log2_lxor a b (proj1 Ha) (proj1 Hb)). lia.
Qed.

Lemma crc_shift_u16 (c : Z) :
  0 <= c < 65536 -> 0 <= utilities.crc_shift c < 65536.
Proof.
  intros Hc. unfold utilities.crc_shift.
  assert (Hs : 0 <= Z.shiftr c 1 < 32768).
  { rewrite Z.shiftr_div_pow2 by lia. change (2 ^ 1) with 2.
    split; [apply Z.div_pos; lia | apply Z.div_lt_upper_bound; lia]. }
  destruct (Z.testbit c 0); [apply lxor_u16; lia | lia].
Qed.

Lemma crc_byte_u16 (c : Z) (b : byte) :
  0 <= c < 65536 -> 0 <= utilities.crc_byte c b < 65536.
Proof.
  intros Hc. unfold utilities.crc_byte.
  assert (H0 : 0 <= Z.lxor c (Py.int b) < 65536).
  { apply lxor_u16; [exact Hc |]. pose proof (int_range b). lia. }
  generalize dependent (Z.lxor c (Py.int b)). intros x Hx.
  cbn [Nat.iter nat_rect]. repeat apply crc_shift_u16. exact Hx.
Qed.

Lemma computeCRC_u16 (data : list byte) :
  0 <= utilities.computeCRC data < 65536.
Proof.
  unfold utilities.computeCRC.
  assert (H0 : 0 <= 0xFFFF < 65536) by lia.
  generalize dependent 0xFFFF. induction data as [| b data IH]; intros c Hc.
  - exact Hc.
  - cbn [fold_left]. apply IH. apply crc_byte_u16. exact Hc.
Qed.

Lemma be16_eqb (a b c d : byte) :
  (struct.be16 a b =? struct.be16 c d) = Byte.eqb c a && Byte.eqb d b.
Proof.
  destruct (Z.eqb_spec (struct.be16 a b) (struct.be16 c d)) as [E | N].
  - apply be16_inj in E. destruct E as [-> ->].
    rewrite !Byte.byte_dec_lb by reflexivity. reflexivity.
  - destruct (Byte.eqb c a) eqn:Ea; [| reflexivity].
    destruct (Byte.eqb d b) eqn:Eb; [| reflexivity].
    apply Byte.byte_dec_bl in Ea, Eb. subst. contradiction.
Qed.

(* ------------------------------------------------------------------ *)
(** ** RTU: the encoder and the CRC check agree *)

(** C6.  For every message whose slave id and function code are bytes,
    the RTU [buildPacket] returns the slave id byte, the function code
    byte and the encoded data, followed by the two bytes of
    [computeCRC] of all that precedes, high byte first; and on a buffer
    that carries the same slave id, function code and data followed by two
    bytes (and possibly more input), sized by the PDU class to end after
    these two bytes, [checkFrame] returns [True] exactly when the two bytes
    are the ones [buildPacket] appends. *)
Theorem rtu_buildPacket_checkFrame_round_trip
    (decoder : Decoder) (computeCRC : list byte -> Z) (m : PDU) :
  (forall d, 0 <= computeCRC d < 65536) ->
  0 <= slave_id m < 256 ->
  0 <= function_code m < 256 ->
  exists u f hi lo,
    Py.int u = slave_id m /\ Py.int f = function_code m
    /\ struct.be16 hi lo = computeCRC ([u; f] ++ encode m)
    /\ Rtu.buildPacket computeCRC m
       = Ok ([u; f] ++ encode m ++ [hi; lo],
             set_transaction_id (slave_id m) m)
    /\ forall (w : Rtu.Framer) (c0 c1 : byte) (rest : list byte),
         Rtu._buffer w = [u; f] ++ encode m ++ [c0; c1] ++ rest ->
         lookupPduClass decoder (function_code m) (Rtu._buffer w)
           = Some (Py.len (encode m) + 4) ->
         fst (Rtu.checkFrame decoder computeCRC w)
           = Ok (Byte.eqb c0 hi && Byte.eqb c1 lo).
Proof.
  intros Hcrc Hu Hf.
  destruct (pack_B_ok _ Hu) as (u & Eu & Vu).
  destruct (pack_B_ok _ Hf) as (f & Ef & Vf).
  destruct (pack_H_ok _ (Hcrc ([u; f] ++ encode m))) as (hi & lo & Ec & Vc).
  exists u, f, hi, lo. repeat split; try assumption.
  - unfold Rtu.buildPacket, Rtu.pack_RTU_FRAME_HEADER, struct.pack_BB.
    rewrite Eu, Ef. cbn [struct.app_opt app] in *. rewrite Ec.
    reflexivity.
  - intros w c0 c1 rest Hbuf Hsize.
    rewrite checkFrame_eq. rewrite Hbuf in *. cbn [app]. cbv zeta.
    cbn [app] in Vc.
    rewrite Vf. cbn [app] in Hsize. rewrite Hsize.
    set (x := u :: f :: encode m).
    assert (Hx : Py.len x = Py.len (encode m) + 2)
      by (unfold x; rewrite !len_cons; lia).
    change (u :: f :: encode m ++ c0 :: c1 :: rest)
      with (x ++ [c0; c1] ++ rest).
    pose proof (len_nonneg rest) as Hr.
    destruct (Z.ltb_spec (Py.len (x ++ [c0; c1] ++ rest))
                (Py.len (encode m) + 4)) as [Hlt | _].
    { rewrite !len_app in Hlt. change (Py.len [c0; c1]) with 2 in Hlt. lia. }
    replace (Py.len (encode m) + 4 - 2) with (Py.len x) by lia.
    replace (Py.len (encode m) + 4) with (Py.len x + Py.len [c0; c1])
      by (change (Py.len [c0; c1]) with 2; lia).
    rewrite slice_app_middle, slice_upto_app. cbn [fst].
    unfold x. rewrite <- Vc. rewrite be16_eqb. reflexivity.
Qed.

Lemma rtu_buildPacket_checkFrame_round_trip_witness :
  exists u f hi lo,
    Py.int u = 1 /\ Py.int f = 3
    /\ struct.be16 hi lo
       = utilities.computeCRC ([u; f] ++ encode Demo.read_reply)
    /\ Rtu.buildPacket utilities.computeCRC Demo.read_reply
       = Ok ([u; f] ++ encode Demo.read_reply ++ [hi; lo],
             set_transaction_id 1 Demo.read_reply)
    /\ forall (w : Rtu.Framer) (c0 c1 : byte) (rest : list byte),
         Rtu._buffer w = [u; f] ++ encode Demo.read_reply ++ [c0; c1] ++ rest ->
         lookupPduClass Demo.decoder 3 (Rtu._buffer w) = Some (3 + 4) ->
         fst (Rtu.checkFrame Demo.decoder utilities.computeCRC w)
           = Ok (Byte.eqb c0 hi && Byte.eqb c1 lo).
Proof.
  apply (rtu_buildPacket_checkFrame_round_trip
           Demo.decoder utilities.computeCRC Demo.read_reply).
  - exact computeCRC_u16.
  - simpl. lia.
  - simpl. lia.
Defined.

(** The packet built for the reply of the examples and the framer's
    verdict on it. *)
Example rtu_buildPacket_read_reply :
  Rtu.buildPacket utilities.computeCRC Demo.read_reply
  = Ok (Demo.rtu_frame, set_transaction_id 1 Demo.read_reply)
  /\ fst (Rtu.checkFrame Demo.decoder utilities.computeCRC
            (Rtu.set_buffer Demo.rtu_frame Rtu.init)) = Ok true.
Proof. split; reflexivity. Qed.

(* ------------------------------------------------------------------ *)
(** ** RTU: the scan for a frame start *)

Lemma mem_In (x : Z) (xs : list Z) : Py.mem x xs = true <-> In x xs.
Proof.
  unfold Py.mem. rewrite existsb_exists. split.
  - intros (y & Hy & E). apply Z.eqb_eq in E. subst. exact Hy.
  - intros H. exists x. split; [exact H | apply Z.eqb_refl].
Qed.

Lemma is_start_plausible (decoder : Decoder) (slaves : list Z)
    (broadcast : bool) (buf : list byte) (i : nat) :
  (i + 1 < length buf)%nat ->
  Rtu.is_start decoder slaves broadcast buf i = true
  <-> plausible_start (lookup_keys decoder) slaves broadcast buf i.
Proof.
  intros Hi. unfold Rtu.is_start, plausible_start, Rtu.function_codes.
  destruct (nth_error buf i) as [a |] eqn:Ea;
    [| apply nth_error_None in Ea; lia].
  destruct (nth_error buf (S i)) as [b |] eqn:Eb;
    [| apply nth_error_None in Eb; lia].
  rewrite (nth_error_nth _ _ x00 Ea).
  replace (i + 1)%nat with (S i) by lia.
  rewrite (nth_error_nth _ _ x00 Eb).
  rewrite andb_true_iff, !negb_true_iff, !andb_false_iff, !negb_false_iff.
  rewrite !mem_In.
  split.
  - intros [H1 H2]. exists a, b. repeat split; assumption.
  - intros (a' & b' & [= <-] & [= <-] & H1 & H2). split; assumption.
Qed.

Lemma find_seq_least (f : nat -> bool) (n s i : nat) :
  find f (seq s n) = Some i ->
  (s <= i < s + n)%nat /\ f i = true
  /\ forall j, (s <= j < i)%nat -> f j = false.
Proof.
  revert s. induction n as [| n IH]; intros s; cbn [seq find].
  - discriminate.
  - destruct (f s) eqn:Es.
    + intros [= <-]. split; [lia |]. split; [exact Es |]. intros j Hj. lia.
    + intros H. apply IH in H. destruct H as (Hr & Hf & Hl).
      split; [lia |]. split; [exact Hf |].
      intros j Hj. destruct (Nat.eq_dec j s) as [-> | Hne]; [exact Es |].
      apply Hl. lia.
Qed.

Lemma find_seq_none (f : nat -> bool) (n s : nat) :
  find f (seq s n) = None -> forall j, (s <= j < s + n)%nat -> f j = false.
Proof.
  intros H j Hj. apply (find_none f _ H). apply in_seq. exact Hj.
Qed.

Lemma getFrameStart_eq (decoder : Decoder) (slaves : list Z)
    (broadcast skip : bool) (w : Rtu.Framer) :
  Rtu.getFrameStart decoder slaves broadcast skip w =
  let buf := Rtu._buffer w in
  let start := if skip then 1%nat else 0%nat in
  if (length buf <? 4)%nat then (Ok false, w)
  else
    match find (Rtu.is_start decoder slaves broadcast buf)
               (seq start (length buf - 3 - start)) with
    | Some 0%nat => (Ok true, w)
    | Some i => (Ok true, Rtu.set_buffer (skipn i buf) w)
    | None => (Ok false, Rtu.set_buffer (skipn (length buf - 3) buf) w)
    end.
Proof.
  unfold Rtu.getFrameStart. monad_unfold.
  destruct (Nat.ltb_spec (length (Rtu._buffer w)) 4) as [Hlt | Hge];
    [reflexivity |].
  destruct (find _ _) as [i |].
  - destruct i as [| i]; [reflexivity |].
    cbn [Nat.eqb]. rewrite slice_from_nonneg by lia.
    rewrite Nat2Z.id. reflexivity.
  - destruct (Nat.ltb_spec 3 (length (Rtu._buffer w))) as [_ | Hle]; [| lia].
    rewrite (slice_from_neg _ 3) by (unfold Py.len; lia).
    unfold Py.len.
    replace (Z.to_nat (Z.of_nat (length (Rtu._buffer w)) - 3))
      with (length (Rtu._buffer w) - 3)%nat by lia.
    reflexivity.
Qed.

Lemma framer_eta (w : Rtu.Framer) :
  Rtu.mkFramer (Rtu._buffer w) (Rtu._header w) (Rtu.called w) = w.
Proof. destruct w; reflexivity. Qed.

(** [getFrameStart] raises nothing and only ever drops bytes from the
    front of the buffer: at least [start] of them and fewer than
    [len(buffer) - 3] when it reports success, all but the last three when
    it reports failure on a buffer of more than three bytes. *)
Lemma getFrameStart_run (decoder : Decoder) (slaves : list Z)
    (broadcast skip : bool) (w : Rtu.Framer) :
  exists (found : bool) (n : nat),
    Rtu.getFrameStart decoder slaves broadcast skip w
    = (Ok found,
       Rtu.mkFramer (skipn n (Rtu._buffer w)) (Rtu._header w) (Rtu.called w))
    /\ (n <= length (Rtu._buffer w))%nat
    /\ (found = true ->
        ((if skip then 1 else 0) <= n)%nat
        /\ (n + 3 < length (Rtu._buffer w))%nat)
    /\ (found = false -> (3 < length (Rtu._buffer w))%nat ->
        n = (length (Rtu._buffer w) - 3)%nat).
Proof.
  rewrite getFrameStart_eq. cbv zeta.
  destruct (Nat.ltb_spec (length (Rtu._buffer w)) 4) as [Hlt | Hge].
  - exists false, 0%nat. cbn [skipn]. rewrite framer_eta.
    split; [reflexivity |]. split; [lia |].
    split; [discriminate | intros _ H; lia].
  - destruct (find _ _) as [i |] eqn:Ef.
    + apply find_seq_least in Ef. destruct Ef as (Hr & _ & _).
      exists true, i. split.
      * destruct i; [cbn [skipn]; rewrite framer_eta |]; reflexivity.
      * split; [lia |]. split; [| discriminate].
        intros _. destruct skip; lia.
    + exists false, (length (Rtu._buffer w) - 3)%nat.
      split; [reflexivity |]. split; [lia |].
      split; [discriminate | reflexivity].
Qed.

(** C5, amended.  [getFrameStart] finds the smallest index [n], from 1 on
    when the previous frame was rejected and from 0 on otherwise, that
    leaves at least four bytes in the buffer ([n + 3 < len(buffer)]) and is
    a plausible start; on success it discards exactly the [n] bytes in
    front of it and reports success; when no index in that range is a
    plausible start it reports failure and keeps only the last three bytes
    of a buffer of more than three bytes (a shorter buffer is left as it
    is).  Header and callback are not touched and nothing is raised. *)
Theorem getFrameStart_scan (decoder : Decoder) (slaves : list Z)
    (broadcast skip : bool) (w : Rtu.Framer) :
  let buf := Rtu._buffer w in
  let start := if skip then 1%nat else 0%nat in
  let P := plausible_start (lookup_keys decoder) slaves broadcast buf in
  exists (found : bool) (n : nat),
    Rtu.getFrameStart decoder slaves broadcast skip w
    = (Ok found, Rtu.mkFramer (skipn n buf) (Rtu._header w) (Rtu.called w))
    /\ if found
       then (start <= n)%nat /\ (n + 3 < length buf)%nat /\ P n
            /\ forall j, (start <= j < n)%nat -> ~ P j
       else (forall j, (start <= j)%nat -> (j + 3 < length buf)%nat -> ~ P j)
            /\ n = if (3 <? length buf)%nat then (length buf - 3)%nat
                   else 0%nat.
Proof.
  cbv zeta. rewrite getFrameStart_eq. cbv zeta.
  set (buf := Rtu._buffer w). set (start := if skip then 1%nat else 0%nat).
  destruct (Nat.ltb_spec (length buf) 4) as [Hlt | Hge].
  - exists false, 0%nat. cbn [skipn]. unfold buf. rewrite framer_eta.
    split; [reflexivity |]. split.
    + intros j _ Hj. fold buf in Hj. lia.
    + fold buf. destruct (Nat.ltb_spec 3 (length buf)); [lia | reflexivity].
  - destruct (find _ _) as [i |] eqn:Ef.
    + apply find_seq_least in Ef. destruct Ef as (Hr & Hi & Hl).
      exists true, i. split.
      * destruct i; [cbn [skipn]; unfold buf; rewrite framer_eta |];
          reflexivity.
      * assert (Hs : (start <= 1)%nat) by (unfold start; destruct skip; lia).
        split; [lia |]. split; [lia |]. split.
        -- apply is_start_plausible; [lia | exact Hi].
        -- intros j Hj Hp. apply is_start_plausible in Hp; [| lia].
           rewrite Hl in Hp by lia. discriminate.
    + exists false, (length buf - 3)%nat. split; [reflexivity |]. split.
      * intros j Hj Hj3 Hp. apply is_start_plausible in Hp; [| lia].
        rewrite (find_seq_none _ _ _ Ef) in Hp by lia. discriminate.
      * destruct (Nat.ltb_spec 3 (length buf)); [reflexivity | lia].
Qed.

(** The claim C5 as it is worded fails: index 3 of this six-byte buffer is
    the smallest plausible start (slave 1, function code 3), yet the scan,
    which stops three bytes before the end, reports failure. *)
Lemma getFrameStart_misses_start_in_last_three :
  let buf := [x09; x09; x09; x01; x03; x00] in
  let P := plausible_start (lookup_keys Demo.decoder) [1] false buf in
  P 3%nat /\ (forall j, (j < 3)%nat -> ~ P j)
  /\ Rtu.getFrameStart Demo.decoder [1] false false
       (Rtu.set_buffer buf Rtu.init)
     = (Ok false, Rtu.set_buffer [x01; x03; x00] Rtu.init).
Proof.
  cbv zeta. split; [| split].
  - exists x01, x03. cbn. intuition.
  - intros j Hj (a & b & Ha & _ & [Hb | Hs] & _); [discriminate |].
    destruct j as [| [| [| j]]]; try lia; cbn in Ha;
      injection Ha as <-; cbn in Hs; intuition discriminate.
  - reflexivity.
Qed.

(** Scenario 2 of section 8: two bytes of noise in front of a frame. *)
Example getFrameStart_resync :
  Rtu.getFrameStart Demo.decoder [1] false false
    (Rtu.set_buffer ([xff; xff] ++ Demo.rtu_frame) Rtu.init)
  = (Ok true, Rtu.set_buffer Demo.rtu_frame Rtu.init).
Proof. reflexivity. Qed.

(* ------------------------------------------------------------------ *)
(** ** RTU: a frame that fails the CRC check *)

Lemma getFrameStart_found (decoder : Decoder) (slaves : list Z)
    (broadcast skip : bool) (w w' : Rtu.Framer) (found : bool) :
  Rtu.getFrameStart decoder slaves broadcast skip w = (Ok found, w') ->
  exists n,
    w' = Rtu.mkFramer (skipn n (Rtu._buffer w)) (Rtu._header w) (Rtu.called w)
    /\ (n <= length (Rtu._buffer w))%nat
    /\ (found = true ->
        ((if skip then 1 else 0) <= n)%nat
        /\ (n + 3 < length (Rtu._buffer w))%nat)
    /\ (found = false -> (3 < length (Rtu._buffer w))%nat ->
        n = (length (Rtu._buffer w) - 3)%nat).
Proof.
  intros H.
  destruct (getFrameStart_run decoder slaves broadcast skip w)
    as (found' & n & E & Hn).
  rewrite E in H. injection H as <- <-.
  exists n. split; [reflexivity | exact Hn].
Qed.

(** The whole call on scenario 3: nothing is handed to the callback,
    nothing is raised, and the last three bytes stay in the buffer. *)
Example rtu_crc_failure_scenario :
  Rtu.frameProcessIncomingPacket Demo.decoder utilities.computeCRC false [1]
    (Rtu.set_buffer [x01; x03; x02; x00; x0a; x00; x00] Rtu.init)
  = (Ok tt, Rtu.set_buffer [x0a; x00; x00] Rtu.init).
Proof. reflexivity. Qed.

(* ------------------------------------------------------------------ *)
(** ** RTU: one turn of the loop *)

Lemma _process_eq (decoder : Decoder) (w : Rtu.Framer) :
  Rtu._process decoder false w =
  let h := Rtu._header w in
  let data := if 0 <? Rtu.len h - 2
              then Py.slice_between (Rtu._buffer w) Rtu._hsize (Rtu.len h - 2)
              else [] in
  match decode decoder data with
  | None => (Raise (ModbusIOException "Unable to decode request"), w)
  | Some result =>
      match Rtu.tid h with
      | None => (Raise KeyError, w)
      | Some t =>
          (Ok tt,
           Rtu.mkFramer (Py.slice_from (Rtu._buffer w) (Rtu.len h))
             (Rtu.mkHeader 0 None 0 [x00; x00])
             (Rtu.called w
              ++ [set_transaction_id t (set_slave_id (Rtu.uid h) result)]))
      end
  end.
Proof.
  unfold Rtu._process, Rtu.getFrame, Rtu.populateResult, Rtu.advanceFrame,
    Rtu.callback.
  monad_unfold.
  destruct (0 <? Rtu.len (Rtu._header w) - 2);
    (destruct (decode decoder _) as [result |]; [| reflexivity];
     cbn [andb]; destruct (Rtu.tid (Rtu._header w)); reflexivity).
Qed.

(** Advancing over a frame that [checkFrame] accepted shortens the
    buffer, whatever the sign of the size the PDU class returned. *)
Lemma advance_shrinks (buf c : list byte) (size : Z) :
  size <= Py.len buf ->
  Py.slice_between buf (size - 2) size = c ->
  (2 <= length c)%nat ->
  (length (Py.slice_from buf size) < length buf)%nat.
Proof.
  intros Hs Hc Hl.
  assert (H1 := length_slice buf (Some (size - 2)) (Some size)).
  assert (H2 := length_slice buf (Some size) None).
  fold (Py.slice_between buf (size - 2) size) in H1. rewrite Hc in H1.
  fold (Py.slice_from buf size) in H2.
  cbv zeta in H1, H2. unfold Py.clamp in H1, H2.
  pose proof (len_nonneg buf) as Hn. unfold Py.len in *.
  destruct (size - 2 <? 0) eqn:E1; destruct (size <? 0) eqn:E2; lia.
Qed.

(** What one turn does: nothing but [ModbusIOException] is ever raised,
    and then buffer and callback are as before the turn; a turn that goes
    round again either has rejected the candidate, leaving the buffer alone
    and setting [skip_cur_frame], or has delivered one PDU and shortened
    the buffer; every PDU delivered carries the first byte of the buffer
    both as slave id and as transaction id. *)
Lemma loop_body_run (decoder : Decoder) (computeCRC : list byte -> Z)
    (single : bool) (slave : list Z) (skip : bool) (w w' : Rtu.Framer)
    (r : Res Rtu.Turn) :
  Rtu.loop_body decoder computeCRC single slave skip w = (r, w') ->
  (exists new,
     Rtu.called w' = Rtu.called w ++ new
     /\ Forall (fun p => exists b rest,
                  Rtu._buffer w = b :: rest
                  /\ slave_id p = Py.int b /\ transaction_id p = Py.int b) new)
  /\ match r with
     | Ok Rtu.Break =>
         Rtu._buffer w' = Rtu._buffer w /\ Rtu.called w' = Rtu.called w
     | Ok (Rtu.Continue s) =>
         (s = true /\ Rtu._buffer w' = Rtu._buffer w
          /\ Rtu.called w' = Rtu.called w)
         \/ (s = skip
             /\ (length (Rtu._buffer w') < length (Rtu._buffer w))%nat)
     | Raise e =>
         e = ModbusIOException "Unable to decode request"
         /\ Rtu._buffer w' = Rtu._buffer w /\ Rtu.called w' = Rtu.called w
     end.
Proof.
  unfold Rtu.loop_body. monad_unfold.
  destruct (Rtu.isFrameReady decoder w) as [r1 w1] eqn:E1.
  destruct (isFrameReady_frame _ _ _ _ E1) as (Hb1 & Hc1 & [ready ->]).
  destruct ready; cbn [negb].
  2:{ intros [= <- <-]. split; [| auto].
      exists []. rewrite app_nil_r. auto. }
  destruct (Rtu.checkFrame decoder computeCRC w1) as [r2 w2] eqn:E2.
  destruct (checkFrame_frame _ _ _ _ _ E2) as (Hb2 & Hc2 & [ok ->]).
  destruct ok; cbn [negb].
  2:{ rewrite resetFrame_eq. intros [= <- <-]. cbn [Rtu._buffer Rtu.called].
      split; [exists []; rewrite app_nil_r; split; [congruence | constructor] |].
      left. repeat split; congruence. }
  apply checkFrame_true in E2.
  destruct E2 as (b0 & b1 & tl & size & c0 & c1 & more
                  & Hbuf & Hsz & Hle & Hcrc & _ & Hw2).
  unfold Rtu._validate_slave_id. monad_unfold.
  destruct (if single then _ else _) as [r3 w3] eqn:E3.
  assert (H3 : exists valid, r3 = Ok valid /\ w3 = w2).
  { destruct single; [injection E3 as <- <-; eauto |].
    destruct (Py.mem 0 slave); injection E3 as <- <-; eauto. }
  destruct H3 as (valid & -> & ->). clear E3.
  destruct valid; cbn [negb].
  2:{ rewrite resetFrame_eq. intros [= <- <-]. cbn [Rtu._buffer Rtu.called].
      split; [exists []; rewrite app_nil_r; split; [congruence | constructor] |].
      left. repeat split; congruence. }
  rewrite _process_eq. cbv zeta.
  assert (Hh : Rtu._header w2
               = Rtu.mkHeader (Py.int b0) (Some (Py.int b0)) size
                   (Py.slice_between (Rtu._buffer w1) (size - 2) size)).
  { rewrite Hw2. reflexivity. }
  rewrite Hh. cbn [Rtu.len Rtu.tid Rtu.uid].
  destruct (decode decoder _) as [result |].
  - intros [= <- <-]. cbn [Rtu._buffer Rtu.called]. split.
    + eexists. split; [rewrite Hc2, Hc1; reflexivity |].
      constructor; [| constructor].
      exists b0, (b1 :: tl). rewrite <- Hb1. auto.
    + right. split; [reflexivity |].
      rewrite Hb2, <- Hb1.
      apply (advance_shrinks _ _ _ Hle Hcrc). cbn [length]. lia.
  - intros [= <- <-]. split.
    + exists []. rewrite app_nil_r. split; [congruence | constructor].
    + repeat split; congruence.
Qed.

(* ------------------------------------------------------------------ *)
(** ** RTU: the loop of [frameProcessIncomingPacket] *)

Section RtuLoop.
Variable decoder : Decoder.
Variable computeCRC : list byte -> Z.
Variable single : bool.
Variable slave : list Z.
Variable broadcast : bool.

Local Abbreviation while_ fuel skip :=
  (Rtu.while_getFrameStart decoder computeCRC fuel single slave broadcast skip).

(** The turns left to go are bounded by this measure. *)
Local Abbreviation measure w skip :=
  (2 * length (Rtu._buffer w) + (if skip : bool then 0 else 1))%nat.

Lemma while_terminates (fuel : nat) :
  forall (skip : bool) (w : Rtu.Framer),
    (measure w skip < fuel)%nat -> fst (while_ fuel skip w) <> Ok false.
Proof.
  induction fuel as [| fuel IH]; intros skip w Hm; [lia |].
  cbn [Rtu.while_getFrameStart]. monad_unfold.
  destruct (Rtu.getFrameStart decoder slave broadcast skip w)
    as [r1 w1] eqn:E1.
  destruct (getFrameStart_run decoder slave broadcast skip w)
    as (found & n & E & _). rewrite E in E1.
  injection E1 as <- <-.
  apply getFrameStart_found in E.
  destruct E as (n' & Hw1 & Hn' & Hfound & _).
  destruct found; cbn [negb]; [| cbn; discriminate].
  destruct (Hfound eq_refl) as (Hstart & _).
  set (w1 := Rtu.mkFramer (skipn n (Rtu._buffer w)) (Rtu._header w)
               (Rtu.called w)) in *.
  assert (Hlen1 : (length (Rtu._buffer w1) = length (Rtu._buffer w) - n')%nat).
  { rewrite Hw1. cbn [Rtu._buffer]. apply length_skipn. }
  destruct (Rtu.loop_body decoder computeCRC single slave skip w1)
    as [r2 w2] eqn:E2.
  apply loop_body_run in E2. destruct E2 as (_ & H2).
  destruct r2 as [[| s] | e]; cbn [fst]; try discriminate.
  apply IH.
  destruct H2 as [(-> & Hb & _) | (-> & Hlt)].
  - rewrite Hb, Hlen1. destruct skip; lia.
  - destruct skip; lia.
Qed.

Lemma while_fuel_mono (fuel : nat) :
  forall (fuel' : nat) (skip : bool) (w w' : Rtu.Framer) (r : Res bool),
    (fuel <= fuel')%nat ->
    while_ fuel skip w = (r, w') -> r <> Ok false ->
    while_ fuel' skip w = (r, w').
Proof.
  induction fuel as [| fuel IH]; intros fuel' skip w w' r Hle.
  - cbn. intros [= <- <-] H. contradiction.
  - destruct fuel' as [| fuel']; [lia |].
    cbn [Rtu.while_getFrameStart]. monad_unfold.
    destruct (Rtu.getFrameStart decoder slave broadcast skip w) as [r1 w1].
    destruct r1 as [found | e]; [| auto].
    destruct found; cbn [negb]; [| auto].
    destruct (Rtu.loop_body decoder computeCRC single slave skip w1)
      as [r2 w2].
    destruct r2 as [[| s] | e]; auto.
    apply IH. lia.
Qed.

(** Whatever the loop hands to the callback carries its slave id as
    transaction id; the loop raises nothing but [ModbusIOException]. *)
Lemma while_run (fuel : nat) :
  forall (skip : bool) (w w' : Rtu.Framer) (r : Res bool),
    while_ fuel skip w = (r, w') ->
    (exists new,
       Rtu.called w' = Rtu.called w ++ new
       /\ Forall (fun p => transaction_id p = slave_id p) new)
    /\ (forall e, r = Raise e ->
          e = ModbusIOException "Unable to decode request").
Proof.
  induction fuel as [| fuel IH]; intros skip w w' r.
  - cbn. intros [= <- <-]. split; [| discriminate].
    exists []. rewrite app_nil_r. auto.
  - cbn [Rtu.while_getFrameStart]. monad_unfold.
    destruct (Rtu.getFrameStart decoder slave broadcast skip w)
      as [r1 w1] eqn:E1.
    destruct (getFrameStart_run decoder slave broadcast skip w)
      as (found & n & E & _). rewrite E in E1.
    injection E1 as <- <-.
    destruct found; cbn [negb].
    2:{ intros [= <- <-]. cbn [Rtu.called]. split; [| discriminate].
        exists []. rewrite app_nil_r. auto. }
    destruct (Rtu.loop_body decoder computeCRC single slave skip _)
      as [r2 w2] eqn:E2.
    apply loop_body_run in E2. destruct E2 as ((new & Hc & Hnew) & H2).
    cbn [Rtu.called] in Hc.
    assert (Hnew' : Forall (fun p => transaction_id p = slave_id p) new).
    { eapply Forall_impl; [| exact Hnew].
      intros p (b & rest & _ & Hs & Ht). congruence. }
    destruct r2 as [[| s] | e].
    + intros [= <- <-]. split; [eauto | discriminate].
    + intros H. apply IH in H. destruct H as ((new2 & Hc2 & Hnew2) & Hr).
      split; [| exact Hr].
      exists (new ++ new2). rewrite Hc2, Hc, app_assoc.
      split; [reflexivity | apply Forall_app; auto].
    + intros [= <- <-]. split; [eauto |].
      intros e' [= <-]. apply H2.
Qed.

End RtuLoop.

(** [frameProcessIncomingPacket] runs its loop to the end: the turns it is
    given are never used up, and more turns give the same result. *)
Lemma frameProcessIncomingPacket_total (decoder : Decoder)
    (computeCRC : list byte -> Z) (single : bool) (slave : list Z)
    (broadcast : bool) (w : Rtu.Framer) :
  exists r w',
    Rtu.while_getFrameStart decoder computeCRC (Rtu.turns w) single slave
      broadcast false w = (r, w')
    /\ r <> Ok false
    /\ forall fuel, (Rtu.turns w <= fuel)%nat ->
         Rtu.while_getFrameStart decoder computeCRC fuel single slave
           broadcast false w = (r, w').
Proof.
  destruct (Rtu.while_getFrameStart decoder computeCRC (Rtu.turns w) single
              slave broadcast false w) as [r w'] eqn:E.
  assert (Hr : r <> Ok false).
  { pose proof (while_terminates decoder computeCRC single slave broadcast
                  (Rtu.turns w) false w) as H.
    rewrite E in H. apply H. unfold Rtu.turns. lia. }
  exists r, w'. split; [reflexivity |]. split; [exact Hr |].
  intros fuel Hf. eapply while_fuel_mono; eauto.
Qed.

(** Turns beyond what the measure asks for make no difference. *)
Lemma while_fuel_enough (decoder : Decoder) (computeCRC : list byte -> Z)
    (single : bool) (slave : list Z) (broadcast skip : bool)
    (w : Rtu.Framer) (fuel fuel' : nat) :
  (2 * length (Rtu._buffer w) + (if skip then 0 else 1) < fuel)%nat ->
  (2 * length (Rtu._buffer w) + (if skip then 0 else 1) < fuel')%nat ->
  Rtu.while_getFrameStart decoder computeCRC fuel single slave broadcast
    skip w
  = Rtu.while_getFrameStart decoder computeCRC fuel' single slave broadcast
      skip w.
Proof.
  intros Hf Hf'.
  set (m := (2 * length (Rtu._buffer w) + (if skip then 0 else 1))%nat) in *.
  destruct (Rtu.while_getFrameStart decoder computeCRC (S m) single slave
              broadcast skip w) as [r w'] eqn:E.
  assert (Hr : r <> Ok false).
  { pose proof (while_terminates decoder computeCRC single slave broadcast
                  (S m) skip w) as H.
    rewrite E in H. apply H. unfold m. lia. }
  rewrite (while_fuel_mono decoder computeCRC single slave broadcast
             (S m) fuel skip w w' r) by (assumption || lia).
  rewrite (while_fuel_mono decoder computeCRC single slave broadcast
             (S m) fuel' skip w w' r) by (assumption || lia).
  reflexivity.
Qed.

(* ------------------------------------------------------------------ *)
(** ** RTU: a candidate that fails the CRC check *)

(** C4.  A candidate that fails the CRC check inside
    [frameProcessIncomingPacket].  Let the scan of a turn of the loop have
    accepted a candidate ([getFrameStart] returned [True]) that is ready
    and fails [checkFrame].  Then the body of the turn hands nothing to the
    callback, raises nothing and leaves the buffer as it was, and the loop
    goes round again with [skip_cur_frame] set: the loop started before the
    scan is the loop resumed after the turn with the flag [True].  The scan
    the loop runs next therefore starts at index 1: it drops at least one
    byte from the front of the failed candidate, whether or not it finds
    another start, so that the same start is not accepted again; when it
    finds none the loop ends there.  When the failed candidate is the first
    of a call, the whole call of [frameProcessIncomingPacket] is the loop
    resumed after that turn with the flag set, and it returns normally with
    the trimmed buffer when the next scan finds no start. *)
Theorem rtu_crc_failure_resync (decoder : Decoder)
    (computeCRC : list byte -> Z) (single : bool) (slave : list Z)
    (broadcast skip : bool) (w0 w w1 w2 : Rtu.Framer) :
  Rtu.getFrameStart decoder slave broadcast skip w0 = (Ok true, w) ->
  Rtu.isFrameReady decoder w = (Ok true, w1) ->
  Rtu.checkFrame decoder computeCRC w1 = (Ok false, w2) ->
  exists (w3 : Rtu.Framer) (found : bool) (n : nat) (w4 : Rtu.Framer),
    Rtu.loop_body decoder computeCRC single slave skip w
    = (Ok (Rtu.Continue true), w3)
    /\ Rtu.called w3 = Rtu.called w0
    /\ Rtu._buffer w3 = Rtu._buffer w
    /\ (forall fuel,
          Rtu.while_getFrameStart decoder computeCRC (S fuel) single slave
            broadcast skip w0
          = Rtu.while_getFrameStart decoder computeCRC fuel single slave
              broadcast true w3)
    /\ Rtu.getFrameStart decoder slave broadcast true w3 = (Ok found, w4)
    /\ (1 <= n)%nat
    /\ Rtu._buffer w4 = skipn n (Rtu._buffer w)
    /\ (length (Rtu._buffer w4) < length (Rtu._buffer w))%nat
    /\ Rtu.called w4 = Rtu.called w0
    /\ (found = false ->
        forall fuel,
          Rtu.while_getFrameStart decoder computeCRC (S (S fuel)) single
            slave broadcast skip w0
          = (Ok true, w4))
    /\ (forall (s0 : Z) (slave' : list Z),
          slave = s0 :: slave' -> broadcast = (s0 =? 0) -> skip = false ->
          Rtu.frameProcessIncomingPacket decoder computeCRC single slave w0
          = (Rtu.while_getFrameStart decoder computeCRC (Rtu.turns w3)
               single slave broadcast true ;;; ret tt) w3
          /\ (found = false ->
              Rtu.frameProcessIncomingPacket decoder computeCRC single slave
                w0
              = (Ok tt, w4))).
Proof.
  intros Hstart Hready Hcheck.
  pose proof Hstart as Hscan.
  apply getFrameStart_found in Hstart.
  destruct Hstart as (n0 & Hw & Hle0 & Hn0 & _).
  destruct (Hn0 eq_refl) as (_ & Hlen0).
  assert (Hlen : (4 <= length (Rtu._buffer w))%nat).
  { rewrite Hw. cbn [Rtu._buffer]. rewrite length_skipn. lia. }
  assert (Hshort : (length (Rtu._buffer w) <= length (Rtu._buffer w0))%nat).
  { rewrite Hw. cbn [Rtu._buffer]. rewrite length_skipn. lia. }
  assert (Hcalled : Rtu.called w = Rtu.called w0) by (rewrite Hw; reflexivity).
  destruct (isFrameReady_frame _ _ _ _ Hready) as (Hb1 & Hc1 & _).
  destruct (checkFrame_frame _ _ _ _ _ Hcheck) as (Hb2 & Hc2 & _).
  set (w3 := Rtu.mkFramer (Rtu._buffer w2) Rtu.zero_header (Rtu.called w2)).
  assert (Hbody : Rtu.loop_body decoder computeCRC single slave skip w
                  = (Ok (Rtu.Continue true), w3)).
  { unfold Rtu.loop_body. monad_unfold. rewrite Hready. cbn [negb].
    rewrite Hcheck. cbn [negb]. rewrite resetFrame_eq. reflexivity. }
  assert (Hb3 : Rtu._buffer w3 = Rtu._buffer w) by (cbn; congruence).
  assert (Hc3 : Rtu.called w3 = Rtu.called w0) by (cbn; congruence).
  assert (Hstep : forall fuel,
            Rtu.while_getFrameStart decoder computeCRC (S fuel) single slave
              broadcast skip w0
            = Rtu.while_getFrameStart decoder computeCRC fuel single slave
                broadcast true w3).
  { intros fuel. cbn [Rtu.while_getFrameStart]. monad_unfold.
    rewrite Hscan. cbn [negb]. rewrite Hbody. reflexivity. }
  destruct (getFrameStart_run decoder slave broadcast true w3)
    as (found & n & E & Hle & Htrue & Hfalse).
  rewrite Hb3 in Hle, Htrue, Hfalse.
  set (w4 := Rtu.mkFramer (skipn n (Rtu._buffer w3)) (Rtu._header w3)
               (Rtu.called w3)) in *.
  assert (Hn1 : (1 <= n <= length (Rtu._buffer w))%nat).
  { destruct found.
    - destruct (Htrue eq_refl). lia.
    - rewrite (Hfalse eq_refl) by lia. lia. }
  assert (Hend : found = false ->
            forall fuel,
              Rtu.while_getFrameStart decoder computeCRC (S fuel) single
                slave broadcast true w3
              = (Ok true, w4)).
  { intros -> fuel. cbn [Rtu.while_getFrameStart]. monad_unfold.
    rewrite E. reflexivity. }
  exists w3, found, n, w4.
  split; [exact Hbody |]. split; [exact Hc3 |]. split; [exact Hb3 |].
  split; [exact Hstep |]. split; [exact E |]. split; [lia |].
  split; [unfold w4; cbn [Rtu._buffer]; rewrite Hb3; reflexivity |].
  split.
  { unfold w4. cbn [Rtu._buffer]. rewrite Hb3, length_skipn. lia. }
  split; [exact Hc3 |].
  split.
  { intros Hf fuel. rewrite Hstep. apply Hend. exact Hf. }
  intros s0 slave' -> -> ->.
  assert (Hcall : Rtu.frameProcessIncomingPacket decoder computeCRC single
                    (s0 :: slave') w0
                  = (Rtu.while_getFrameStart decoder computeCRC (Rtu.turns w3)
                       single (s0 :: slave') (s0 =? 0) true ;;; ret tt) w3).
  { unfold Rtu.frameProcessIncomingPacket. monad_unfold. rewrite getitem_0.
    unfold Rtu.turns.
    replace (2 * length (Rtu._buffer w0) + 2)%nat
      with (S (2 * length (Rtu._buffer w0) + 1)) by lia.
    rewrite Hstep.
    rewrite (while_fuel_enough decoder computeCRC single (s0 :: slave')
               (s0 =? 0) true w3 (2 * length (Rtu._buffer w0) + 1)
               (2 * length (Rtu._buffer w3) + 2))
      by (rewrite Hb3; lia).
    reflexivity. }
  split; [exact Hcall |].
  intros Hf. rewrite Hcall. monad_unfold. unfold Rtu.turns.
  replace (2 * length (Rtu._buffer w3) + 2)%nat
    with (S (2 * length (Rtu._buffer w3) + 1)) by lia.
  rewrite (Hend Hf). reflexivity.
Qed.

(** Scenario 3 of section 8: [01 03 02 00 0A 00 00], a wrong CRC. *)
Lemma rtu_crc_failure_resync_witness :
  let w := Rtu.set_buffer [x01; x03; x02; x00; x0a; x00; x00] Rtu.init in
  exists (w3 : Rtu.Framer) (n : nat) (w4 : Rtu.Framer),
    Rtu.loop_body Demo.decoder utilities.computeCRC false [1] false w
    = (Ok (Rtu.Continue true), w3)
    /\ Rtu.called w3 = Rtu.called w
    /\ Rtu._buffer w3 = Rtu._buffer w
    /\ (1 <= n)%nat
    /\ Rtu._buffer w4 = skipn n (Rtu._buffer w)
    /\ Rtu.called w4 = Rtu.called w
    /\ Rtu.frameProcessIncomingPacket Demo.decoder utilities.computeCRC
         false [1] w
       = (Ok tt, w4).
Proof.
  cbv zeta.
  set (w := Rtu.set_buffer [x01; x03; x02; x00; x0a; x00; x00] Rtu.init).
  set (w1 := Rtu.set_crc [x00; x00]
               (Rtu.set_len 7 (Rtu.set_tid 1 (Rtu.set_uid 1 w)))).
  assert (H0 : Rtu.getFrameStart Demo.decoder [1] false false w
               = (Ok true, w)) by (vm_compute; reflexivity).
  assert (H1 : Rtu.isFrameReady Demo.decoder w = (Ok true, w1))
    by (vm_compute; reflexivity).
  assert (H2 : Rtu.checkFrame Demo.decoder utilities.computeCRC w1
               = (Ok false, w1)) by (vm_compute; reflexivity).
  destruct (rtu_crc_failure_resync Demo.decoder utilities.computeCRC
              false [1] false false w w w1 w1 H0 H1 H2)
    as (w3 & found & n & w4 & Hbody & Hc3 & Hb3 & _ & Hscan & Hn & Hb4 & _
        & Hc4 & _ & Hcall).
  destruct (Hcall 1 [] eq_refl eq_refl eq_refl) as (_ & Hend).
  exists w3, n, w4.
  repeat (split; [assumption |]).
  apply Hend.
  assert (Hw3 : w3 = Rtu.mkFramer [x01; x03; x02; x00; x0a; x00; x00]
                       Rtu.zero_header []).
  { vm_compute in Hbody. injection Hbody as <-. reflexivity. }
  rewrite Hw3 in Hscan. vm_compute in Hscan. injection Hscan as <- _.
  reflexivity.
Defined.

(* ------------------------------------------------------------------ *)
(** ** RTU: the slave id stands in for the transaction id *)

(** C9.  On the RTU framer the transaction id of a PDU is its slave id.
    [buildPacket], unless [struct.pack] refuses the message, hands the
    message back with its transaction id set to its slave id.  On receive,
    every PDU that a turn of the loop hands to the callback has both its
    slave id and its transaction id set to the first byte of the frame,
    the uid; so every PDU that [frameProcessIncomingPacket] hands to the
    callback has its transaction id equal to its slave id. *)
Theorem rtu_transaction_id_is_slave_id (decoder : Decoder)
    (computeCRC : list byte -> Z) :
  (forall m : PDU,
     Rtu.buildPacket computeCRC m = Raise StructError
     \/ exists packet m',
          Rtu.buildPacket computeCRC m = Ok (packet, m')
          /\ transaction_id m' = slave_id m'
          /\ slave_id m' = slave_id m)
  /\ (forall (single : bool) (slave : list Z) (skip : bool) (w : Rtu.Framer),
        let w' := snd (Rtu.loop_body decoder computeCRC single slave skip w) in
        exists new,
          Rtu.called w' = Rtu.called w ++ new
          /\ Forall (fun p => exists uid rest,
                       Rtu._buffer w = uid :: rest
                       /\ slave_id p = Py.int uid
                       /\ transaction_id p = Py.int uid) new)
  /\ (forall (single : bool) (slave : list Z) (w : Rtu.Framer),
        let w' := snd (Rtu.frameProcessIncomingPacket decoder computeCRC
                         single slave w) in
        exists new,
          Rtu.called w' = Rtu.called w ++ new
          /\ Forall (fun p => transaction_id p = slave_id p) new).
Proof.
  split; [| split].
  - intros m. unfold Rtu.buildPacket.
    destruct (Rtu.pack_RTU_FRAME_HEADER _ _) as [hd |]; [| auto].
    destruct (struct.pack_H _) as [c |]; [| auto].
    right. eexists. eexists. split; [reflexivity |]. split; reflexivity.
  - intros single slave skip w. cbv zeta.
    destruct (Rtu.loop_body decoder computeCRC single slave skip w)
      as [r w'] eqn:E.
    apply loop_body_run in E. apply E.
  - intros single slave w. cbv zeta.
    unfold Rtu.frameProcessIncomingPacket. monad_unfold.
    destruct (Py.getitem slave 0) as [s0 |].
    2:{ cbn. exists []. rewrite app_nil_r. auto. }
    destruct (Rtu.while_getFrameStart decoder computeCRC (Rtu.turns w) single
                slave (s0 =? 0) false w) as [r w'] eqn:E.
    apply while_run in E. destruct E as (Hnew & _).
    destruct r; exact Hnew.
Qed.

(** Scenario 1 of section 8 with the CRC bytes that [buildPacket] emits:
    one frame is delivered, slave id and transaction id both 1. *)
Example rtu_frame_delivered :
  Rtu.frameProcessIncomingPacket Demo.decoder utilities.computeCRC false [1]
    (Rtu.set_buffer Demo.rtu_frame Rtu.init)
  = (Ok tt,
     Rtu.mkFramer [] (Rtu.mkHeader 0 None 0 [x00; x00])
       [mkPDU 3 1 1 0 [x02; x00; x0a]]).
Proof. reflexivity. Qed.

(* ------------------------------------------------------------------ *)
(** ** RTU: a well-framed message that does not decode *)

(** When the PDU decoder refuses the payload, [_process] raises and leaves
    the framer exactly as it found it. *)
Lemma _process_decode_failure (decoder : Decoder) (w w1 : Rtu.Framer)
    (data : list byte) :
  Rtu.getFrame w = (Ok data, w1) ->
  decode decoder data = None ->
  Rtu._process decoder false w
  = (Raise (ModbusIOException "Unable to decode request"), w).
Proof.
  unfold Rtu.getFrame. monad_unfold. intros Hg Hd. rewrite _process_eq.
  cbv zeta.
  destruct (0 <? Rtu.len (Rtu._header w) - 2); injection Hg as <- _;
    rewrite Hd; reflexivity.
Qed.

(* ------------------------------------------------------------------ *)
(** ** The socket framer: one call of [frameProcessIncomingPacket] *)

Section SocketMethods.
Variable decoder : Decoder.

(** A frame that passed [checkFrame] and the slave check and whose
    payload decodes: the header is cleared, the buffer advanced, and the
    result is either dropped together with the rest of the buffer or handed
    to the callback. *)
Lemma socket_process_decoded (single : bool) (slave : list Socket.Slave)
    (tid : option Z) (w w1 : Socket.Framer) (data : list byte)
    (result r : PDU) :
  Socket.checkFrame w = (Ok true, w1) ->
  Socket._validate_slave_id slave single w1 = (Ok true, w1) ->
  Socket.getFrame w1 = (Ok data, w1) ->
  decode decoder data = Some result ->
  Socket.populateResult result w1 = (Ok r, w1) ->
  Socket.frameProcessIncomingPacket decoder single slave tid w
  = (Ok tt,
     if Socket.tid_mismatch tid r
     then Socket.mkFramer [] (Socket.mkHeader 0 0 0 0)
            (Socket.transport w1) (Socket.called w1)
     else Socket.mkFramer
            (Py.slice_from (Socket._buffer w1)
               (Socket._hsize + Socket.len (Socket._header w1)))
            (Socket.mkHeader 0 0 0 0)
            (Socket.transport w1) (Socket.called w1 ++ [r])).
Proof.
  intros Hc Hv Hg Hd Hp.
  unfold Socket.frameProcessIncomingPacket. monad_unfold.
  rewrite Hc. cbn [negb]. rewrite Hv. cbn [negb].
  unfold Socket._process. monad_unfold. rewrite Hg, Hd. cbn [andb].
  rewrite Hp.
  unfold Socket.advanceFrame, Socket.resetFrame, Socket.callback.
  monad_unfold.
  destruct (Socket.tid_mismatch tid r); reflexivity.
Qed.

Lemma socket_checkFrame_frame (w w1 : Socket.Framer) :
  Socket.checkFrame w = (Ok true, w1) ->
  Socket._buffer w1 = Socket._buffer w
  /\ Socket.transport w1 = Socket.transport w
  /\ Socket.called w1 = Socket.called w.
Proof.
  unfold Socket.checkFrame, Socket.isFrameReady, Socket.advanceFrame.
  monad_unfold.
  destruct (Socket._hsize <? Py.len (Socket._buffer w)); cbn [negb];
    [| discriminate].
  destruct (struct.unpack_HHHB _) as [[[[t p] l] u] |]; [| discriminate].
  destruct (l <? 2); [discriminate |].
  destruct (l <=? _); [| discriminate].
  intros [= <-]. auto.
Qed.

End SocketMethods.

(* ------------------------------------------------------------------ *)
(** ** The socket framer and the expected transaction id *)

(** C8, amended.  When [frameProcessIncomingPacket] is given an expected
    transaction id other than 0 and the transaction id of the decoded PDU,
    which [populateResult] takes from the MBAP header, differs from it, the
    call returns without raising, the callback is not invoked, and buffer
    and header are reset. *)
Theorem socket_tid_mismatch_drops (decoder : Decoder) (single : bool)
    (slave : list Socket.Slave) (t : Z) (w w1 : Socket.Framer)
    (data : list byte) (result r : PDU) :
  t <> 0 ->
  Socket.checkFrame w = (Ok true, w1) ->
  Socket._validate_slave_id slave single w1 = (Ok true, w1) ->
  Socket.getFrame w1 = (Ok data, w1) ->
  decode decoder data = Some result ->
  Socket.populateResult result w1 = (Ok r, w1) ->
  transaction_id r <> t ->
  Socket.frameProcessIncomingPacket decoder single slave (Some t) w
  = (Ok tt,
     Socket.mkFramer [] (Socket.mkHeader 0 0 0 0)
       (Socket.transport w) (Socket.called w)).
Proof.
  intros Ht Hc Hv Hg Hd Hp Hne.
  rewrite (socket_process_decoded decoder single slave (Some t) w w1 data
             result r Hc Hv Hg Hd Hp).
  destruct (socket_checkFrame_frame _ _ Hc) as (_ & -> & ->).
  unfold Socket.tid_mismatch.
  destruct (Z.eqb_spec t 0); [contradiction |].
  destruct (Z.eqb_spec t (transaction_id r)); [congruence |].
  reflexivity.
Qed.

(** The frame of scenario 4, tid 1, while a reply to transaction 2 is
    expected. *)
Lemma socket_tid_mismatch_drops_witness :
  Socket.frameProcessIncomingPacket Demo.decoder false [Socket.Unit 1]
    (Some 2) (Socket.set_buffer Demo.mbap_frame (Socket.init None))
  = (Ok tt, Socket.init None).
Proof.
  eapply (socket_tid_mismatch_drops Demo.decoder false [Socket.Unit 1] 2
            (Socket.set_buffer Demo.mbap_frame (Socket.init None))).
  - lia.
  - vm_compute. reflexivity.
  - vm_compute. reflexivity.
  - vm_compute. reflexivity.
  - vm_compute. reflexivity.
  - vm_compute. reflexivity.
  - vm_compute. congruence.
Defined.

(** The claim C8 as it is worded fails for the expected transaction id 0:
    the frame of scenario 4 has transaction id 1, which differs from 0, and
    is handed to the callback all the same. *)
Lemma socket_tid_zero_mismatch_is_delivered :
  let w := Socket.set_buffer Demo.mbap_frame (Socket.init None) in
  let w' := snd (Socket.frameProcessIncomingPacket Demo.decoder false
                   [Socket.Unit 1] (Some 0) w) in
  exists r, Socket.called w' = [r] /\ transaction_id r = 1 /\ 1 <> 0.
Proof.
  cbv zeta. eexists. split; [vm_compute; reflexivity |].
  split; [reflexivity | lia].
Qed.

(** C10.  With the expected transaction id 0 the filter is off: a frame
    that passes the checks and decodes is handed to the callback with the
    header's transaction id, whatever that is. *)
Theorem socket_tid_zero_disables_filter (decoder : Decoder) (single : bool)
    (slave : list Socket.Slave) (w w1 : Socket.Framer)
    (data : list byte) (result r : PDU) :
  Socket.checkFrame w = (Ok true, w1) ->
  Socket._validate_slave_id slave single w1 = (Ok true, w1) ->
  Socket.getFrame w1 = (Ok data, w1) ->
  decode decoder data = Some result ->
  Socket.populateResult result w1 = (Ok r, w1) ->
  exists w',
    Socket.frameProcessIncomingPacket decoder single slave (Some 0) w
    = (Ok tt, w')
    /\ Socket.called w' = Socket.called w ++ [r]
    /\ transaction_id r = Socket.tid (Socket._header w1).
Proof.
  intros Hc Hv Hg Hd Hp.
  rewrite (socket_process_decoded decoder single slave (Some 0) w w1 data
             result r Hc Hv Hg Hd Hp).
  destruct (socket_checkFrame_frame _ _ Hc) as (_ & _ & Hcalled).
  cbn [Socket.tid_mismatch Z.eqb negb andb].
  eexists. split; [reflexivity |]. cbn [Socket.called].
  split; [congruence |].
  unfold Socket.populateResult in Hp. monad_unfold.
  injection Hp as <-. reflexivity.
Qed.

(** A frame with transaction id 7 while 0 is expected. *)
Lemma socket_tid_zero_disables_filter_witness :
  exists w',
    Socket.frameProcessIncomingPacket Demo.decoder false [Socket.Unit 1]
      (Some 0)
      (Socket.set_buffer
         [x00; x07; x00; x00; x00; x06; x01; x03; x00; x00; x00; x0a]
         (Socket.init None))
    = (Ok tt, w')
    /\ Socket.called w' = [] ++ [mkPDU 3 1 7 0 [x00; x00; x00; x0a]]
    /\ transaction_id (mkPDU 3 1 7 0 [x00; x00; x00; x0a]) = 7.
Proof.
  apply (socket_tid_zero_disables_filter Demo.decoder false [Socket.Unit 1]
           (Socket.set_buffer
              [x00; x07; x00; x00; x00; x06; x01; x03; x00; x00; x00; x0a]
              (Socket.init None))
           (Socket.mkFramer
              [x00; x07; x00; x00; x00; x06; x01; x03; x00; x00; x00; x0a]
              (Socket.mkHeader 7 0 6 1) None [])
           [x03; x00; x00; x00; x0a]
           (mkPDU 3 0 0 0 [x00; x00; x00; x0a])
           (mkPDU 3 1 7 0 [x00; x00; x00; x0a])).
  - vm_compute. reflexivity.
  - vm_compute. reflexivity.
  - vm_compute. reflexivity.
  - vm_compute. reflexivity.
  - vm_compute. reflexivity.
Defined.

(* ------------------------------------------------------------------ *)
(** ** The socket framer: how far a frame reaches *)

(** With [length] the value of the MBAP length field, [checkFrame] is
    content with [_hsize - 1 + length] bytes in the buffer, while
    [getFrame] reads up to [_hsize + length] and [advanceFrame] drops
    [_hsize + length] bytes. *)
Lemma socket_frame_extent (w w1 : Socket.Framer) :
  Socket.checkFrame w = (Ok true, w1) ->
  let length := Socket.len (Socket._header w1) in
  Socket._hsize - 1 + length <= Py.len (Socket._buffer w)
  /\ fst (Socket.getFrame w1)
     = Ok (Py.slice_between (Socket._buffer w) Socket._hsize
             (Socket._hsize + length))
  /\ Socket._buffer (snd (Socket.advanceFrame w1))
     = Py.slice_from (Socket._buffer w) (Socket._hsize + length).
Proof.
  unfold Socket.checkFrame, Socket.isFrameReady, Socket.advanceFrame,
    Socket.getFrame.
  monad_unfold.
  destruct (Socket._hsize <? Py.len (Socket._buffer w)); cbn [negb];
    [| discriminate].
  destruct (struct.unpack_HHHB _) as [[[[t p] l] u] |]; [| discriminate].
  destruct (l <? 2); [discriminate |].
  destruct (Z.leb_spec l (Py.len (Socket._buffer w) - Socket._hsize + 1));
    [| discriminate].
  intros [= <-].
  cbn [Socket._header Socket.len Socket.set_header Socket.set_buffer
       Socket._buffer fst snd].
  repeat split. unfold Socket._hsize in *. lia.
Qed.

(** A header whose length field is below 2: [checkFrame] answers [False]
    without raising, hands nothing to the callback, and drops
    [_hsize + length] bytes. *)
Lemma socket_checkFrame_short_length (w : Socket.Framer) (t p l u : Z) :
  Socket._hsize < Py.len (Socket._buffer w) ->
  struct.unpack_HHHB (Py.slice_between (Socket._buffer w) 0 Socket._hsize)
  = Some (t, p, l, u) ->
  l < 2 ->
  Socket.checkFrame w
  = (Ok false,
     Socket.mkFramer (Py.slice_from (Socket._buffer w) (Socket._hsize + l))
       (Socket.mkHeader 0 0 0 0) (Socket.transport w) (Socket.called w)).
Proof.
  intros Hr Hu Hl.
  unfold Socket.checkFrame, Socket.isFrameReady, Socket.advanceFrame.
  monad_unfold.
  destruct (Z.ltb_spec Socket._hsize (Py.len (Socket._buffer w))); [| lia].
  cbn [negb]. rewrite Hu.
  destruct (Z.ltb_spec l 2); [| lia]. reflexivity.
Qed.

(** C3, the code at a failing input.  A header with length field 1 is
    followed by the frame of scenario 4.  [checkFrame] answers [False] and
    raises nothing, but it drops eight bytes, the header and the first
    byte of the frame behind it, so that the next call finds no frame. *)
Theorem socket_short_length_drops_eight_bytes :
  let header := [x00; x01; x00; x00; x00; x01; x01] in
  let w := Socket.set_buffer (header ++ Demo.mbap_frame) (Socket.init None) in
  let w' := snd (Socket.checkFrame w) in
  fst (Socket.checkFrame w) = Ok false
  /\ Socket._buffer w' = skipn 8 (header ++ Demo.mbap_frame)
  /\ Socket._buffer w' <> Demo.mbap_frame
  /\ Socket.called
       (snd (Socket.poll Demo.decoder 2 false [Socket.Unit 1] None w')) = [].
Proof.
  cbv zeta. repeat split; try reflexivity. vm_compute. discriminate.
Qed.

(** With length field 0 the seven header bytes are what is dropped. *)
Example socket_zero_length_drops_header :
  Socket.checkFrame
    (Socket.set_buffer
       ([x00; x01; x00; x00; x00; x00; x01] ++ Demo.mbap_frame)
       (Socket.init None))
  = (Ok false, Socket.set_buffer Demo.mbap_frame (Socket.init None)).
Proof. reflexivity. Qed.

Lemma socket_poll_stuck (decoder : Decoder) (single : bool)
    (slave : list Socket.Slave) (tid : option Z) (w : Socket.Framer) :
  Socket.frameProcessIncomingPacket decoder single slave tid w = (Ok tt, w) ->
  forall n, Socket.poll decoder n single slave tid w = (Ok tt, w).
Proof.
  intros H n. induction n as [| n IH]; [reflexivity |].
  cbn [Socket.poll]. monad_unfold. rewrite H. exact IH.
Qed.

(** C1, the code at a failing input.  The buffer holds the frame of
    scenario 4 twice, back to back, each 6 + 6 bytes long.  The first call
    hands over a payload of six bytes, the five of the frame and the first
    byte of the next frame, and advances by 13 bytes; what is left does
    not parse as a frame, and however often the framer is polled the second
    frame is never delivered. *)
Theorem socket_back_to_back_frames_lost :
  let w := Socket.set_buffer (Demo.mbap_frame ++ Demo.mbap_frame)
             (Socket.init None) in
  let call :=
    Socket.frameProcessIncomingPacket Demo.decoder false [Socket.Unit 1]
      None in
  fst (call w) = Ok tt
  /\ Socket.called (snd (call w))
     = [mkPDU 3 1 1 0 [x00; x00; x00; x0a; x00]]
  /\ Socket._buffer (snd (call w))
     = skipn 13 (Demo.mbap_frame ++ Demo.mbap_frame)
  /\ forall n,
       Socket.called
         (snd (Socket.poll Demo.decoder (2 + n) false [Socket.Unit 1] None w))
       = [mkPDU 3 1 1 0 [x00; x00; x00; x0a; x00]].
Proof.
  cbv zeta. repeat split; try reflexivity.
  intros n.
  change (2 + n)%nat with (S (S n)). cbn [Socket.poll]. monad_unfold.
  set (w1 := snd (Socket.frameProcessIncomingPacket Demo.decoder false
                    [Socket.Unit 1] None
                    (Socket.set_buffer (Demo.mbap_frame ++ Demo.mbap_frame)
                       (Socket.init None)))).
  assert (E1 : Socket.frameProcessIncomingPacket Demo.decoder false
                 [Socket.Unit 1] None
                 (Socket.set_buffer (Demo.mbap_frame ++ Demo.mbap_frame)
                    (Socket.init None)) = (Ok tt, w1)) by reflexivity.
  rewrite E1.
  set (w2 := snd (Socket.frameProcessIncomingPacket Demo.decoder false
                    [Socket.Unit 1] None w1)).
  assert (E2 : Socket.frameProcessIncomingPacket Demo.decoder false
                 [Socket.Unit 1] None w1 = (Ok tt, w2)) by reflexivity.
  rewrite E2.
  rewrite socket_poll_stuck by reflexivity.
  reflexivity.
Qed.

(** One frame alone in the buffer is delivered as scenario 4 has it. *)
Example socket_single_frame_delivered :
  Socket.frameProcessIncomingPacket Demo.decoder false [Socket.Unit 1] None
    (Socket.set_buffer Demo.mbap_frame (Socket.init None))
  = (Ok tt,
     Socket.mkFramer [] (Socket.mkHeader 0 0 0 0) None
       [mkPDU 3 1 1 0 [x00; x00; x00; x0a]]).
Proof. reflexivity. Qed.

(* ------------------------------------------------------------------ *)
(** ** The socket framer: further properties *)


Lemma socket_header_slice (h rest : list byte) :
  Py.len h = Socket._hsize ->
  Py.slice_between (h ++ rest) 0 Socket._hsize = h.
Proof.
  intros Hh. rewrite <- Hh.
  change (h ++ rest) with ([] ++ h ++ rest).
  apply (slice_app_middle [] h rest).
Qed.

(** [checkFrame] by cases on the buffer: [struct.unpack] always gets its
    seven bytes. *)
Lemma socket_checkFrame_eq (w : Socket.Framer) :
  Socket.checkFrame w =
  match Socket._buffer w with
  | t1 :: t0 :: p1 :: p0 :: l1 :: l0 :: u :: _ :: _ =>
      let l := struct.be16 l1 l0 in
      if l <? 2
      then (Ok false,
            Socket.mkFramer
              (Py.slice_from (Socket._buffer w) (Socket._hsize + l))
              (Socket.mkHeader 0 0 0 0) (Socket.transport w)
              (Socket.called w))
      else (Ok (l <=? Py.len (Socket._buffer w) - Socket._hsize + 1),
            Socket.set_header
              (Socket.mkHeader (struct.be16 t1 t0) (struct.be16 p1 p0) l
                 (Py.int u)) w)
  | _ => (Ok false, w)
  end.
Proof.
  unfold Socket.checkFrame, Socket.isFrameReady, Socket.advanceFrame.
  monad_unfold.
  destruct (Socket._buffer w)
    as [| t1 [| t0 [| p1 [| p0 [| l1 [| l0 [| u [| b rest]]]]]]]] eqn:E;
    try reflexivity.
  assert (H : Socket._hsize < Py.len (t1 :: t0 :: p1 :: p0 :: l1 :: l0 :: u
                                     :: b :: rest)).
  { unfold Socket._hsize, Py.len. cbn [length]. lia. }
  destruct (Z.ltb_spec Socket._hsize
              (Py.len (t1 :: t0 :: p1 :: p0 :: l1 :: l0 :: u :: b :: rest)));
    [| lia].
  cbn [negb]. rewrite !E.
  change (t1 :: t0 :: p1 :: p0 :: l1 :: l0 :: u :: b :: rest)
    with ([t1; t0; p1; p0; l1; l0; u] ++ b :: rest).
  rewrite socket_header_slice by reflexivity.
  cbn [app struct.unpack_HHHB]. cbv zeta.
  destruct (struct.be16 l1 l0 <? 2).
  - cbn [Socket._buffer Socket._header Socket.set_header Socket.set_buffer
         Socket.len Socket.transport Socket.called].
    rewrite E. reflexivity.
  - destruct (struct.be16 l1 l0 <=? _); reflexivity.
Qed.

Lemma socket_validate_run (slaves : list Socket.Slave) (single : bool)
    (w : Socket.Framer) :
  exists valid, Socket._validate_slave_id slaves single w = (Ok valid, w).
Proof.
  unfold Socket._validate_slave_id. monad_unfold.
  destruct single; [eauto |].
  destruct (Socket.mem (Socket.Unit 0) slaves); [eauto |].
  destruct (Socket.transport w) as [t |]; [| eauto].
  destruct (Socket.peername t); eauto.
Qed.

Lemma socket_process_eq (decoder : Decoder) (tid : option Z)
    (w : Socket.Framer) :
  Socket._process decoder tid false w =
  let l := Socket.len (Socket._header w) in
  let h := Socket._header w in
  match decode decoder
          (Py.slice_between (Socket._buffer w) Socket._hsize
             (Socket._hsize + l)) with
  | None =>
      (Raise (ModbusIOException "Unable to decode request"),
       Socket.mkFramer [] (Socket.mkHeader 0 0 0 0) (Socket.transport w)
         (Socket.called w))
  | Some result =>
      let r := set_protocol_id (Socket.pid h)
                 (set_transaction_id (Socket.tid h)
                    (set_slave_id (Socket.uid h) result)) in
      (Ok tt,
       if Socket.tid_mismatch tid r
       then Socket.mkFramer [] (Socket.mkHeader 0 0 0 0) (Socket.transport w)
              (Socket.called w)
       else Socket.mkFramer
              (Py.slice_from (Socket._buffer w) (Socket._hsize + l))
              (Socket.mkHeader 0 0 0 0) (Socket.transport w)
              (Socket.called w ++ [r]))
  end.
Proof.
  unfold Socket._process, Socket.getFrame, Socket.populateResult,
    Socket.advanceFrame, Socket.resetFrame, Socket.callback.
  monad_unfold.
  destruct (decode decoder _) as [result |]; [| reflexivity].
  cbn [andb].
  destruct (Socket.tid_mismatch tid _); reflexivity.
Qed.

Lemma socket_call_outcome (decoder : Decoder) (single : bool)
    (slave : list Socket.Slave) (tid : option Z) (w : Socket.Framer) :
  socket_outcome tid w
    (fst (Socket.frameProcessIncomingPacket decoder single slave tid w))
    (snd (Socket.frameProcessIncomingPacket decoder single slave tid w)).
Proof.
  unfold Socket.frameProcessIncomingPacket. monad_unfold.
  rewrite socket_checkFrame_eq.
  destruct (Socket._buffer w)
    as [| t1 [| t0 [| p1 [| p0 [| l1 [| l0 [| u [| b rest]]]]]]]] eqn:E;
    try (cbn [negb fst snd]; apply so_untouched; rewrite E;
         unfold Py.len, Socket._hsize; cbn [length]; lia).
  cbv zeta. set (l := struct.be16 l1 l0).
  destruct (Z.ltb_spec l 2) as [Hl | Hl].
  { cbn [negb fst snd]. rewrite <- E. apply so_short. exact Hl. }
  set (h := Socket.mkHeader _ _ l _).
  destruct (Z.leb_spec l (Py.len (t1 :: t0 :: p1 :: p0 :: l1 :: l0 :: u
                                   :: b :: rest) - Socket._hsize + 1))
    as [Hr | Hr]; cbn [negb].
  2:{ cbn [fst snd]. apply so_waiting. rewrite E. exact Hr. }
  destruct (socket_validate_run slave single (Socket.set_header h w))
    as (valid & ->).
  destruct valid; cbn [negb].
  2:{ cbn [fst snd]. apply so_reset. }
  rewrite socket_process_eq. cbv zeta.
  cbn [Socket._buffer Socket._header Socket.set_header Socket.len
       Socket.transport Socket.called].
  destruct (decode decoder _) as [result |]; cbn [fst snd].
  2:{ apply so_undecodable. }
  destruct (Socket.tid_mismatch tid _) eqn:Em.
  - apply so_reset.
  - apply (so_delivered tid w l); [exact Hl | | exact Em].
    rewrite E. unfold Socket._hsize in *. lia.
Qed.

(** [l[i:]] is a suffix of [l], whatever [i]. *)
Lemma slice_from_suffix {A} (l : list A) (i : Z) :
  exists n, (n <= length l)%nat /\ Py.slice_from l i = skipn n l.
Proof.
  unfold Py.slice_from, Py.slice.
  set (a := Py.clamp (Py.len l) i).
  assert (Ha : 0 <= a <= Py.len l).
  { unfold a, Py.clamp. pose proof (len_nonneg l).
    destruct (Z.ltb_spec i 0); lia. }
  clearbody a. exists (Z.to_nat a). unfold Py.len in *. split; [lia |].
  apply firstn_all2. rewrite length_skipn. lia.
Qed.

Lemma pack_H_inv (v : Z) (bs : list byte) :
  struct.pack_H v = Some bs ->
  exists hi lo, bs = [hi; lo] /\ struct.be16 hi lo = v.
Proof.
  intros H.
  assert (Hv : 0 <= v < 65536).
  { destruct (Z.le_gt_cases 0 v); destruct (Z.lt_ge_cases v 65536);
      try lia; rewrite pack_H_error in H by lia; discriminate. }
  destruct (pack_H_ok v Hv) as (hi & lo & E & Hbe).
  rewrite E in H. injection H as <-. eauto.
Qed.

Lemma pack_B_inv (v : Z) (bs : list byte) :
  struct.pack_B v = Some bs -> exists b, bs = [b] /\ Py.int b = v.
Proof.
  intros H.
  assert (Hv : 0 <= v < 256).
  { destruct (Z.le_gt_cases 0 v); destruct (Z.lt_ge_cases v 256);
      try lia; rewrite pack_B_error in H by lia; discriminate. }
  destruct (pack_B_ok v Hv) as (b & E & Hb).
  rewrite E in H. injection H as <-. eauto.
Qed.

(** What [buildPacket] returns when it returns: eight bytes that spell the
    message's ids, and the encoded data. *)
Lemma socket_buildPacket_inv (m : PDU) (packet : list byte) :
  Socket.buildPacket m = Ok packet ->
  exists t1 t0 p1 p0 l1 l0 u f,
    packet = [t1; t0; p1; p0; l1; l0; u] ++ f :: encode m
    /\ struct.be16 t1 t0 = transaction_id m
    /\ struct.be16 p1 p0 = protocol_id m
    /\ struct.be16 l1 l0 = Py.len (encode m) + 2
    /\ Py.int u = slave_id m
    /\ Py.int f = function_code m.
Proof.
  unfold Socket.buildPacket, Socket.pack_SOCKET_FRAME_HEADER,
    struct.pack_HHHBB.
  destruct (struct.pack_H (transaction_id m)) as [bt |] eqn:Et;
    [| discriminate].
  destruct (struct.pack_H (protocol_id m)) as [bp |] eqn:Ep; [| discriminate].
  destruct (struct.pack_H (Py.len (encode m) + 2)) as [bl |] eqn:El;
    [| discriminate].
  destruct (struct.pack_B (slave_id m)) as [bu |] eqn:Eu; [| discriminate].
  destruct (struct.pack_B (function_code m)) as [bf |] eqn:Ef;
    [| discriminate].
  apply pack_H_inv in Et, Ep, El. apply pack_B_inv in Eu, Ef.
  destruct Et as (t1 & t0 & -> & Ht). destruct Ep as (p1 & p0 & -> & Hp).
  destruct El as (l1 & l0 & -> & Hl). destruct Eu as (u & -> & Hu).
  destruct Ef as (f & -> & Hf).
  cbn [struct.app_opt app]. intros [= <-].
  exists t1, t0, p1, p0, l1, l0, u, f. repeat split; assumption.
Qed.

(** X1.  The socket framer's [decode_data] reads back what [buildPacket]
    wrote: whenever [buildPacket] returns a packet, [decode_data] of that
    packet gives the message's transaction id, protocol id, the length
    [len(data) + 2], its slave id and its function code. *)
Theorem socket_decode_data_buildPacket (m : PDU) (packet : list byte) :
  Socket.buildPacket m = Ok packet ->
  Socket.decode_data packet
  = Ok (Some (transaction_id m, protocol_id m, Py.len (encode m) + 2,
              slave_id m, function_code m)).
Proof.
  intros H. apply socket_buildPacket_inv in H.
  destruct H as (t1 & t0 & p1 & p0 & l1 & l0 & u & f
                 & -> & Ht & Hp & Hl & Hu & Hf).
  unfold Socket.decode_data.
  pose proof (len_nonneg (encode m)) as Hn.
  destruct (Z.ltb_spec Socket._hsize
              (Py.len ([t1; t0; p1; p0; l1; l0; u] ++ f :: encode m)))
    as [_ | Hle].
  2:{ unfold Py.len, Socket._hsize in Hle. rewrite length_app in Hle.
      cbn [length] in Hle. lia. }
  change ([t1; t0; p1; p0; l1; l0; u] ++ f :: encode m)
    with ([] ++ [t1; t0; p1; p0; l1; l0; u; f] ++ encode m).
  change 0 with (Py.len (@nil byte)) at 1.
  change (Socket._hsize + 1)
    with (Py.len (@nil byte) + Py.len [t1; t0; p1; p0; l1; l0; u; f]).
  rewrite slice_app_middle. cbn [struct.unpack_HHHBB].
  rewrite Ht, Hp, Hl, Hu, Hf. reflexivity.
Qed.

Lemma socket_decode_data_buildPacket_witness :
  Socket.decode_data Demo.mbap_frame = Ok (Some (1, 0, 4 + 2, 1, 3)).
Proof.
  apply (socket_decode_data_buildPacket
           (mkPDU 3 1 1 0 [x00; x00; x00; x0a]) Demo.mbap_frame).
  reflexivity.
Defined.


(** A call on a buffer that starts with a complete frame: the header is
    stored and the call goes on to the slave check. *)
Lemma socket_call_ready (decoder : Decoder) (single : bool)
    (slave : list Socket.Slave) (tid : option Z) (w : Socket.Framer)
    (t1 t0 p1 p0 l1 l0 u : byte) (body : list byte) :
  Socket._buffer w = [t1; t0; p1; p0; l1; l0; u] ++ body ->
  2 <= struct.be16 l1 l0 ->
  struct.be16 l1 l0 - 1 <= Py.len body ->
  Socket.frameProcessIncomingPacket decoder single slave tid w
  = (valid <- Socket._validate_slave_id slave single ;;
     if negb valid then Socket.resetFrame
     else Socket._process decoder tid false)
      (Socket.set_header
         (Socket.mkHeader (struct.be16 t1 t0) (struct.be16 p1 p0)
            (struct.be16 l1 l0) (Py.int u)) w).
Proof.
  intros Hb Hl Hc.
  unfold Socket.frameProcessIncomingPacket.
  cbv beta iota zeta delta [bind]. rewrite socket_checkFrame_eq, Hb.
  destruct body as [| b rest].
  { unfold Py.len in Hc. cbn [length] in Hc. lia. }
  cbn [app]. cbv zeta.
  destruct (Z.ltb_spec (struct.be16 l1 l0) 2); [lia |].
  destruct (Z.leb_spec (struct.be16 l1 l0)
              (Py.len (t1 :: t0 :: p1 :: p0 :: l1 :: l0 :: u :: b :: rest)
               - Socket._hsize + 1)) as [_ | Hgt].
  - reflexivity.
  - unfold Py.len, Socket._hsize in *. cbn [length] in *. lia.
Qed.

(** A frame that is alone in the buffer, accepted by the slave check,
    decoded and not filtered out, is handed to the callback with the ids
    of its header, and the buffer is empty afterwards. *)
Lemma socket_frame_alone (decoder : Decoder) (single : bool)
    (slave : list Socket.Slave) (tid : option Z) (w : Socket.Framer)
    (t1 t0 p1 p0 l1 l0 u : byte) (payload : list byte) (result : PDU) :
  Socket._buffer w = [t1; t0; p1; p0; l1; l0; u] ++ payload ->
  2 <= struct.be16 l1 l0 ->
  Py.len payload = struct.be16 l1 l0 - 1 ->
  single = true \/ Socket.mem (Socket.Unit 0) slave = true
  \/ (Socket.transport w = None
      /\ Socket.mem (Socket.Unit (Py.int u)) slave = true) ->
  decode decoder payload = Some result ->
  tid = None \/ tid = Some (struct.be16 t1 t0) ->
  Socket.frameProcessIncomingPacket decoder single slave tid w
  = (Ok tt,
     Socket.mkFramer [] (Socket.mkHeader 0 0 0 0) (Socket.transport w)
       (Socket.called w
        ++ [set_protocol_id (struct.be16 p1 p0)
              (set_transaction_id (struct.be16 t1 t0)
                 (set_slave_id (Py.int u) result))])).
Proof.
  intros Hb Hl Hp Hvalid Hd Htid.
  rewrite (socket_call_ready decoder single slave tid w _ _ _ _ _ _ _ _ Hb Hl)
    by lia.
  cbv beta iota zeta delta [bind].
  set (w1 := Socket.set_header _ w).
  assert (Hv : Socket._validate_slave_id slave single w1 = (Ok true, w1)).
  { unfold Socket._validate_slave_id. monad_unfold.
    destruct Hvalid as [-> | [H0 | [Ht Hu]]]; [reflexivity | |].
    - rewrite H0. destruct single; reflexivity.
    - destruct single; [reflexivity |].
      destruct (Socket.mem (Socket.Unit 0) slave); [reflexivity |].
      unfold w1. cbn [Socket.transport Socket.set_header Socket._header
                      Socket.uid].
      rewrite Ht, Hu. reflexivity. }
  rewrite Hv. cbn [negb]. rewrite socket_process_eq. cbv zeta.
  unfold w1.
  cbn [Socket._buffer Socket._header Socket.set_header Socket.len
       Socket.transport Socket.called Socket.tid Socket.pid Socket.uid].
  rewrite Hb.
  pose proof (len_nonneg payload) as Hn.
  assert (Hframe : Py.slice_between
                     ([t1; t0; p1; p0; l1; l0; u] ++ payload) Socket._hsize
                     (Socket._hsize + struct.be16 l1 l0) = payload).
  { unfold Py.slice_between, Py.slice, Py.clamp.
    rewrite len_app. change (Py.len [t1; t0; p1; p0; l1; l0; u]) with 7.
    unfold Socket._hsize.
    destruct (Z.ltb_spec 7 0); [lia |].
    destruct (Z.ltb_spec (7 + struct.be16 l1 l0) 0); [lia |].
    rewrite (Z.min_l 7) by lia.
    rewrite (Z.min_r (7 + struct.be16 l1 l0)) by lia.
    change (Z.to_nat 7) with 7%nat. cbn [app skipn].
    apply firstn_all2. unfold Py.len in *. lia. }
  rewrite Hframe, Hd.
  assert (Hadv : Py.slice_from ([t1; t0; p1; p0; l1; l0; u] ++ payload)
                   (Socket._hsize + struct.be16 l1 l0) = []).
  { rewrite slice_from_nonneg by (unfold Socket._hsize; lia).
    apply skipn_all2. rewrite length_app. unfold Py.len, Socket._hsize in *.
    cbn [length]. lia. }
  rewrite Hadv.
  assert (Hm : Socket.tid_mismatch tid
                 (set_protocol_id (struct.be16 p1 p0)
                    (set_transaction_id (struct.be16 t1 t0)
                       (set_slave_id (Py.int u) result))) = false).
  { destruct Htid as [-> | ->]; [reflexivity |].
    unfold Socket.tid_mismatch. cbn [transaction_id set_protocol_id
      set_transaction_id]. rewrite Z.eqb_refl.
    destruct (struct.be16 t1 t0 =? 0); reflexivity. }
  rewrite Hm. reflexivity.
Qed.

Lemma socket_call_not_ready (decoder : Decoder) (single : bool)
    (slave : list Socket.Slave) (tid : option Z) (w : Socket.Framer) :
  Py.len (Socket._buffer w) <= Socket._hsize ->
  Socket.frameProcessIncomingPacket decoder single slave tid w = (Ok tt, w).
Proof.
  intros H.
  unfold Socket.frameProcessIncomingPacket, Socket.checkFrame,
    Socket.isFrameReady.
  monad_unfold.
  destruct (Z.ltb_spec Socket._hsize (Py.len (Socket._buffer w))); [lia |].
  reflexivity.
Qed.

(** A proper prefix of a well-formed frame: the call hands nothing to the
    callback and keeps every byte. *)
Lemma socket_prefix_waits (decoder : Decoder) (single : bool)
    (slave : list Socket.Slave) (tid : option Z) (w : Socket.Framer)
    (t1 t0 p1 p0 l1 l0 u : byte) (payload : list byte) (k : nat) :
  2 <= struct.be16 l1 l0 ->
  Py.len payload = struct.be16 l1 l0 - 1 ->
  (k < 7 + length payload)%nat ->
  Socket._buffer w = firstn k ([t1; t0; p1; p0; l1; l0; u] ++ payload) ->
  exists h,
    Socket.frameProcessIncomingPacket decoder single slave tid w
    = (Ok tt, Socket.mkFramer (Socket._buffer w) h (Socket.transport w)
                (Socket.called w)).
Proof.
  intros Hl Hp Hk Hb.
  destruct (Nat.le_gt_cases k 7) as [Hk7 | Hk7].
  - exists (Socket._header w). rewrite socket_call_not_ready.
    + destruct w; reflexivity.
    + rewrite Hb. unfold Py.len, Socket._hsize. rewrite length_firstn. lia.
  - assert (Hf : firstn k ([t1; t0; p1; p0; l1; l0; u] ++ payload)
                 = [t1; t0; p1; p0; l1; l0; u] ++ firstn (k - 7) payload).
    { rewrite firstn_app. cbn [length].
      rewrite (firstn_all2 (n := k)) by (cbn [length]; lia). reflexivity. }
    rewrite Hf in Hb.
    destruct (firstn (k - 7) payload) as [| b rest] eqn:Ef.
    { apply (f_equal (@length byte)) in Ef. rewrite length_firstn in Ef.
      cbn [length] in Ef. lia. }
    assert (Hlen : (length (b :: rest) = k - 7)%nat).
    { rewrite <- Ef. rewrite length_firstn. lia. }
    eexists.
    unfold Socket.frameProcessIncomingPacket.
    cbv beta iota zeta delta [bind]. rewrite socket_checkFrame_eq, Hb.
    cbn [app]. cbv zeta.
    destruct (Z.ltb_spec (struct.be16 l1 l0) 2); [lia |].
    destruct (Z.leb_spec (struct.be16 l1 l0)
                (Py.len (t1 :: t0 :: p1 :: p0 :: l1 :: l0 :: u :: b :: rest)
                 - Socket._hsize + 1)) as [Hle | _].
    { unfold Py.len, Socket._hsize in *. cbn [length] in *. lia. }
    cbn [negb]. unfold ret, Socket.set_header. rewrite Hb. reflexivity.
Qed.

(** X3.  What the socket framer builds it also reads: when [buildPacket]
    returns a packet for a message and that packet is all the buffer holds,
    one call of [frameProcessIncomingPacket] (the slave accepted, no other
    transaction id expected, the payload decoded to [result]) hands
    [result] to the callback with the slave id, transaction id and protocol
    id of the message, and leaves the buffer empty. *)
Theorem socket_buildPacket_round_trip (decoder : Decoder) (single : bool)
    (slave : list Socket.Slave) (tid : option Z) (w : Socket.Framer)
    (m result : PDU) (packet : list byte) :
  Socket.buildPacket m = Ok packet ->
  Socket._buffer w = packet ->
  single = true \/ Socket.mem (Socket.Unit 0) slave = true
  \/ (Socket.transport w = None
      /\ Socket.mem (Socket.Unit (slave_id m)) slave = true) ->
  decode decoder (skipn 7 packet) = Some result ->
  tid = None \/ tid = Some (transaction_id m) ->
  Socket.frameProcessIncomingPacket decoder single slave tid w
  = (Ok tt,
     Socket.mkFramer [] (Socket.mkHeader 0 0 0 0) (Socket.transport w)
       (Socket.called w
        ++ [set_protocol_id (protocol_id m)
              (set_transaction_id (transaction_id m)
                 (set_slave_id (slave_id m) result))])).
Proof.
  intros Hbuild Hb Hvalid Hd Htid.
  apply socket_buildPacket_inv in Hbuild.
  destruct Hbuild as (t1 & t0 & p1 & p0 & l1 & l0 & u & f
                      & -> & Ht & Hp & Hl & Hu & Hf).
  cbn [app skipn] in Hd.
  rewrite <- Ht, <- Hp, <- Hu in *.
  pose proof (len_nonneg (encode m)) as Hn.
  apply (socket_frame_alone decoder single slave tid w
           t1 t0 p1 p0 l1 l0 u (f :: encode m) result); try assumption.
  - lia.
  - rewrite len_cons. lia.
Qed.

Lemma socket_buildPacket_round_trip_witness :
  Socket.frameProcessIncomingPacket Demo.decoder false [Socket.Unit 1]
    (Some 1) (Socket.set_buffer Demo.mbap_frame (Socket.init None))
  = (Ok tt,
     Socket.mkFramer [] (Socket.mkHeader 0 0 0 0) None
       [mkPDU 3 1 1 0 [x00; x00; x00; x0a]]).
Proof.
  apply (socket_buildPacket_round_trip Demo.decoder false [Socket.Unit 1]
           (Some 1) (Socket.set_buffer Demo.mbap_frame (Socket.init None))
           (mkPDU 3 1 1 0 [x00; x00; x00; x0a])
           (mkPDU 3 0 0 0 [x00; x00; x00; x0a]) Demo.mbap_frame).
  - reflexivity.
  - reflexivity.
  - right. right. split; reflexivity.
  - reflexivity.
  - right. reflexivity.
Defined.

(** X4.  A frame that arrives in two pieces is delivered once it is
    complete.  The call on a proper prefix of a well-formed frame hands
    nothing to the callback, raises nothing and keeps every byte; after the
    rest has been appended to the buffer, the next call hands the decoded
    PDU to the callback with the ids of the header and empties the
    buffer. *)
Theorem socket_fragmented_frame_delivered (decoder : Decoder) (single : bool)
    (slave : list Socket.Slave) (tid : option Z) (w : Socket.Framer)
    (t1 t0 p1 p0 l1 l0 u : byte) (payload : list byte) (k : nat)
    (result : PDU) :
  let frame := [t1; t0; p1; p0; l1; l0; u] ++ payload in
  let call := Socket.frameProcessIncomingPacket decoder single slave tid in
  2 <= struct.be16 l1 l0 ->
  Py.len payload = struct.be16 l1 l0 - 1 ->
  (k < length frame)%nat ->
  Socket._buffer w = firstn k frame ->
  single = true \/ Socket.mem (Socket.Unit 0) slave = true
  \/ (Socket.transport w = None
      /\ Socket.mem (Socket.Unit (Py.int u)) slave = true) ->
  decode decoder payload = Some result ->
  tid = None \/ tid = Some (struct.be16 t1 t0) ->
  let w1 := snd (call w) in
  fst (call w) = Ok tt
  /\ Socket._buffer w1 = Socket._buffer w
  /\ Socket.called w1 = Socket.called w
  /\ call (Socket.set_buffer (Socket._buffer w1 ++ skipn k frame) w1)
     = (Ok tt,
        Socket.mkFramer [] (Socket.mkHeader 0 0 0 0) (Socket.transport w)
          (Socket.called w
           ++ [set_protocol_id (struct.be16 p1 p0)
                 (set_transaction_id (struct.be16 t1 t0)
                    (set_slave_id (Py.int u) result))])).
Proof.
  cbv zeta. intros Hl Hp Hk Hb Hvalid Hd Htid.
  rewrite length_app in Hk. cbn [length] in Hk.
  destruct (socket_prefix_waits decoder single slave tid w
              t1 t0 p1 p0 l1 l0 u payload k Hl Hp Hk Hb) as (h & E).
  rewrite E. cbn [fst snd Socket._buffer Socket.called].
  repeat split.
  rewrite Hb, firstn_skipn.
  rewrite (socket_frame_alone decoder single slave tid _
             t1 t0 p1 p0 l1 l0 u payload result);
    try assumption; reflexivity.
Qed.

(** The frame of scenario 4, cut after its ninth byte. *)
Lemma socket_fragmented_frame_delivered_witness :
  let call :=
    Socket.frameProcessIncomingPacket Demo.decoder false [Socket.Unit 1]
      None in
  let w := Socket.set_buffer (firstn 9 Demo.mbap_frame) (Socket.init None) in
  let w1 := snd (call w) in
  fst (call w) = Ok tt
  /\ Socket._buffer w1 = firstn 9 Demo.mbap_frame
  /\ Socket.called w1 = []
  /\ call (Socket.set_buffer (Socket._buffer w1 ++ skipn 9 Demo.mbap_frame)
             w1)
     = (Ok tt,
        Socket.mkFramer [] (Socket.mkHeader 0 0 0 0) None
          [mkPDU 3 1 1 0 [x00; x00; x00; x0a]]).
Proof.
  cbv zeta.
  apply (socket_fragmented_frame_delivered Demo.decoder false
           [Socket.Unit 1] None
           (Socket.set_buffer (firstn 9 Demo.mbap_frame) (Socket.init None))
           x00 x01 x00 x00 x00 x06 x01 [x03; x00; x00; x00; x0a] 9
           (mkPDU 3 0 0 0 [x00; x00; x00; x0a])).
  - vm_compute. discriminate.
  - reflexivity.
  - cbn. lia.
  - reflexivity.
  - right. right. split; reflexivity.
  - reflexivity.
  - left. reflexivity.
Defined.

(** X5.  A frame for a unit that is not served: when [checkFrame] has
    accepted the frame and [_validate_slave_id] answers [False],
    [frameProcessIncomingPacket] returns without raising, does not invoke
    the callback, and drops the whole buffer, the frame and whatever
    followed it. *)
Theorem socket_invalid_slave_drops_buffer (decoder : Decoder) (single : bool)
    (slave : list Socket.Slave) (tid : option Z) (w w1 : Socket.Framer) :
  Socket.checkFrame w = (Ok true, w1) ->
  Socket._validate_slave_id slave single w1 = (Ok false, w1) ->
  Socket.frameProcessIncomingPacket decoder single slave tid w
  = (Ok tt,
     Socket.mkFramer [] (Socket.mkHeader 0 0 0 0) (Socket.transport w)
       (Socket.called w)).
Proof.
  intros Hc Hv.
  unfold Socket.frameProcessIncomingPacket. monad_unfold.
  rewrite Hc. cbn [negb]. rewrite Hv. cbn [negb].
  destruct (socket_checkFrame_frame _ _ Hc) as (_ & <- & <-).
  reflexivity.
Qed.

(** Two frames for unit 1 while only unit 2 is served. *)
Lemma socket_invalid_slave_drops_buffer_witness :
  Socket.frameProcessIncomingPacket Demo.decoder false [Socket.Unit 2] None
    (Socket.set_buffer (Demo.mbap_frame ++ Demo.mbap_frame)
       (Socket.init None))
  = (Ok tt, Socket.init None).
Proof.
  apply (socket_invalid_slave_drops_buffer Demo.decoder false
           [Socket.Unit 2] None
           (Socket.set_buffer (Demo.mbap_frame ++ Demo.mbap_frame)
              (Socket.init None))
           (Socket.mkFramer (Demo.mbap_frame ++ Demo.mbap_frame)
              (Socket.mkHeader 1 0 6 1) None [])).
  - reflexivity.
  - reflexivity.
Defined.

(** X6.  A frame whose payload does not decode: when [checkFrame] and the
    slave check have accepted the frame and the decoder returns [None] for
    what [getFrame] hands it, [frameProcessIncomingPacket] raises
    [ModbusIOException], does not invoke the callback, and has reset buffer
    and header before it raises. *)
Theorem socket_decode_failure_resets (decoder : Decoder) (single : bool)
    (slave : list Socket.Slave) (tid : option Z) (w w1 : Socket.Framer)
    (data : list byte) :
  Socket.checkFrame w = (Ok true, w1) ->
  Socket._validate_slave_id slave single w1 = (Ok true, w1) ->
  Socket.getFrame w1 = (Ok data, w1) ->
  decode decoder data = None ->
  Socket.frameProcessIncomingPacket decoder single slave tid w
  = (Raise (ModbusIOException "Unable to decode request"),
     Socket.mkFramer [] (Socket.mkHeader 0 0 0 0) (Socket.transport w)
       (Socket.called w)).
Proof.
  intros Hc Hv Hg Hd.
  unfold Socket.frameProcessIncomingPacket. monad_unfold.
  rewrite Hc. cbn [negb]. rewrite Hv. cbn [negb].
  unfold Socket._process. monad_unfold. rewrite Hg, Hd.
  destruct (socket_checkFrame_frame _ _ Hc) as (_ & <- & <-).
  reflexivity.
Qed.

(** A frame with function code 4, which the decoder of the examples does
    not know. *)
Lemma socket_decode_failure_resets_witness :
  Socket.frameProcessIncomingPacket Demo.decoder false [Socket.Unit 1] None
    (Socket.set_buffer
       [x00; x01; x00; x00; x00; x06; x01; x04; x00; x00; x00; x0a]
       (Socket.init None))
  = (Raise (ModbusIOException "Unable to decode request"), Socket.init None).
Proof.
  apply (socket_decode_failure_resets Demo.decoder false [Socket.Unit 1] None
           (Socket.set_buffer
              [x00; x01; x00; x00; x00; x06; x01; x04; x00; x00; x00; x0a]
              (Socket.init None))
           (Socket.mkFramer
              [x00; x01; x00; x00; x00; x06; x01; x04; x00; x00; x00; x0a]
              (Socket.mkHeader 1 0 6 1) None [])
           [x04; x00; x00; x00; x0a]).
  - reflexivity.
  - reflexivity.
  - reflexivity.
  - reflexivity.
Defined.

(** X7.  The transaction id filter lets nothing else through: with an
    expected transaction id other than 0, whatever the buffer holds, a call
    of [frameProcessIncomingPacket] either leaves the callback alone or
    hands it one PDU whose transaction id is the expected one. *)
Theorem socket_delivers_only_expected_tid (decoder : Decoder) (single : bool)
    (slave : list Socket.Slave) (t : Z) (w : Socket.Framer) :
  t <> 0 ->
  let w' := snd (Socket.frameProcessIncomingPacket decoder single slave
                   (Some t) w) in
  Socket.called w' = Socket.called w
  \/ exists r, Socket.called w' = Socket.called w ++ [r]
               /\ transaction_id r = t.
Proof.
  intros Ht. cbv zeta.
  destruct (socket_call_outcome decoder single slave (Some t) w);
    cbn [Socket.called Socket.set_header]; auto.
  right. exists r. split; [reflexivity |].
  unfold Socket.tid_mismatch in *.
  destruct (Z.eqb_spec t 0); [contradiction |].
  destruct (Z.eqb_spec t (transaction_id r)); [congruence | discriminate].
Qed.

Lemma socket_delivers_only_expected_tid_witness :
  let w' := snd (Socket.frameProcessIncomingPacket Demo.decoder false
                   [Socket.Unit 1] (Some 1)
                   (Socket.set_buffer Demo.mbap_frame (Socket.init None))) in
  Socket.called w' = []
  \/ exists r, Socket.called w' = [] ++ [r] /\ transaction_id r = 1.
Proof.
  apply (socket_delivers_only_expected_tid Demo.decoder false
           [Socket.Unit 1] 1
           (Socket.set_buffer Demo.mbap_frame (Socket.init None))).
  lia.
Defined.

(** X8.  One call of the socket framer's [frameProcessIncomingPacket]
    handles at most one frame.  Whatever the buffer holds, the call returns
    normally or raises [ModbusIOException] and nothing else; what remains
    in the buffer is a suffix of what was there; the callback is invoked at
    most once, and not at all when the call raises; the transport is left
    alone. *)
Theorem socket_call_footprint (decoder : Decoder) (single : bool)
    (slave : list Socket.Slave) (tid : option Z) (w : Socket.Framer) :
  let r := fst (Socket.frameProcessIncomingPacket decoder single slave
                  tid w) in
  let w' := snd (Socket.frameProcessIncomingPacket decoder single slave
                   tid w) in
  (r = Ok tt \/ r = Raise (ModbusIOException "Unable to decode request"))
  /\ (exists n, (n <= length (Socket._buffer w))%nat
                /\ Socket._buffer w' = skipn n (Socket._buffer w))
  /\ (Socket.called w' = Socket.called w
      \/ exists p, Socket.called w' = Socket.called w ++ [p] /\ r = Ok tt)
  /\ Socket.transport w' = Socket.transport w.
Proof.
  cbv zeta.
  assert (Hall : exists n, (n <= length (Socket._buffer w))%nat
                           /\ [] = skipn n (Socket._buffer w)).
  { exists (length (Socket._buffer w)). split; [lia |].
    symmetry. apply skipn_all. }
  assert (Hnone : exists n, (n <= length (Socket._buffer w))%nat
                            /\ Socket._buffer w = skipn n (Socket._buffer w)).
  { exists 0%nat. split; [lia | reflexivity]. }
  destruct (socket_call_outcome decoder single slave tid w);
    cbn [Socket._buffer Socket.called Socket.transport Socket.set_header];
    repeat split; auto;
    try apply slice_from_suffix.
  right. exists r. auto.
Qed.

Lemma Slave_eqb_eq (a b : Socket.Slave) :
  Socket.Slave_eqb a b = true <-> a = b.
Proof.
  destruct a as [u | h u], b as [v | k v]; cbn [Socket.Slave_eqb].
  - rewrite Z.eqb_eq. split; congruence.
  - split; discriminate.
  - split; discriminate.
  - rewrite andb_true_iff, String.eqb_eq, Z.eqb_eq.
    split; [intros [-> ->]; reflexivity | intros [= -> ->]; auto].
Qed.

Lemma socket_mem_In (x : Socket.Slave) (xs : list Socket.Slave) :
  Socket.mem x xs = true <-> In x xs.
Proof.
  unfold Socket.mem. rewrite existsb_exists. split.
  - intros (y & Hy & E). apply Slave_eqb_eq in E. subst. exact Hy.
  - intros H. exists x. split; [exact H | apply Slave_eqb_eq; reflexivity].
Qed.

(** X9.  Slave validation on a connection with a known peer.  When the
    transport reports a peer name and the context is not single,
    [_validate_slave_id] touches nothing and accepts the frame exactly
    when the slave list holds the broadcast id 0 or the pair of the peer's
    host and the frame's unit id; the peer's port plays no part, and a
    plain unit id other than 0 in the list does not admit the frame. *)
Theorem socket_validate_slave_id_peer (slaves : list Socket.Slave)
    (w : Socket.Framer) (t : Socket.Transport) (host : string) (port : Z) :
  Socket.transport w = Some t ->
  Socket.peername t = Some (host, port) ->
  snd (Socket._validate_slave_id slaves false w) = w
  /\ (fst (Socket._validate_slave_id slaves false w) = Ok true
      <-> In (Socket.Unit 0) slaves
          \/ In (Socket.Peer host (Socket.uid (Socket._header w))) slaves)
  /\ ((forall s, In s slaves -> exists u, s = Socket.Unit u /\ u <> 0) ->
      fst (Socket._validate_slave_id slaves false w) = Ok false).
Proof.
  intros Ht Hp.
  unfold Socket._validate_slave_id. monad_unfold. rewrite Ht, Hp.
  cbn [fst].
  destruct (Socket.mem (Socket.Unit 0) slaves) eqn:E0.
  - apply socket_mem_In in E0. cbn [fst snd].
    split; [reflexivity |]. split; [tauto |].
    intros Hall. destruct (Hall _ E0) as (u & [= <-] & Hu). contradiction.
  - cbn [fst snd]. split; [reflexivity |].
    assert (N0 : ~ In (Socket.Unit 0) slaves).
    { intros H. apply socket_mem_In in H. congruence. }
    destruct (Socket.mem (Socket.Peer host _) slaves) eqn:Ep.
    + apply socket_mem_In in Ep. split; [tauto |].
      intros Hall. destruct (Hall _ Ep) as (u & [=] & _).
    + assert (Np : ~ In (Socket.Peer host (Socket.uid (Socket._header w)))
                      slaves).
      { intros H. apply socket_mem_In in H. congruence. }
      split; [| reflexivity].
      split; [discriminate | tauto].
Qed.

(** Unit 1 is listed, first as a plain id and then with the peer's host. *)
Lemma socket_validate_slave_id_peer_witness :
  let w := Socket.mkFramer Demo.mbap_frame (Socket.mkHeader 1 0 6 1)
             (Some (Socket.mkTransport (Some ("10.0.0.7"%string, 502))))
             [] in
  fst (Socket._validate_slave_id [Socket.Unit 1] false w) = Ok false
  /\ fst (Socket._validate_slave_id
            [Socket.Peer "10.0.0.7" 1] false w) = Ok true.
Proof.
  cbv zeta. split.
  - apply (socket_validate_slave_id_peer [Socket.Unit 1]
             (Socket.mkFramer Demo.mbap_frame (Socket.mkHeader 1 0 6 1)
                (Some (Socket.mkTransport (Some ("10.0.0.7"%string, 502))))
                [])
             (Socket.mkTransport (Some ("10.0.0.7"%string, 502)))
             "10.0.0.7" 502 eq_refl eq_refl).
    intros s [<- | []]. exists 1. split; [reflexivity | lia].
  - reflexivity.
Defined.

(* ------------------------------------------------------------------ *)
(** ** The RTU framer: further properties *)

(** What the RTU [buildPacket] returns when it returns. *)
Lemma rtu_buildPacket_inv (computeCRC : list byte -> Z) (m m' : PDU)
    (packet : list byte) :
  Rtu.buildPacket computeCRC m = Ok (packet, m') ->
  exists u f hi lo,
    packet = [u; f] ++ encode m ++ [hi; lo]
    /\ Py.int u = slave_id m /\ Py.int f = function_code m
    /\ struct.be16 hi lo = computeCRC ([u; f] ++ encode m)
    /\ m' = set_transaction_id (slave_id m) m.
Proof.
  unfold Rtu.buildPacket, Rtu.pack_RTU_FRAME_HEADER, struct.pack_BB.
  destruct (struct.pack_B (slave_id m)) as [bu |] eqn:Eu; [| discriminate].
  destruct (struct.pack_B (function_code m)) as [bf |] eqn:Ef;
    [| discriminate].
  apply pack_B_inv in Eu, Ef.
  destruct Eu as (u & -> & Hu). destruct Ef as (f & -> & Hf).
  cbn [struct.app_opt app].
  destruct (struct.pack_H _) as [c |] eqn:Ec; [| discriminate].
  apply pack_H_inv in Ec. destruct Ec as (hi & lo & -> & Hc).
  intros [= <- <-]. exists u, f, hi, lo. repeat split; assumption.
Qed.

(** X10.  The RTU framer's [decode_data] reads back what [buildPacket]
    wrote: whenever [buildPacket] returns a packet, [decode_data] of that
    packet gives the slave id and the function code of the message. *)
Theorem rtu_decode_data_buildPacket (computeCRC : list byte -> Z)
    (m m' : PDU) (packet : list byte) :
  Rtu.buildPacket computeCRC m = Ok (packet, m') ->
  Rtu.decode_data packet = Ok (Some (slave_id m, function_code m)).
Proof.
  intros H. apply rtu_buildPacket_inv in H.
  destruct H as (u & f & hi & lo & -> & Hu & Hf & _ & _).
  unfold Rtu.decode_data. cbn [app].
  rewrite getitem_0, getitem_1, Hu, Hf.
  destruct (Z.ltb_spec Rtu._hsize (Py.len (u :: f :: encode m ++ [hi; lo])))
    as [_ | Hle]; [reflexivity |].
  rewrite !len_cons in Hle. pose proof (len_nonneg (encode m ++ [hi; lo])).
  unfold Rtu._hsize in Hle. lia.
Qed.

Lemma rtu_decode_data_buildPacket_witness :
  Rtu.decode_data Demo.rtu_frame = Ok (Some (1, 3)).
Proof.
  apply (rtu_decode_data_buildPacket utilities.computeCRC Demo.read_reply
           (set_transaction_id 1 Demo.read_reply) Demo.rtu_frame).
  reflexivity.
Defined.

Lemma rtu_validate_run (slaves : list Z) (single : bool) (w : Rtu.Framer) :
  exists valid, Rtu._validate_slave_id slaves single w = (Ok valid, w).
Proof.
  unfold Rtu._validate_slave_id. monad_unfold.
  destruct single; [eauto |]. destruct (Py.mem 0 slaves); eauto.
Qed.

Lemma _process_suffix (decoder : Decoder) (w w' : Rtu.Framer) (r : Res unit) :
  Rtu._process decoder false w = (r, w') ->
  exists n, (n <= length (Rtu._buffer w))%nat
            /\ Rtu._buffer w' = skipn n (Rtu._buffer w).
Proof.
  rewrite _process_eq. cbv zeta.
  assert (H0 : exists n, (n <= length (Rtu._buffer w))%nat
                         /\ Rtu._buffer w = skipn n (Rtu._buffer w)).
  { exists 0%nat. split; [lia | reflexivity]. }
  destruct (decode decoder _) as [result |].
  - destruct (Rtu.tid (Rtu._header w)); intros [= <- <-];
      [apply slice_from_suffix | exact H0].
  - intros [= <- <-]. exact H0.
Qed.

Lemma loop_body_suffix (decoder : Decoder) (computeCRC : list byte -> Z)
    (single : bool) (slave : list Z) (skip : bool) (w w' : Rtu.Framer)
    (r : Res Rtu.Turn) :
  Rtu.loop_body decoder computeCRC single slave skip w = (r, w') ->
  exists n, (n <= length (Rtu._buffer w))%nat
            /\ Rtu._buffer w' = skipn n (Rtu._buffer w).
Proof.
  assert (H0 : forall v : Rtu.Framer,
             Rtu._buffer v = Rtu._buffer w ->
             exists n, (n <= length (Rtu._buffer w))%nat
                       /\ Rtu._buffer v = skipn n (Rtu._buffer w)).
  { intros v Hv. exists 0%nat. split; [lia | exact Hv]. }
  unfold Rtu.loop_body. monad_unfold.
  destruct (Rtu.isFrameReady decoder w) as [r1 w1] eqn:E1.
  destruct (isFrameReady_frame _ _ _ _ E1) as (Hb1 & _ & [ready ->]).
  destruct ready; cbn [negb]; [| intros [= <- <-]; auto].
  destruct (Rtu.checkFrame decoder computeCRC w1) as [r2 w2] eqn:E2.
  destruct (checkFrame_frame _ _ _ _ _ E2) as (Hb2 & _ & [ok ->]).
  destruct ok; cbn [negb].
  2:{ rewrite resetFrame_eq. intros [= <- <-]. apply H0. cbn. congruence. }
  destruct (rtu_validate_run slave single w2) as (valid & Ev).
  rewrite Ev.
  destruct valid; cbn [negb].
  2:{ rewrite resetFrame_eq. intros [= <- <-]. apply H0. cbn. congruence. }
  destruct (Rtu._process decoder false w2) as [r3 w3] eqn:E3.
  apply _process_suffix in E3. rewrite Hb2, Hb1 in E3.
  destruct r3; intros [= <- <-]; exact E3.
Qed.

Lemma while_suffix (decoder : Decoder) (computeCRC : list byte -> Z)
    (single : bool) (slave : list Z) (broadcast : bool) (fuel : nat) :
  forall (skip : bool) (w w' : Rtu.Framer) (r : Res bool),
    Rtu.while_getFrameStart decoder computeCRC fuel single slave broadcast
      skip w = (r, w') ->
    exists n, (n <= length (Rtu._buffer w))%nat
              /\ Rtu._buffer w' = skipn n (Rtu._buffer w).
Proof.
  induction fuel as [| fuel IH]; intros skip w w' r.
  - cbn. intros [= <- <-]. exists 0%nat. split; [lia | reflexivity].
  - cbn [Rtu.while_getFrameStart]. monad_unfold.
    destruct (getFrameStart_run decoder slave broadcast skip w)
      as (found & n1 & E1 & Hn1 & _). rewrite E1.
    set (w1 := Rtu.mkFramer (skipn n1 (Rtu._buffer w)) _ _) in *.
    assert (Hcomp : forall (v : Rtu.Framer) (n : nat),
               (n <= length (Rtu._buffer w1))%nat ->
               Rtu._buffer v = skipn n (Rtu._buffer w1) ->
               exists k, (k <= length (Rtu._buffer w))%nat
                         /\ Rtu._buffer v = skipn k (Rtu._buffer w)).
    { intros v n Hn Hv. exists (n + n1)%nat. unfold w1 in *.
      cbn [Rtu._buffer] in *. rewrite length_skipn in Hn.
      split; [lia |]. rewrite Hv. apply skipn_skipn. }
    destruct found; cbn [negb].
    2:{ intros [= <- <-]. apply (Hcomp w1 0%nat); [lia | reflexivity]. }
    destruct (Rtu.loop_body decoder computeCRC single slave skip w1)
      as [r2 w2] eqn:E2.
    apply loop_body_suffix in E2. destruct E2 as (n2 & Hn2 & Hb2).
    destruct r2 as [[| s] | e].
    + intros [= <- <-]. eapply Hcomp; eauto.
    + intros H. apply IH in H. destruct H as (n3 & Hn3 & Hb3).
      destruct (Hcomp w2 n2 Hn2 Hb2) as (k & Hk & Hbk).
      exists (n3 + k)%nat. rewrite Hbk, length_skipn in Hn3.
      split; [lia |]. rewrite Hb3, Hbk. apply skipn_skipn.
    + intros [= <- <-]. eapply Hcomp; eauto.
Qed.

(** X11.  What a call of the RTU [frameProcessIncomingPacket] can do.  On
    a slave list that is not empty the call returns normally or raises
    [ModbusIOException] and nothing else: no [IndexError], [KeyError] or
    [struct.error] of the frame checks gets out.  What remains in the
    buffer is a suffix of what was there, and the callback has only been
    handed further PDUs.  On an empty slave list the call raises
    [IndexError] and touches nothing. *)
Theorem rtu_call_footprint (decoder : Decoder) (computeCRC : list byte -> Z)
    (single : bool) (slave : list Z) (w : Rtu.Framer) :
  let r := fst (Rtu.frameProcessIncomingPacket decoder computeCRC single
                  slave w) in
  let w' := snd (Rtu.frameProcessIncomingPacket decoder computeCRC single
                   slave w) in
  (match slave with
   | [] => r = Raise IndexError /\ w' = w
   | _ :: _ =>
       r = Ok tt \/ r = Raise (ModbusIOException "Unable to decode request")
   end)
  /\ (exists n, (n <= length (Rtu._buffer w))%nat
                /\ Rtu._buffer w' = skipn n (Rtu._buffer w))
  /\ (exists new, Rtu.called w' = Rtu.called w ++ new).
Proof.
  cbv zeta. unfold Rtu.frameProcessIncomingPacket. monad_unfold.
  destruct slave as [| s0 slave'].
  - rewrite getitem_nil. cbn [fst snd]. split; [auto |]. split.
    + exists 0%nat. split; [lia | reflexivity].
    + exists []. symmetry. apply app_nil_r.
  - rewrite getitem_0.
    destruct (Rtu.while_getFrameStart decoder computeCRC (Rtu.turns w) single
                (s0 :: slave') (s0 =? 0) false w) as [r w'] eqn:E.
    pose proof (while_run _ _ _ _ _ _ _ _ _ _ E) as ((new & Hnew & _) & Hr).
    pose proof (while_suffix _ _ _ _ _ _ _ _ _ _ E) as Hs.
    destruct r as [b | e]; cbn [fst snd].
    + split; [left; reflexivity |]. split; [exact Hs | eauto].
    + split; [right; rewrite (Hr e eq_refl); reflexivity |].
      split; [exact Hs | eauto].
Qed.

(** [isFrameReady] on a buffer that holds a whole frame, the header fresh
    or still carrying the size of that frame from an earlier call. *)
Lemma isFrameReady_true (decoder : Decoder) (w : Rtu.Framer) (b0 b1 : byte)
    (tl : list byte) (size : Z) :
  Rtu._buffer w = b0 :: b1 :: tl ->
  lookupPduClass decoder (Py.int b1) (Rtu._buffer w) = Some size ->
  0 < size -> size <= Py.len (Rtu._buffer w) ->
  Rtu.len (Rtu._header w) = 0 \/ Rtu.len (Rtu._header w) = size ->
  exists w1,
    Rtu.isFrameReady decoder w = (Ok true, w1)
    /\ Rtu._buffer w1 = Rtu._buffer w /\ Rtu.called w1 = Rtu.called w.
Proof.
  intros Hb Hs Hpos Hle Hh.
  unfold Rtu.isFrameReady. monad_unfold.
  assert (H1 : Rtu._hsize < Py.len (Rtu._buffer w)).
  { rewrite Hb, !len_cons. pose proof (len_nonneg tl).
    unfold Rtu._hsize. lia. }
  destruct (Z.eqb_spec (Rtu.len (Rtu._header w)) 0) as [E0 | N0].
  - destruct (Z.ltb_spec Rtu._hsize (Py.len (Rtu._buffer w))); [| lia].
    cbn [andb]. rewrite populateHeader_eq, Hb. cbv zeta.
    rewrite <- Hb, Hs.
    destruct (Z.ltb_spec (Py.len (Rtu._buffer w)) size); [lia |].
    cbn [Rtu._buffer Rtu.set_crc Rtu.set_len Rtu.set_tid Rtu.set_uid
         Rtu.set_header].
    destruct (Z.ltb_spec 0 size); [| lia].
    destruct (Z.leb_spec size (Py.len (Rtu._buffer w))); [| lia].
    eexists. split; [reflexivity |]. split; reflexivity.
  - cbn [andb]. destruct Hh as [Hh | Hh]; [contradiction |]. rewrite Hh.
    destruct (Z.ltb_spec 0 size); [| lia].
    destruct (Z.leb_spec size (Py.len (Rtu._buffer w))); [| lia].
    exists w. auto.
Qed.

(** One turn of the loop on a buffer that starts with a well-framed
    message: the scan accepts index 0 and the turn hands the decoded PDU
    to the callback and advances to what follows the frame. *)
Lemma rtu_turn_delivers (decoder : Decoder) (computeCRC : list byte -> Z)
    (single : bool) (slave : list Z) (broadcast skip : bool)
    (w : Rtu.Framer) (frame rest : list byte) (result : PDU) :
  well_framed decoder computeCRC slave broadcast frame result ->
  (broadcast = true -> Py.mem 0 slave = true) ->
  Rtu._buffer w = frame ++ rest ->
  Rtu.len (Rtu._header w) = 0 \/ Rtu.len (Rtu._header w) = Py.len frame ->
  Rtu.getFrameStart decoder slave broadcast false w = (Ok true, w)
  /\ Rtu.loop_body decoder computeCRC single slave skip w
     = (Ok (Rtu.Continue skip),
        Rtu.mkFramer rest (Rtu.mkHeader 0 None 0 [x00; x00])
          (Rtu.called w ++ [delivered frame result])).
Proof.
  intros (u & c & payload & hi & lo & Hf & Hcrc & Hslave & Hfc & Hdec & Hsize)
         Hbc Hb Hh.
  pose proof (len_nonneg payload) as Hn. pose proof (len_nonneg rest) as Hr.
  assert (Hlen : Py.len frame = Py.len payload + 4).
  { rewrite Hf, !len_app. change (Py.len [u; c]) with 2.
    change (Py.len [hi; lo]) with 2. lia. }
  assert (Hbuf : Rtu._buffer w = u :: c :: payload ++ hi :: lo :: rest).
  { rewrite Hb, Hf. cbn [app]. rewrite <- app_assoc. reflexivity. }
  assert (Hstart : Rtu.is_start decoder slave broadcast (Rtu._buffer w) 0
                   = true).
  { apply is_start_plausible.
    - rewrite Hbuf. cbn [length]. lia.
    - exists u, c. rewrite Hbuf. cbn [nth_error]. auto. }
  split.
  { rewrite getFrameStart_eq. cbv zeta.
    assert (Hl : (4 <= length (Rtu._buffer w))%nat).
    { rewrite Hbuf. cbn [length]. rewrite length_app. cbn [length]. lia. }
    destruct (Nat.ltb_spec (length (Rtu._buffer w)) 4); [lia |].
    destruct (length (Rtu._buffer w) - 3 - 0)%nat as [| k] eqn:Ek; [lia |].
    cbn [seq find]. rewrite Hstart. reflexivity. }
  specialize (Hsize rest). rewrite <- Hb in Hsize.
  destruct (isFrameReady_true decoder w u c _ (Py.len frame) Hbuf)
    as (w1 & E1 & Hb1 & Hc1).
  { rewrite Hbuf. cbn [app]. rewrite <- Hbuf. exact Hsize. }
  { lia. }
  { rewrite Hb, len_app. lia. }
  { exact Hh. }
  unfold Rtu.loop_body. monad_unfold. rewrite E1. cbn [negb].
  rewrite checkFrame_eq, Hb1, Hbuf. cbv zeta. rewrite <- Hbuf, Hsize.
  destruct (Z.ltb_spec (Py.len (Rtu._buffer w)) (Py.len frame)) as [Hlt | _].
  { rewrite Hb, len_app in Hlt. lia. }
  set (x := [u; c] ++ payload).
  assert (Hx : Py.len x = Py.len frame - 2).
  { unfold x. rewrite len_app. change (Py.len [u; c]) with 2. lia. }
  assert (Hbx : Rtu._buffer w = x ++ [hi; lo] ++ rest).
  { rewrite Hbuf. reflexivity. }
  assert (Hs1 : Py.slice_between (Rtu._buffer w) (Py.len frame - 2)
                  (Py.len frame) = [hi; lo]).
  { rewrite Hbx, <- Hx.
    replace (Py.len frame) with (Py.len x + Py.len [hi; lo])
      by (change (Py.len [hi; lo]) with 2; lia).
    apply slice_app_middle. }
  assert (Hs2 : Py.slice_upto (Rtu._buffer w) (Py.len frame - 2) = x).
  { rewrite Hbx, <- Hx. apply slice_upto_app. }
  rewrite Hs1, Hs2. unfold x at 1. rewrite <- Hcrc, Z.eqb_refl. cbn [negb].
  set (w2 := Rtu.set_crc _ _).
  assert (Hv : Rtu._validate_slave_id slave single w2 = (Ok true, w2)).
  { unfold Rtu._validate_slave_id. monad_unfold.
    destruct single; [reflexivity |].
    destruct (Py.mem 0 slave) eqn:E0; [reflexivity |].
    destruct Hslave as [Hbt | Hin].
    - specialize (Hbc Hbt). congruence.
    - apply mem_In in Hin. unfold w2.
      cbn [Rtu._header Rtu.set_crc Rtu.set_len Rtu.set_tid Rtu.set_uid
           Rtu.set_header Rtu.uid].
      rewrite Hin. reflexivity. }
  rewrite Hv. cbn [negb]. rewrite _process_eq. cbv zeta.
  unfold w2.
  cbn [Rtu._header Rtu._buffer Rtu.called Rtu.set_crc Rtu.set_len
       Rtu.set_tid Rtu.set_uid Rtu.set_header Rtu.uid Rtu.tid Rtu.len].
  destruct (Z.ltb_spec 0 (Py.len frame - 2)); [| lia].
  assert (Hs3 : Py.slice_between (Rtu._buffer w1) Rtu._hsize
                  (Py.len frame - 2) = c :: payload).
  { rewrite Hb1, Hbuf.
    change (u :: c :: payload ++ hi :: lo :: rest)
      with ([u] ++ (c :: payload) ++ (hi :: lo :: rest)).
    change Rtu._hsize with (Py.len [u]).
    replace (Py.len frame - 2) with (Py.len [u] + Py.len (c :: payload))
      by (unfold Py.len in *; cbn [length]; lia).
    apply slice_app_middle. }
  rewrite Hs3, Hdec.
  assert (Hs4 : Py.slice_from (Rtu._buffer w1) (Py.len frame) = rest).
  { rewrite Hb1, Hb. apply slice_from_app. }
  rewrite Hs4, Hc1. unfold delivered. rewrite Hf. reflexivity.
Qed.

(* ------------------------------------------------------------------ *)
(** ** RTU: a well-framed message whose payload does not decode *)

(** One turn on a frame that passes every check of the framer and whose
    payload the PDU decoder refuses: the scan accepts index 0, the body of
    the loop raises, and all that has changed is the header, which now
    describes the frame. *)
Lemma rtu_turn_decode_failure (decoder : Decoder)
    (computeCRC : list byte -> Z) (single : bool) (slave : list Z)
    (broadcast skip : bool) (w : Rtu.Framer) (u c hi lo : byte)
    (payload rest : list byte) :
  let frame := [u; c] ++ payload ++ [hi; lo] in
  struct.be16 hi lo = computeCRC ([u; c] ++ payload) ->
  broadcast = true \/ In (Py.int u) slave ->
  In (Py.int c) (lookup_keys decoder)
  \/ In (Py.int c - 0x80) (lookup_keys decoder) ->
  lookupPduClass decoder (Py.int c) (frame ++ rest) = Some (Py.len frame) ->
  decode decoder (c :: payload) = None ->
  (broadcast = true -> Py.mem 0 slave = true) ->
  Rtu._buffer w = frame ++ rest ->
  Rtu.len (Rtu._header w) = 0 \/ Rtu.len (Rtu._header w) = Py.len frame ->
  Rtu.getFrameStart decoder slave broadcast false w = (Ok true, w)
  /\ Rtu.loop_body decoder computeCRC single slave skip w
     = (Raise (ModbusIOException "Unable to decode request"),
        Rtu.mkFramer (frame ++ rest)
          (Rtu.mkHeader (Py.int u) (Some (Py.int u)) (Py.len frame) [hi; lo])
          (Rtu.called w)).
Proof.
  intros frame Hcrc Hslave Hfc Hsize Hdec Hbc Hb Hh.
  assert (Hf : frame = [u; c] ++ payload ++ [hi; lo]) by reflexivity.
  clearbody frame.
  pose proof (len_nonneg payload) as Hn. pose proof (len_nonneg rest) as Hr.
  assert (Hlen : Py.len frame = Py.len payload + 4).
  { rewrite Hf, !len_app. change (Py.len [u; c]) with 2.
    change (Py.len [hi; lo]) with 2. lia. }
  assert (Hbuf : Rtu._buffer w = u :: c :: payload ++ hi :: lo :: rest).
  { rewrite Hb, Hf. cbn [app]. rewrite <- app_assoc. reflexivity. }
  assert (Hstart : Rtu.is_start decoder slave broadcast (Rtu._buffer w) 0
                   = true).
  { apply is_start_plausible.
    - rewrite Hbuf. cbn [length]. lia.
    - exists u, c. rewrite Hbuf. cbn [nth_error]. auto. }
  split.
  { rewrite getFrameStart_eq. cbv zeta.
    assert (Hl : (4 <= length (Rtu._buffer w))%nat).
    { rewrite Hbuf. cbn [length]. rewrite length_app. cbn [length]. lia. }
    destruct (Nat.ltb_spec (length (Rtu._buffer w)) 4); [lia |].
    destruct (length (Rtu._buffer w) - 3 - 0)%nat as [| k] eqn:Ek; [lia |].
    cbn [seq find]. rewrite Hstart. reflexivity. }
  rewrite <- Hb in Hsize.
  destruct (isFrameReady_true decoder w u c _ (Py.len frame) Hbuf)
    as (w1 & E1 & Hb1 & Hc1).
  { exact Hsize. }
  { lia. }
  { rewrite Hb, len_app. lia. }
  { exact Hh. }
  unfold Rtu.loop_body. monad_unfold. rewrite E1. cbn [negb].
  rewrite checkFrame_eq, Hb1, Hbuf. cbv zeta. rewrite <- Hbuf, Hsize.
  destruct (Z.ltb_spec (Py.len (Rtu._buffer w)) (Py.len frame)) as [Hlt | _].
  { rewrite Hb, len_app in Hlt. lia. }
  set (x := [u; c] ++ payload).
  assert (Hx : Py.len x = Py.len frame - 2).
  { unfold x. rewrite len_app. change (Py.len [u; c]) with 2. lia. }
  assert (Hbx : Rtu._buffer w = x ++ [hi; lo] ++ rest).
  { rewrite Hbuf. reflexivity. }
  assert (Hs1 : Py.slice_between (Rtu._buffer w) (Py.len frame - 2)
                  (Py.len frame) = [hi; lo]).
  { rewrite Hbx, <- Hx.
    replace (Py.len frame) with (Py.len x + Py.len [hi; lo])
      by (change (Py.len [hi; lo]) with 2; lia).
    apply slice_app_middle. }
  assert (Hs2 : Py.slice_upto (Rtu._buffer w) (Py.len frame - 2) = x).
  { rewrite Hbx, <- Hx. apply slice_upto_app. }
  rewrite Hs1, Hs2. unfold x at 1. rewrite <- Hcrc, Z.eqb_refl. cbn [negb].
  set (w2 := Rtu.set_crc _ _).
  assert (Hv : Rtu._validate_slave_id slave single w2 = (Ok true, w2)).
  { unfold Rtu._validate_slave_id. monad_unfold.
    destruct single; [reflexivity |].
    destruct (Py.mem 0 slave) eqn:E0; [reflexivity |].
    destruct Hslave as [Hbt | Hin].
    - specialize (Hbc Hbt). congruence.
    - apply mem_In in Hin. unfold w2.
      cbn [Rtu._header Rtu.set_crc Rtu.set_len Rtu.set_tid Rtu.set_uid
           Rtu.set_header Rtu.uid].
      rewrite Hin. reflexivity. }
  rewrite Hv. cbn [negb]. rewrite _process_eq. cbv zeta.
  unfold w2.
  cbn [Rtu._header Rtu._buffer Rtu.called Rtu.set_crc Rtu.set_len
       Rtu.set_tid Rtu.set_uid Rtu.set_header Rtu.uid Rtu.tid Rtu.len].
  destruct (Z.ltb_spec 0 (Py.len frame - 2)); [| lia].
  assert (Hs3 : Py.slice_between (Rtu._buffer w1) Rtu._hsize
                  (Py.len frame - 2) = c :: payload).
  { rewrite Hb1, Hbuf.
    change (u :: c :: payload ++ hi :: lo :: rest)
      with ([u] ++ (c :: payload) ++ (hi :: lo :: rest)).
    change Rtu._hsize with (Py.len [u]).
    replace (Py.len frame - 2) with (Py.len [u] + Py.len (c :: payload))
      by (unfold Py.len in *; cbn [length]; lia).
    apply slice_app_middle. }
  rewrite Hs3, Hdec.
  unfold Rtu.set_crc, Rtu.set_len, Rtu.set_tid, Rtu.set_uid, Rtu.set_header.
  cbn [Rtu._header Rtu._buffer Rtu.called Rtu.uid Rtu.tid Rtu.len Rtu.crc].
  rewrite Hb1, Hc1, Hb. reflexivity.
Qed.

(** C2, the code on a frame that does not decode.  Whatever the CRC
    function and the decoder: let the buffer start with a frame that passes
    the start scan (slave served or broadcast, function code known,
    possibly with the exception bit), that the PDU class sizes by its own
    length, that carries the CRC of what precedes it and a valid slave id,
    and whose function code and payload the PDU decoder refuses.  Then
    [frameProcessIncomingPacket] raises [ModbusIOException], hands nothing
    to the callback, and the buffer still holds every byte, the frame
    included: [_process] raises before it reaches [advanceFrame].  A second
    call meets the same bytes and raises again. *)
Theorem rtu_decode_failure_keeps_frame (decoder : Decoder)
    (computeCRC : list byte -> Z) (single : bool) (s0 : Z) (slave' : list Z)
    (w : Rtu.Framer) (u c hi lo : byte) (payload more : list byte) :
  let frame := [u; c] ++ payload ++ [hi; lo] in
  let call :=
    Rtu.frameProcessIncomingPacket decoder computeCRC single (s0 :: slave') in
  Rtu._buffer w = frame ++ more ->
  Rtu.len (Rtu._header w) = 0 ->
  s0 = 0 \/ In (Py.int u) (s0 :: slave') ->
  In (Py.int c) (lookup_keys decoder)
  \/ In (Py.int c - 0x80) (lookup_keys decoder) ->
  lookupPduClass decoder (Py.int c) (frame ++ more) = Some (Py.len frame) ->
  struct.be16 hi lo = computeCRC ([u; c] ++ payload) ->
  decode decoder (c :: payload) = None ->
  fst (call w) = Raise (ModbusIOException "Unable to decode request")
  /\ Rtu._buffer (snd (call w)) = frame ++ more
  /\ Rtu.called (snd (call w)) = Rtu.called w
  /\ call (snd (call w)) = call w.
Proof.
  intros frame call Hb Hh Hslave Hfc Hsize Hcrc Hdec.
  assert (Hbroad : (s0 =? 0) = true \/ In (Py.int u) (s0 :: slave')).
  { destruct Hslave as [-> | Hin]; [left; reflexivity | right; exact Hin]. }
  assert (Hbc : (s0 =? 0) = true -> Py.mem 0 (s0 :: slave') = true).
  { intros H0. apply Z.eqb_eq in H0. subst s0. apply mem_In. left.
    reflexivity. }
  assert (Hcall : forall v : Rtu.Framer,
            Rtu._buffer v = frame ++ more ->
            Rtu.len (Rtu._header v) = 0
            \/ Rtu.len (Rtu._header v) = Py.len frame ->
            call v
            = (Raise (ModbusIOException "Unable to decode request"),
               Rtu.mkFramer (frame ++ more)
                 (Rtu.mkHeader (Py.int u) (Some (Py.int u)) (Py.len frame)
                    [hi; lo])
                 (Rtu.called v))).
  { intros v Hbv Hhv.
    destruct (rtu_turn_decode_failure decoder computeCRC single
                (s0 :: slave') (s0 =? 0) false v u c hi lo payload more
                Hcrc Hbroad Hfc Hsize Hdec Hbc Hbv Hhv) as (Hscan & Hbody).
    unfold call, Rtu.frameProcessIncomingPacket. monad_unfold.
    rewrite getitem_0. unfold Rtu.turns.
    replace (2 * length (Rtu._buffer v) + 2)%nat
      with (S (2 * length (Rtu._buffer v) + 1)) by lia.
    cbn [Rtu.while_getFrameStart]. monad_unfold.
    rewrite Hscan. cbn [negb]. rewrite Hbody. reflexivity. }
  rewrite (Hcall w Hb (or_introl Hh)). cbn [fst snd Rtu._buffer Rtu.called].
  split; [reflexivity |]. split; [reflexivity |]. split; [reflexivity |].
  rewrite Hcall; [reflexivity | reflexivity | right; reflexivity].
Qed.

(** The exception response [01 83 02 C0 F1], low CRC byte first, in front
    of a slave that serves unit 1: the decoder of the worked examples knows
    function code 3, so 0x83 passes the scan, and refuses to decode it. *)
Lemma rtu_decode_failure_keeps_frame_witness :
  let frame := [x01; x83; x02; xc0; xf1] in
  let w := Rtu.set_buffer frame Rtu.init in
  let call :=
    Rtu.frameProcessIncomingPacket Demo.decoder utilities.computeCRC_low_first
      false [1] in
  fst (call w) = Raise (ModbusIOException "Unable to decode request")
  /\ Rtu._buffer (snd (call w)) = frame
  /\ Rtu.called (snd (call w)) = []
  /\ call (snd (call w)) = call w.
Proof.
  cbv zeta.
  apply (rtu_decode_failure_keeps_frame Demo.decoder
           utilities.computeCRC_low_first false 1 []
           (Rtu.set_buffer [x01; x83; x02; xc0; xf1] Rtu.init)
           x01 x83 xc0 xf1 [x02] []).
  - reflexivity.
  - reflexivity.
  - right. left. reflexivity.
  - right. left. reflexivity.
  - reflexivity.
  - vm_compute. reflexivity.
  - reflexivity.
Defined.

Lemma well_framed_length (decoder : Decoder) (computeCRC : list byte -> Z)
    (slaves : list Z) (broadcast : bool) (frame : list byte) (result : PDU) :
  well_framed decoder computeCRC slaves broadcast frame result ->
  (4 <= length frame)%nat.
Proof.
  intros (u & c & payload & hi & lo & -> & _).
  cbn [app length]. rewrite length_app. cbn [length]. lia.
Qed.

(** The loop on a buffer made of well-framed messages, one after the
    other: each is handed to the callback, in order, and the buffer is
    empty when the loop ends. *)
Lemma rtu_frames_loop (decoder : Decoder) (computeCRC : list byte -> Z)
    (single : bool) (slave : list Z) (broadcast : bool) :
  (broadcast = true -> Py.mem 0 slave = true) ->
  forall (frames : list (list byte * PDU)) (fuel : nat) (w : Rtu.Framer),
    Forall (fun fr => well_framed decoder computeCRC slave broadcast
                        (fst fr) (snd fr)) frames ->
    (length frames < fuel)%nat ->
    Rtu._buffer w = concat (map fst frames) ->
    match frames with
    | [] => True
    | fr :: _ => Rtu.len (Rtu._header w) = 0
                 \/ Rtu.len (Rtu._header w) = Py.len (fst fr)
    end ->
    exists h,
      Rtu.while_getFrameStart decoder computeCRC fuel single slave broadcast
        false w
      = (Ok true,
         Rtu.mkFramer [] h
           (Rtu.called w
            ++ map (fun fr => delivered (fst fr) (snd fr)) frames)).
Proof.
  intros Hbc frames.
  induction frames as [| [frame result] more IH]; intros fuel w Hall Hfuel Hb Hh.
  - destruct fuel as [| fuel]; [cbn in Hfuel; lia |].
    cbn [Rtu.while_getFrameStart]. monad_unfold.
    rewrite getFrameStart_eq. cbv zeta. cbn [map concat] in Hb. rewrite Hb.
    cbn [length Nat.ltb Nat.leb negb]. exists (Rtu._header w).
    cbn [map]. rewrite app_nil_r, <- Hb. rewrite framer_eta. reflexivity.
  - destruct fuel as [| fuel]; [lia |].
    inversion Hall as [| ? ? Hwf Hmore]; subst. cbn [fst snd] in *.
    cbn [map concat fst] in Hb.
    destruct (rtu_turn_delivers decoder computeCRC single slave broadcast
                false w frame (concat (map fst more)) result Hwf Hbc Hb Hh)
      as (Estart & Ebody).
    cbn [Rtu.while_getFrameStart]. monad_unfold.
    rewrite Estart. cbn [negb]. rewrite Ebody.
    set (w' := Rtu.mkFramer _ _ _).
    destruct (IH fuel w' Hmore) as (h & E).
    + cbn [length] in Hfuel. lia.
    + reflexivity.
    + destruct more; [exact I | left; reflexivity].
    + exists h. rewrite E. unfold w'. cbn [Rtu.called map fst snd].
      rewrite <- app_assoc. reflexivity.
Qed.

Lemma frames_count (decoder : Decoder) (computeCRC : list byte -> Z)
    (slaves : list Z) (broadcast : bool) (frames : list (list byte * PDU)) :
  Forall (fun fr => well_framed decoder computeCRC slaves broadcast
                      (fst fr) (snd fr)) frames ->
  (length frames <= length (concat (map fst frames)))%nat.
Proof.
  induction 1 as [| fr more Hwf _ IH]; [cbn; lia |].
  apply well_framed_length in Hwf.
  cbn [map concat length]. rewrite length_app. lia.
Qed.

(** X12.  No frame is lost on the RTU framer: when the buffer holds any
    number of well-framed messages, one after the other, and the header is
    fresh, one call of [frameProcessIncomingPacket] hands every one of
    them to the callback, in the order they have in the buffer, each with
    its first byte as slave id and as transaction id, and leaves the buffer
    empty. *)
Theorem rtu_back_to_back_frames_delivered (decoder : Decoder)
    (computeCRC : list byte -> Z) (single : bool) (s0 : Z) (slave' : list Z)
    (w : Rtu.Framer) (frames : list (list byte * PDU)) :
  Forall (fun fr => well_framed decoder computeCRC (s0 :: slave') (s0 =? 0)
                      (fst fr) (snd fr)) frames ->
  Rtu.len (Rtu._header w) = 0 ->
  Rtu._buffer w = concat (map fst frames) ->
  exists h,
    Rtu.frameProcessIncomingPacket decoder computeCRC single (s0 :: slave') w
    = (Ok tt,
       Rtu.mkFramer [] h
         (Rtu.called w ++ map (fun fr => delivered (fst fr) (snd fr)) frames)).
Proof.
  intros Hall Hh Hb.
  assert (Hbc : (s0 =? 0) = true -> Py.mem 0 (s0 :: slave') = true).
  { intros E. apply Z.eqb_eq in E. subst. reflexivity. }
  destruct (rtu_frames_loop decoder computeCRC single (s0 :: slave')
              (s0 =? 0) Hbc frames (Rtu.turns w) w Hall) as (h & E).
  - pose proof (frames_count _ _ _ _ _ Hall) as Hc. rewrite <- Hb in Hc.
    unfold Rtu.turns. lia.
  - exact Hb.
  - destruct frames; auto.
  - exists h. unfold Rtu.frameProcessIncomingPacket. monad_unfold.
    rewrite getitem_0, E. reflexivity.
Qed.

(** Two read replies from slave 1, back to back. *)
Lemma rtu_back_to_back_frames_delivered_witness :
  exists h,
    Rtu.frameProcessIncomingPacket Demo.decoder utilities.computeCRC false
      [1] (Rtu.set_buffer (Demo.rtu_frame ++ Demo.rtu_frame) Rtu.init)
    = (Ok tt,
       Rtu.mkFramer [] h
         [mkPDU 3 1 1 0 [x02; x00; x0a]; mkPDU 3 1 1 0 [x02; x00; x0a]]).
Proof.
  assert (Hwf : well_framed Demo.decoder utilities.computeCRC [1] (1 =? 0)
                  Demo.rtu_frame (mkPDU 3 0 0 0 [x02; x00; x0a])).
  { exists x01, x03, [x02; x00; x0a], x43, x38.
    split; [reflexivity |]. split; [reflexivity |].
    split; [right; left; reflexivity |].
    split; [left; left; reflexivity |].
    split; [reflexivity |].
    intros rest. cbn [lookupPduClass Demo.decoder]. unfold Demo.frame_size.
    change (Py.int x03 =? 3) with true. cbv iota.
    change (Py.getitem (Demo.rtu_frame ++ rest) 2)
      with (Py.getitem (Demo.rtu_frame ++ rest) (Z.of_nat 2)).
    rewrite getitem_nat. reflexivity. }
  apply (rtu_back_to_back_frames_delivered Demo.decoder utilities.computeCRC
           false 1 []
           (Rtu.set_buffer (Demo.rtu_frame ++ Demo.rtu_frame) Rtu.init)
           [(Demo.rtu_frame, mkPDU 3 0 0 0 [x02; x00; x0a]);
            (Demo.rtu_frame, mkPDU 3 0 0 0 [x02; x00; x0a])]).
  - repeat constructor; exact Hwf.
  - reflexivity.
  - reflexivity.
Defined.

(** X13.  What the RTU framer builds it also reads.  When [buildPacket]
    returns a packet for a message whose slave is served and whose
    function code is known, the PDU class sizes the packet by its own
    length and the decoder decodes function code and data to [result],
    then a framer with a fresh header that holds just this packet hands
    [result] to the callback with slave id and transaction id equal to the
    message's slave id, which is also the transaction id [buildPacket]
    left in the message, and the buffer is empty afterwards. *)
Theorem rtu_buildPacket_round_trip (decoder : Decoder)
    (computeCRC : list byte -> Z) (single : bool) (s0 : Z) (slave' : list Z)
    (w : Rtu.Framer) (m m' result : PDU) (packet : list byte) :
  Rtu.buildPacket computeCRC m = Ok (packet, m') ->
  s0 = 0 \/ In (slave_id m) (s0 :: slave') ->
  In (function_code m) (lookup_keys decoder)
  \/ In (function_code m - 0x80) (lookup_keys decoder) ->
  (forall rest,
     lookupPduClass decoder (function_code m) (packet ++ rest)
     = Some (Py.len packet)) ->
  (forall f, Py.int f = function_code m ->
             decode decoder (f :: encode m) = Some result) ->
  Rtu.len (Rtu._header w) = 0 ->
  Rtu._buffer w = packet ->
  exists h,
    Rtu.frameProcessIncomingPacket decoder computeCRC single (s0 :: slave') w
    = (Ok tt,
       Rtu.mkFramer [] h
         (Rtu.called w
          ++ [set_transaction_id (transaction_id m')
                (set_slave_id (slave_id m) result)])).
Proof.
  intros Hbuild Hslave Hfc Hsize Hdec Hh Hb.
  apply rtu_buildPacket_inv in Hbuild.
  destruct Hbuild as (u & f & hi & lo & Hp & Hu & Hf & Hcrc & ->).
  assert (Hwf : well_framed decoder computeCRC (s0 :: slave') (s0 =? 0)
                  packet result).
  { exists u, f, (encode m), hi, lo. rewrite Hu, Hf.
    split; [exact Hp |]. split; [exact Hcrc |]. split.
    { destruct Hslave as [-> | Hin]; [left; reflexivity | right; exact Hin]. }
    split; [exact Hfc |]. split; [apply Hdec; exact Hf | exact Hsize]. }
  assert (Hbc : (s0 =? 0) = true -> Py.mem 0 (s0 :: slave') = true).
  { intros E. apply Z.eqb_eq in E. subst. reflexivity. }
  destruct (rtu_frames_loop decoder computeCRC single (s0 :: slave')
              (s0 =? 0) Hbc [(packet, result)] (Rtu.turns w) w) as (h & E).
  - constructor; [exact Hwf | constructor].
  - unfold Rtu.turns. cbn [length]. lia.
  - cbn [map concat fst]. rewrite app_nil_r. exact Hb.
  - left. exact Hh.
  - exists h. unfold Rtu.frameProcessIncomingPacket. monad_unfold.
    rewrite getitem_0, E. cbn [map fst snd delivered].
    unfold delivered. rewrite Hp. cbn [app transaction_id set_transaction_id].
    rewrite Hu. reflexivity.
Qed.

Lemma rtu_buildPacket_round_trip_witness :
  exists h,
    Rtu.frameProcessIncomingPacket Demo.decoder utilities.computeCRC false
      [1] (Rtu.set_buffer Demo.rtu_frame Rtu.init)
    = (Ok tt, Rtu.mkFramer [] h [mkPDU 3 1 1 0 [x02; x00; x0a]]).
Proof.
  apply (rtu_buildPacket_round_trip Demo.decoder utilities.computeCRC false
           1 [] (Rtu.set_buffer Demo.rtu_frame Rtu.init)
           Demo.read_reply (set_transaction_id 1 Demo.read_reply)
           (mkPDU 3 0 0 0 [x02; x00; x0a]) Demo.rtu_frame).
  - reflexivity.
  - right. left. reflexivity.
  - left. left. reflexivity.
  - intros rest. cbn [lookupPduClass Demo.decoder function_code
                      Demo.read_reply].
    unfold Demo.frame_size. change (3 =? 3) with true. cbv iota.
    change (Py.getitem (Demo.rtu_frame ++ rest) 2)
      with (Py.getitem (Demo.rtu_frame ++ rest) (Z.of_nat 2)).
    rewrite getitem_nat. reflexivity.
  - intros f Hf. cbn [decode Demo.decoder]. unfold Demo.decode.
    rewrite Hf. reflexivity.
  - reflexivity.
  - reflexivity.
Defined.

Lemma find_seq_first (f : nat -> bool) (n : nat) :
  forall s k,
    (s <= k < s + n)%nat ->
    (forall j, (s <= j < k)%nat -> f j = false) ->
    f k = true ->
    find f (seq s n) = Some k.
Proof.
  induction n as [| n IH]; intros s k Hk Hbefore Hat; [lia |].
  cbn [seq find].
  destruct (Nat.eq_dec s k) as [-> | Hne].
  - rewrite Hat. reflexivity.
  - rewrite Hbefore by lia. apply IH; [lia | | exact Hat].
    intros j Hj. apply Hbefore. lia.
Qed.

Lemma plausible_start_shift (fcs slaves : list Z) (broadcast : bool)
    (noise buf : list byte) (i : nat) :
  plausible_start fcs slaves broadcast buf i ->
  plausible_start fcs slaves broadcast (noise ++ buf) (length noise + i).
Proof.
  intros (a & b & Ha & Hb & H). exists a, b.
  rewrite !nth_error_app2 by lia.
  replace (length noise + i - length noise)%nat with i by lia.
  replace (S (length noise + i) - length noise)%nat with (S i) by lia.
  auto.
Qed.

(** The scan over noise that holds no plausible start, in front of a
    buffer that starts with one. *)
Lemma getFrameStart_skips_noise (decoder : Decoder) (slaves : list Z)
    (broadcast : bool) (w : Rtu.Framer) (noise buf : list byte) :
  (4 <= length buf)%nat ->
  plausible_start (lookup_keys decoder) slaves broadcast buf 0 ->
  (forall j, (j < length noise)%nat ->
     ~ plausible_start (lookup_keys decoder) slaves broadcast
         (noise ++ buf) j) ->
  Rtu.getFrameStart decoder slaves broadcast false
    (Rtu.set_buffer (noise ++ buf) w)
  = (Ok true, Rtu.set_buffer buf w).
Proof.
  intros Hlen H0 Hnoise.
  rewrite getFrameStart_eq. cbv zeta. cbn [Rtu._buffer Rtu.set_buffer].
  assert (Hl : length (noise ++ buf) = (length noise + length buf)%nat)
    by apply length_app.
  destruct (Nat.ltb_spec (length (noise ++ buf)) 4); [lia |].
  rewrite (find_seq_first _ _ 0 (length noise)).
  - destruct noise as [| b noise']; [reflexivity |].
    cbn [length]. unfold Rtu.set_buffer. cbn [Rtu._header Rtu.called].
    replace (skipn (S (length noise')) ((b :: noise') ++ buf)) with buf;
      [reflexivity |].
    change (S (length noise')) with (length (b :: noise')).
    rewrite skipn_app, skipn_all, Nat.sub_diag. reflexivity.
  - lia.
  - intros j Hj.
    destruct (Rtu.is_start decoder slaves broadcast (noise ++ buf) j) eqn:E;
      [| reflexivity].
    apply is_start_plausible in E; [| lia].
    exfalso. apply (Hnoise j); [lia | exact E].
  - apply is_start_plausible; [lia |].
    replace (length noise) with (length noise + 0)%nat by lia.
    apply plausible_start_shift. exact H0.
Qed.

(** X14.  Resynchronisation on the RTU framer.  Bytes in front of the
    buffer among which the scan finds no plausible start, followed by at
    least four bytes that begin with one, make no difference: the call of
    [frameProcessIncomingPacket] ends in the same framer, with the same
    PDUs handed to the callback and the same exception if any, as the call
    on the buffer without these bytes. *)
Theorem rtu_noise_prefix_ignored (decoder : Decoder)
    (computeCRC : list byte -> Z) (single : bool) (s0 : Z) (slave' : list Z)
    (w : Rtu.Framer) (noise buf : list byte) :
  (4 <= length buf)%nat ->
  plausible_start (lookup_keys decoder) (s0 :: slave') (s0 =? 0) buf 0 ->
  (forall j, (j < length noise)%nat ->
     ~ plausible_start (lookup_keys decoder) (s0 :: slave') (s0 =? 0)
         (noise ++ buf) j) ->
  Rtu.frameProcessIncomingPacket decoder computeCRC single (s0 :: slave')
    (Rtu.set_buffer (noise ++ buf) w)
  = Rtu.frameProcessIncomingPacket decoder computeCRC single (s0 :: slave')
      (Rtu.set_buffer buf w).
Proof.
  intros Hlen H0 Hnoise.
  set (wn := Rtu.set_buffer (noise ++ buf) w).
  set (wb := Rtu.set_buffer buf w).
  assert (Hstep : forall fuel,
             Rtu.while_getFrameStart decoder computeCRC (S fuel) single
               (s0 :: slave') (s0 =? 0) false wn
             = Rtu.while_getFrameStart decoder computeCRC (S fuel) single
                 (s0 :: slave') (s0 =? 0) false wb).
  { intros fuel. cbn [Rtu.while_getFrameStart]. monad_unfold.
    unfold wn, wb.
    rewrite (getFrameStart_skips_noise decoder (s0 :: slave') (s0 =? 0) w
               noise buf Hlen H0 Hnoise).
    assert (Hb : Rtu.getFrameStart decoder (s0 :: slave') (s0 =? 0) false
                   (Rtu.set_buffer buf w) = (Ok true, Rtu.set_buffer buf w)).
    { apply (getFrameStart_skips_noise decoder (s0 :: slave') (s0 =? 0) w
               [] buf Hlen H0).
      intros j Hj. cbn in Hj. lia. }
    rewrite Hb. reflexivity. }
  assert (Hturns : (Rtu.turns wb <= Rtu.turns wn)%nat).
  { unfold Rtu.turns, wn, wb. cbn [Rtu._buffer Rtu.set_buffer].
    rewrite length_app. lia. }
  unfold Rtu.frameProcessIncomingPacket. monad_unfold.
  rewrite getitem_0.
  destruct (Rtu.while_getFrameStart decoder computeCRC (Rtu.turns wb) single
              (s0 :: slave') (s0 =? 0) false wb) as [r w'] eqn:E.
  assert (Hr : r <> Ok false).
  { pose proof (while_terminates decoder computeCRC single (s0 :: slave')
                  (s0 =? 0) (Rtu.turns wb) false wb) as H.
    rewrite E in H. apply H. unfold Rtu.turns. lia. }
  assert (En : Rtu.while_getFrameStart decoder computeCRC (Rtu.turns wn)
                 single (s0 :: slave') (s0 =? 0) false wn = (r, w')).
  { unfold Rtu.turns at 1.
    replace (2 * length (Rtu._buffer wn) + 2)%nat
      with (S (2 * length (Rtu._buffer wn) + 1)) by lia.
    rewrite Hstep.
    apply (while_fuel_mono decoder computeCRC single (s0 :: slave')
             (s0 =? 0) (Rtu.turns wb)); [| exact E | exact Hr].
    unfold Rtu.turns in *. lia. }
  rewrite En. reflexivity.
Qed.

(** Scenario 2 of section 8: two [FF] bytes in front of a frame. *)
Lemma rtu_noise_prefix_ignored_witness :
  Rtu.frameProcessIncomingPacket Demo.decoder utilities.computeCRC false [1]
    (Rtu.set_buffer ([xff; xff] ++ Demo.rtu_frame) Rtu.init)
  = Rtu.frameProcessIncomingPacket Demo.decoder utilities.computeCRC false
      [1] (Rtu.set_buffer Demo.rtu_frame Rtu.init).
Proof.
  apply (rtu_noise_prefix_ignored Demo.decoder utilities.computeCRC false
           1 [] Rtu.init [xff; xff] Demo.rtu_frame).
  - cbn. lia.
  - exists x01, x03. cbn. intuition.
  - intros j Hj (a & b & Ha & _ & [Hb | Hs] & _); [discriminate |].
    destruct j as [| [| j]]; cbn in Hj; try lia; cbn in Ha;
      injection Ha as <-; cbn in Hs; intuition discriminate.
Defined.

(** X15.  The loop of the RTU [frameProcessIncomingPacket] ends, whatever
    the buffer, the decoder, the size the PDU classes answer, the CRC
    function and the slave list: started with [skip_cur_frame] either way,
    it is through after at most [2 * len(buffer) + 1] turns, and turns
    beyond that change nothing. *)
Theorem rtu_loop_terminates (decoder : Decoder) (computeCRC : list byte -> Z)
    (single : bool) (slave : list Z) (broadcast skip : bool)
    (w : Rtu.Framer) (fuel : nat) :
  (2 * length (Rtu._buffer w) + 1 < fuel)%nat ->
  fst (Rtu.while_getFrameStart decoder computeCRC fuel single slave
         broadcast skip w) <> Ok false
  /\ Rtu.while_getFrameStart decoder computeCRC fuel single slave broadcast
       skip w
     = Rtu.while_getFrameStart decoder computeCRC
         (2 * length (Rtu._buffer w) + 2) single slave broadcast skip w.
Proof.
  intros Hfuel.
  assert (Hm : forall f, (2 * length (Rtu._buffer w) + 1 < f)%nat ->
             fst (Rtu.while_getFrameStart decoder computeCRC f single slave
                    broadcast skip w) <> Ok false).
  { intros f Hf. apply while_terminates. destruct skip; lia. }
  split; [apply Hm; exact Hfuel |].
  destruct (Rtu.while_getFrameStart decoder computeCRC
              (2 * length (Rtu._buffer w) + 2) single slave broadcast skip w)
    as [r w'] eqn:E.
  apply (while_fuel_mono decoder computeCRC single slave broadcast
           (2 * length (Rtu._buffer w) + 2)); [lia | exact E |].
  specialize (Hm (2 * length (Rtu._buffer w) + 2)%nat).
  rewrite E in Hm. apply Hm. lia.
Qed.

Lemma rtu_loop_terminates_witness :
  fst (Rtu.while_getFrameStart Demo.decoder utilities.computeCRC 100 false
         [1] false false
         (Rtu.set_buffer [x01; x03; x02; x00; x0a; x00; x00] Rtu.init))
  <> Ok false
  /\ Rtu.while_getFrameStart Demo.decoder utilities.computeCRC 100 false [1]
       false false
       (Rtu.set_buffer [x01; x03; x02; x00; x0a; x00; x00] Rtu.init)
     = Rtu.while_getFrameStart Demo.decoder utilities.computeCRC 16 false
         [1] false false
         (Rtu.set_buffer [x01; x03; x02; x00; x0a; x00; x00] Rtu.init).
Proof.
  apply (rtu_loop_terminates Demo.decoder utilities.computeCRC false [1]
           false false
           (Rtu.set_buffer [x01; x03; x02; x00; x0a; x00; x00] Rtu.init)
           100).
  cbn. lia.
Defined.

(** The call on a proper prefix of a well-framed message, the header
    fresh: nothing is delivered, every byte is kept, and the header ends
    fresh or with the size of the whole frame. *)
Lemma rtu_prefix_waits (decoder : Decoder) (computeCRC : list byte -> Z)
    (single : bool) (s0 : Z) (slave' : list Z) (w : Rtu.Framer)
    (frame : list byte) (result : PDU) (k : nat) :
  well_framed decoder computeCRC (s0 :: slave') (s0 =? 0) frame result ->
  (forall c, nth_error frame 1 = Some c ->
     lookupPduClass decoder (Py.int c) (firstn k frame) = None
     \/ lookupPduClass decoder (Py.int c) (firstn k frame)
        = Some (Py.len frame)) ->
  (k < length frame)%nat ->
  Rtu.len (Rtu._header w) = 0 ->
  Rtu._buffer w = firstn k frame ->
  exists w1,
    Rtu.frameProcessIncomingPacket decoder computeCRC single (s0 :: slave') w
    = (Ok tt, w1)
    /\ Rtu._buffer w1 = Rtu._buffer w
    /\ Rtu.called w1 = Rtu.called w
    /\ (Rtu.len (Rtu._header w1) = 0
        \/ Rtu.len (Rtu._header w1) = Py.len frame).
Proof.
  intros (u & c & payload & hi & lo & Hf & _ & Hslave & Hfc & _ & _)
         Hprefix Hk Hh Hb.
  assert (Hc : nth_error frame 1 = Some c) by (rewrite Hf; reflexivity).
  specialize (Hprefix c Hc).
  unfold Rtu.frameProcessIncomingPacket. monad_unfold. rewrite getitem_0.
  unfold Rtu.turns.
  replace (2 * length (Rtu._buffer w) + 2)%nat
    with (S (2 * length (Rtu._buffer w) + 1)) by lia.
  cbn [Rtu.while_getFrameStart]. monad_unfold.
  rewrite getFrameStart_eq. cbv zeta.
  assert (Hlk : length (Rtu._buffer w) = k).
  { rewrite Hb, length_firstn. lia. }
  destruct (Nat.ltb_spec (length (Rtu._buffer w)) 4) as [Hlt | Hge].
  { cbn [negb]. exists w. auto. }
  assert (Hbuf : exists tl, Rtu._buffer w = u :: c :: tl).
  { rewrite Hb, Hf. cbn [app].
    destruct k as [| [| k']]; try lia. cbn [firstn]. eauto. }
  destruct Hbuf as (tl & Hbuf).
  assert (Hstart : Rtu.is_start decoder (s0 :: slave') (s0 =? 0)
                     (Rtu._buffer w) 0 = true).
  { apply is_start_plausible; [lia |].
    exists u, c. rewrite Hbuf. cbn [nth_error]. auto. }
  destruct (length (Rtu._buffer w) - 3 - 0)%nat as [| n] eqn:En; [lia |].
  cbn [seq find]. rewrite Hstart. cbn [negb].
  unfold Rtu.loop_body, Rtu.isFrameReady. monad_unfold.
  rewrite Hh. cbn [Z.eqb andb].
  destruct (Z.ltb_spec Rtu._hsize (Py.len (Rtu._buffer w))) as [_ | Hle].
  2:{ unfold Py.len, Rtu._hsize in Hle. lia. }
  rewrite <- Hb, Hbuf in Hprefix. rewrite Hbuf in Hlk.
  assert (Hshort : Py.len (u :: c :: tl) < Py.len frame).
  { unfold Py.len. lia. }
  rewrite populateHeader_eq, Hbuf. cbv zeta.
  destruct Hprefix as [-> | ->].
  - cbn [Rtu.is_IndexError negb]. eexists. split; [reflexivity |].
    cbn [Rtu._buffer Rtu.called Rtu._header Rtu.set_tid Rtu.set_uid
         Rtu.set_header Rtu.len].
    auto.
  - destruct (Z.ltb_spec (Py.len (u :: c :: tl)) (Py.len frame)); [| lia].
    cbn [Rtu.is_IndexError negb]. eexists. split; [reflexivity |].
    cbn [Rtu._buffer Rtu.called Rtu._header Rtu.set_tid Rtu.set_uid
         Rtu.set_len Rtu.set_header Rtu.len].
    auto.
Qed.

(** X16.  An RTU frame that arrives in two pieces is delivered once it is
    complete.  Let the PDU class, asked about a piece of the frame that is
    too short, either raise [IndexError] or answer the size of the whole
    frame.  Then the call on a proper prefix of a well-framed message, the
    header fresh, hands nothing to the callback, raises nothing and keeps
    every byte; and after the rest has been appended to the buffer the next
    call hands the decoded PDU to the callback and empties the buffer. *)
Theorem rtu_fragmented_frame_delivered (decoder : Decoder)
    (computeCRC : list byte -> Z) (single : bool) (s0 : Z) (slave' : list Z)
    (w : Rtu.Framer) (frame : list byte) (result : PDU) (k : nat) :
  let call :=
    Rtu.frameProcessIncomingPacket decoder computeCRC single (s0 :: slave') in
  well_framed decoder computeCRC (s0 :: slave') (s0 =? 0) frame result ->
  (forall c, nth_error frame 1 = Some c ->
     lookupPduClass decoder (Py.int c) (firstn k frame) = None
     \/ lookupPduClass decoder (Py.int c) (firstn k frame)
        = Some (Py.len frame)) ->
  (k < length frame)%nat ->
  Rtu.len (Rtu._header w) = 0 ->
  Rtu._buffer w = firstn k frame ->
  let w1 := snd (call w) in
  fst (call w) = Ok tt
  /\ Rtu._buffer w1 = Rtu._buffer w
  /\ Rtu.called w1 = Rtu.called w
  /\ exists h,
       call (Rtu.set_buffer (Rtu._buffer w1 ++ skipn k frame) w1)
       = (Ok tt,
          Rtu.mkFramer [] h (Rtu.called w ++ [delivered frame result])).
Proof.
  cbv zeta. intros Hwf Hprefix Hk Hh Hb.
  destruct (rtu_prefix_waits decoder computeCRC single s0 slave' w frame
              result k Hwf Hprefix Hk Hh Hb) as (w1 & E & Hb1 & Hc1 & Hh1).
  rewrite E. cbn [fst snd]. repeat split; try assumption.
  assert (Hbc : (s0 =? 0) = true -> Py.mem 0 (s0 :: slave') = true).
  { intros E0. apply Z.eqb_eq in E0. subst. reflexivity. }
  set (w2 := Rtu.set_buffer (Rtu._buffer w1 ++ skipn k frame) w1).
  assert (Hb2 : Rtu._buffer w2 = frame).
  { unfold w2. cbn [Rtu._buffer Rtu.set_buffer].
    rewrite Hb1, Hb. apply firstn_skipn. }
  destruct (rtu_frames_loop decoder computeCRC single (s0 :: slave')
              (s0 =? 0) Hbc [(frame, result)] (Rtu.turns w2) w2) as (h & E2).
  - constructor; [exact Hwf | constructor].
  - unfold Rtu.turns. cbn [length]. lia.
  - cbn [map concat fst]. rewrite app_nil_r. exact Hb2.
  - exact Hh1.
  - exists h. unfold Rtu.frameProcessIncomingPacket. monad_unfold.
    rewrite getitem_0, E2. cbn [map fst snd]. unfold w2.
    cbn [Rtu.called Rtu.set_buffer]. rewrite Hc1. reflexivity.
Qed.

(** The read reply of the examples, cut after its fifth byte. *)
Lemma rtu_fragmented_frame_delivered_witness :
  let call :=
    Rtu.frameProcessIncomingPacket Demo.decoder utilities.computeCRC false
      [1] in
  let w := Rtu.set_buffer (firstn 5 Demo.rtu_frame) Rtu.init in
  let w1 := snd (call w) in
  fst (call w) = Ok tt
  /\ Rtu._buffer w1 = firstn 5 Demo.rtu_frame
  /\ Rtu.called w1 = []
  /\ exists h,
       call (Rtu.set_buffer (Rtu._buffer w1 ++ skipn 5 Demo.rtu_frame) w1)
       = (Ok tt, Rtu.mkFramer [] h [mkPDU 3 1 1 0 [x02; x00; x0a]]).
Proof.
  cbv zeta.
  apply (rtu_fragmented_frame_delivered Demo.decoder utilities.computeCRC
           false 1 [] (Rtu.set_buffer (firstn 5 Demo.rtu_frame) Rtu.init)
           Demo.rtu_frame (mkPDU 3 0 0 0 [x02; x00; x0a]) 5).
  - exists x01, x03, [x02; x00; x0a], x43, x38.
    split; [reflexivity |]. split; [reflexivity |].
    split; [right; left; reflexivity |].
    split; [left; left; reflexivity |].
    split; [reflexivity |].
    intros rest. cbn [lookupPduClass Demo.decoder]. unfold Demo.frame_size.
    change (Py.int x03 =? 3) with true. cbv iota.
    change (Py.getitem (Demo.rtu_frame ++ rest) 2)
      with (Py.getitem (Demo.rtu_frame ++ rest) (Z.of_nat 2)).
    rewrite getitem_nat. reflexivity.
  - intros c [= <-]. right. reflexivity.
  - cbn. lia.
  - reflexivity.
  - reflexivity.
Defined.

(* ------------------------------------------------------------------ *)
(** ** RTU: polling again without new bytes *)

Lemma is_start_skipn (decoder : Decoder) (slaves : list Z) (broadcast : bool)
    (buf : list byte) (n : nat) :
  Rtu.is_start decoder slaves broadcast (skipn n buf) 0
  = Rtu.is_start decoder slaves broadcast buf n.
Proof.
  unfold Rtu.is_start. rewrite !nth_skipn.
  replace (n + 0)%nat with n by lia.
  replace (n + (0 + 1))%nat with (n + 1)%nat by lia. reflexivity.
Qed.

(** After a scan the scan from index 0 finds things as they are: nothing
    again after a failure, the same start at index 0 after a success. *)
Lemma getFrameStart_again (decoder : Decoder) (slaves : list Z)
    (broadcast skip : bool) (w w' : Rtu.Framer) (found : bool) :
  Rtu.getFrameStart decoder slaves broadcast skip w = (Ok found, w') ->
  Rtu.getFrameStart decoder slaves broadcast false w' = (Ok found, w').
Proof.
  rewrite getFrameStart_eq. cbv zeta.
  destruct (Nat.ltb_spec (length (Rtu._buffer w)) 4) as [Hlt | Hge].
  - intros [= <- <-]. rewrite getFrameStart_eq. cbv zeta.
    destruct (Nat.ltb_spec (length (Rtu._buffer w)) 4); [reflexivity | lia].
  - destruct (find _ _) as [i |] eqn:Ef.
    + apply find_seq_least in Ef. destruct Ef as (Hr & Hi & _).
      assert (Hs : Rtu.is_start decoder slaves broadcast
                     (skipn i (Rtu._buffer w)) 0 = true).
      { rewrite is_start_skipn. exact Hi. }
      assert (Hw : forall v : Rtu.Framer,
                 Rtu._buffer v = skipn i (Rtu._buffer w) ->
                 Rtu.getFrameStart decoder slaves broadcast false v
                 = (Ok true, v)).
      { intros v Hv. rewrite getFrameStart_eq. cbv zeta. rewrite Hv.
        assert (Hl : (4 <= length (skipn i (Rtu._buffer w)))%nat).
        { rewrite length_skipn. destruct skip; lia. }
        destruct (Nat.ltb_spec (length (skipn i (Rtu._buffer w))) 4);
          [lia |].
        destruct (length (skipn i (Rtu._buffer w)) - 3 - 0)%nat eqn:E;
          [lia |].
        cbn [seq find]. rewrite Hs. reflexivity. }
      destruct i as [| i]; intros [= <- <-]; apply Hw; reflexivity.
    + intros [= <- <-]. rewrite getFrameStart_eq. cbv zeta.
      cbn [Rtu._buffer Rtu.set_buffer].
      assert (Hl : length (skipn (length (Rtu._buffer w) - 3)
                             (Rtu._buffer w)) = 3%nat).
      { rewrite length_skipn. lia. }
      rewrite Hl. reflexivity.
Qed.

Ltac rtu_fields :=
  cbn [Rtu._header Rtu._buffer Rtu.called Rtu.set_crc Rtu.set_len
       Rtu.set_tid Rtu.set_uid Rtu.set_header Rtu.set_buffer
       Rtu.uid Rtu.tid Rtu.len Rtu.crc].

(** [isFrameReady], once it has answered [False], answers [False] again
    and leaves the framer as it then is. *)
Lemma isFrameReady_again (decoder : Decoder) (w w1 : Rtu.Framer) :
  Rtu.isFrameReady decoder w = (Ok false, w1) ->
  Rtu.isFrameReady decoder w1 = (Ok false, w1).
Proof.
  unfold Rtu.isFrameReady. monad_unfold.
  destruct (Z.eqb_spec (Rtu.len (Rtu._header w)) 0) as [E0 | N0];
    cbn [andb].
  2:{ intros [= Hr <-]. destruct (Z.eqb_spec (Rtu.len (Rtu._header w)) 0);
        [contradiction |]. cbn [andb]. rewrite Hr. reflexivity. }
  destruct (Z.ltb_spec Rtu._hsize (Py.len (Rtu._buffer w))) as [Hlen | Hlen].
  2:{ intros [= Hr <-]. rewrite E0. cbn [Z.eqb andb].
      destruct (Z.ltb_spec Rtu._hsize (Py.len (Rtu._buffer w))); [lia |].
      reflexivity. }
  rewrite populateHeader_eq.
  destruct (Rtu._buffer w) as [| b0 [| b1 tl]] eqn:Eb; cbv zeta.
  { unfold Py.len, Rtu._hsize in Hlen. cbn [length] in Hlen. lia. }
  { unfold Py.len, Rtu._hsize in Hlen. cbn [length] in Hlen. lia. }
  pose proof (len_nonneg (b0 :: b1 :: tl)) as Hn.
  destruct (lookupPduClass decoder (Py.int b1) (b0 :: b1 :: tl))
    as [size |] eqn:El.
  - destruct (Z.ltb_spec (Py.len (b0 :: b1 :: tl)) size) as [Hlt | Hge].
    + (* the size is known and the buffer is too short *)
      cbn [Rtu.is_IndexError]. intros [= <-]. rtu_fields. rewrite ?Eb.
      destruct (Z.eqb_spec size 0); [lia |]. cbn [andb].
      destruct (Z.ltb_spec 0 size); [| reflexivity].
      rtu_fields. rewrite ?Eb.
      destruct (Z.leb_spec size (Py.len (b0 :: b1 :: tl))); [lia |].
      reflexivity.
    + (* the size is not positive *)
      rtu_fields. rewrite ?Eb.
      destruct (Z.ltb_spec 0 size) as [Hpos | Hnp].
      { destruct (Z.leb_spec size (Py.len (b0 :: b1 :: tl))); [| lia].
        discriminate. }
      intros [= <-]. rtu_fields. rewrite ?Eb.
      destruct (Z.eqb_spec size 0) as [-> | Hnz]; cbn [andb].
      * destruct (Z.ltb_spec Rtu._hsize (Py.len (b0 :: b1 :: tl))); [| lia].
        rewrite populateHeader_eq. rtu_fields. rewrite ?Eb. cbv zeta.
        rtu_fields. rewrite ?Eb, El.
        destruct (Z.ltb_spec (Py.len (b0 :: b1 :: tl)) 0); [lia |].
        rtu_fields. rewrite ?Eb. reflexivity.
      * destruct (Z.ltb_spec 0 size); [lia | reflexivity].
  - (* the PDU class raises IndexError *)
    cbn [Rtu.is_IndexError]. intros [= <-]. rtu_fields.
    rewrite ?E0, ?Eb. cbn [Z.eqb andb].
    destruct (Z.ltb_spec Rtu._hsize (Py.len (b0 :: b1 :: tl))); [| lia].
    rewrite populateHeader_eq. rtu_fields. rewrite ?Eb. cbv zeta.
    rtu_fields. rewrite ?Eb, El. cbn [Rtu.is_IndexError]. reflexivity.
Qed.

Lemma getFrameStart_same_buffer (decoder : Decoder) (slaves : list Z)
    (broadcast : bool) (w v : Rtu.Framer) :
  Rtu.getFrameStart decoder slaves broadcast false w = (Ok true, w) ->
  Rtu._buffer v = Rtu._buffer w ->
  Rtu.getFrameStart decoder slaves broadcast false v = (Ok true, v).
Proof.
  rewrite !getFrameStart_eq. cbv zeta. intros H Hv. rewrite Hv.
  destruct (Nat.ltb_spec (length (Rtu._buffer w)) 4); [discriminate |].
  destruct (find _ _) as [[| i] |]; [reflexivity | | discriminate].
  intros. exfalso. injection H as H.
  apply (f_equal (fun x => length (Rtu._buffer x))) in H.
  change (length (skipn (S i) (Rtu._buffer w)) = length (Rtu._buffer w)) in H.
  rewrite length_skipn in H. lia.
Qed.

Lemma loop_body_break (decoder : Decoder) (computeCRC : list byte -> Z)
    (single : bool) (slave : list Z) (skip : bool) (w w' : Rtu.Framer) :
  Rtu.loop_body decoder computeCRC single slave skip w = (Ok Rtu.Break, w') ->
  Rtu.isFrameReady decoder w = (Ok false, w').
Proof.
  unfold Rtu.loop_body. monad_unfold.
  destruct (Rtu.isFrameReady decoder w) as [r1 w1] eqn:E1.
  destruct (isFrameReady_frame _ _ _ _ E1) as (_ & _ & [ready ->]).
  destruct ready; cbn [negb]; [| intros [= <-]; reflexivity].
  destruct (Rtu.checkFrame decoder computeCRC w1) as [r2 w2] eqn:E2.
  destruct (checkFrame_frame _ _ _ _ _ E2) as (_ & _ & [ok ->]).
  destruct ok; cbn [negb]; [| rewrite resetFrame_eq; discriminate].
  destruct (rtu_validate_run slave single w2) as (valid & ->).
  destruct valid; cbn [negb]; [| rewrite resetFrame_eq; discriminate].
  destruct (Rtu._process decoder false w2) as [[[] | e] w3]; discriminate.
Qed.

(** Where the loop ends when it ends by itself: the scan finds nothing in
    what is left, or it finds a start at the front whose frame is not
    ready. *)
Lemma while_settles (decoder : Decoder) (computeCRC : list byte -> Z)
    (single : bool) (slave : list Z) (broadcast : bool) (fuel : nat) :
  forall (skip : bool) (w w1 : Rtu.Framer),
    Rtu.while_getFrameStart decoder computeCRC fuel single slave broadcast
      skip w = (Ok true, w1) ->
    Rtu.getFrameStart decoder slave broadcast false w1 = (Ok false, w1)
    \/ (Rtu.getFrameStart decoder slave broadcast false w1 = (Ok true, w1)
        /\ Rtu.isFrameReady decoder w1 = (Ok false, w1)).
Proof.
  induction fuel as [| fuel IH]; intros skip w w1.
  - cbn. discriminate.
  - cbn [Rtu.while_getFrameStart]. monad_unfold.
    destruct (Rtu.getFrameStart decoder slave broadcast skip w)
      as [r0 wg] eqn:Eg.
    destruct (getFrameStart_run decoder slave broadcast skip w)
      as (found & n & E & _). rewrite E in Eg. injection Eg as <- <-.
    apply getFrameStart_again in E.
    set (wg := Rtu.mkFramer _ _ _) in *.
    destruct found; cbn [negb].
    2:{ intros [= <-]. left. exact E. }
    destruct (Rtu.loop_body decoder computeCRC single slave skip wg)
      as [r2 w2] eqn:E2.
    destruct r2 as [[| s] | e].
    + intros [= <-]. apply loop_body_break in E2. right.
      destruct (isFrameReady_frame _ _ _ _ E2) as (Hb & _ & _).
      split.
      * apply (getFrameStart_same_buffer decoder slave broadcast wg w2 E Hb).
      * apply (isFrameReady_again decoder wg w2 E2).
    + apply IH.
    + discriminate.
Qed.

(** X17.  Polling the RTU framer again without new bytes is harmless:
    when a call of [frameProcessIncomingPacket] has returned normally, a
    second call on the framer it left returns normally as well, hands
    nothing to the callback and changes nothing, so no frame is ever
    delivered twice. *)
Theorem rtu_poll_again_changes_nothing (decoder : Decoder)
    (computeCRC : list byte -> Z) (single : bool) (slave : list Z)
    (w w1 : Rtu.Framer) :
  Rtu.frameProcessIncomingPacket decoder computeCRC single slave w
  = (Ok tt, w1) ->
  Rtu.frameProcessIncomingPacket decoder computeCRC single slave w1
  = (Ok tt, w1).
Proof.
  unfold Rtu.frameProcessIncomingPacket. monad_unfold.
  destruct (Py.getitem slave 0) as [s0 |]; [| discriminate].
  destruct (Rtu.while_getFrameStart decoder computeCRC (Rtu.turns w) single
              slave (s0 =? 0) false w) as [r w'] eqn:E.
  destruct r as [b | e]; [| discriminate]. intros [= ->].
  assert (Hb : b = true).
  { destruct b; [reflexivity |]. exfalso.
    pose proof (while_terminates decoder computeCRC single slave (s0 =? 0)
                  (Rtu.turns w) false w) as H.
    rewrite E in H. apply H; [unfold Rtu.turns; lia | reflexivity]. }
  subst b. apply while_settles in E.
  unfold Rtu.turns.
  replace (2 * length (Rtu._buffer w1) + 2)%nat
    with (S (2 * length (Rtu._buffer w1) + 1)) by lia.
  cbn [Rtu.while_getFrameStart]. monad_unfold.
  destruct E as [E | [E Er]]; rewrite E; cbn [negb]; [reflexivity |].
  unfold Rtu.loop_body. monad_unfold. rewrite Er. reflexivity.
Qed.

(** A frame delivered by the first call, nothing by the second. *)
Lemma rtu_poll_again_changes_nothing_witness :
  Rtu.frameProcessIncomingPacket Demo.decoder utilities.computeCRC false [1]
    (Rtu.mkFramer [x01; x03] (Rtu.mkHeader 0 None 0 [x00; x00])
       [mkPDU 3 1 1 0 [x02; x00; x0a]])
  = (Ok tt,
     Rtu.mkFramer [x01; x03] (Rtu.mkHeader 0 None 0 [x00; x00])
       [mkPDU 3 1 1 0 [x02; x00; x0a]]).
Proof.
  apply (rtu_poll_again_changes_nothing Demo.decoder utilities.computeCRC
           false [1]
           (Rtu.set_buffer (Demo.rtu_frame ++ [x01; x03]) Rtu.init)).
  reflexivity.
Defined.

(* ------------------------------------------------------------------ *)
(** ** What is delivered has passed the checks *)

(** The two slices [checkFrame] looks at and the one [advanceFrame] keeps
    cut the buffer in three, whatever the sign of the size. *)
Lemma crc_slices (buf : list byte) (size : Z) (c0 c1 : byte)
    (more : list byte) :
  Py.slice_between buf (size - 2) size = c0 :: c1 :: more ->
  more = []
  /\ buf = Py.slice_upto buf (size - 2) ++ [c0; c1] ++ Py.slice_from buf size.
Proof.
  unfold Py.slice_between, Py.slice_upto, Py.slice_from, Py.slice.
  set (n := Py.len buf).
  set (a := Py.clamp n (size - 2)). set (b := Py.clamp n size).
  assert (Hn : 0 <= n) by apply len_nonneg.
  assert (Hab : 0 <= a <= n /\ 0 <= b <= n /\ b - a <= 2).
  { unfold a, b, Py.clamp.
    destruct (Z.ltb_spec (size - 2) 0); destruct (Z.ltb_spec size 0); lia. }
  clearbody a b. intros H.
  assert (Hl := f_equal (@length byte) H).
  rewrite length_firstn, length_skipn in Hl. cbn [length] in Hl.
  assert (Hln : length buf = Z.to_nat n) by (unfold n, Py.len; lia).
  assert (Hba : b - a = 2) by lia.
  assert (Hb : Z.to_nat b = (2 + Z.to_nat a)%nat) by lia.
  assert (Hm : more = []).
  { destruct more; [reflexivity | cbn [length] in Hl; lia]. }
  subst more. split; [reflexivity |].
  rewrite Z.sub_0_r. cbn [skipn].
  replace (Z.to_nat (b - a)) with 2%nat in H by lia.
  rewrite (firstn_all2 (n := Z.to_nat (n - b)))
    by (rewrite length_skipn; lia).
  rewrite Hb, <- skipn_skipn, <- H.
  rewrite firstn_skipn, firstn_skipn. reflexivity.
Qed.

(** X18.  The RTU framer delivers nothing that has not passed the CRC
    check, and consumes exactly what it checked.  In one turn of the loop
    the callback is either left alone or handed one PDU; in the second
    case the buffer was some bytes, the two-byte big-endian [computeCRC]
    of these bytes, and what the turn leaves in the buffer. *)
Theorem rtu_delivery_is_crc_checked (decoder : Decoder)
    (computeCRC : list byte -> Z) (single : bool) (slave : list Z)
    (skip : bool) (w : Rtu.Framer) :
  let w' := snd (Rtu.loop_body decoder computeCRC single slave skip w) in
  Rtu.called w' = Rtu.called w
  \/ exists p body c0 c1,
       Rtu.called w' = Rtu.called w ++ [p]
       /\ Rtu._buffer w = body ++ [c0; c1] ++ Rtu._buffer w'
       /\ struct.be16 c0 c1 = computeCRC body.
Proof.
  cbv zeta. unfold Rtu.loop_body. monad_unfold.
  destruct (Rtu.isFrameReady decoder w) as [r1 w1] eqn:E1.
  destruct (isFrameReady_frame _ _ _ _ E1) as (Hb1 & Hc1 & [ready ->]).
  destruct ready; cbn [negb]; [| left; exact Hc1].
  destruct (Rtu.checkFrame decoder computeCRC w1) as [r2 w2] eqn:E2.
  destruct (checkFrame_frame _ _ _ _ _ E2) as (Hb2 & Hc2 & [ok ->]).
  destruct ok; cbn [negb].
  2:{ rewrite resetFrame_eq. left. cbn [snd Rtu.called]. congruence. }
  apply checkFrame_true in E2.
  destruct E2 as (b0 & b1 & tl & size & c0 & c1 & more
                  & Hbuf & _ & _ & Hcrc & Hsum & Hw2).
  destruct (rtu_validate_run slave single w2) as (valid & ->).
  destruct valid; cbn [negb].
  2:{ rewrite resetFrame_eq. left. cbn [snd Rtu.called]. congruence. }
  rewrite _process_eq. cbv zeta.
  assert (Hh : Rtu._header w2
               = Rtu.mkHeader (Py.int b0) (Some (Py.int b0)) size
                   (Py.slice_between (Rtu._buffer w1) (size - 2) size)).
  { rewrite Hw2. reflexivity. }
  rewrite Hh. cbn [Rtu.len Rtu.tid Rtu.uid].
  destruct (decode decoder _) as [result |]; cbn [snd Rtu.called Rtu._buffer].
  2:{ left. congruence. }
  right. apply crc_slices in Hcrc. destruct Hcrc as (_ & Hcut).
  eexists. exists (Py.slice_upto (Rtu._buffer w1) (size - 2)), c0, c1.
  split; [rewrite Hc2, Hc1; reflexivity |].
  split; [| symmetry; exact Hsum].
  rewrite Hb2, <- Hb1. exact Hcut.
Qed.

(** X19.  When the socket framer's [checkFrame] says a frame is ready.
    [checkFrame] never raises; it answers [True] exactly when the buffer
    holds the seven header bytes with a length field of at least 2 and, on
    top of them, at least [length - 1] further bytes, the function code
    and the data; and on every such buffer it leaves the buffer as it is
    and stores the four header fields. *)
Theorem socket_checkFrame_ready_iff (w : Socket.Framer) :
  (forall e, fst (Socket.checkFrame w) <> Raise e)
  /\ (fst (Socket.checkFrame w) = Ok true
      <-> exists t1 t0 p1 p0 l1 l0 u body,
            Socket._buffer w = [t1; t0; p1; p0; l1; l0; u] ++ body
            /\ 2 <= struct.be16 l1 l0
            /\ struct.be16 l1 l0 - 1 <= Py.len body)
  /\ (forall t1 t0 p1 p0 l1 l0 u body,
        Socket._buffer w = [t1; t0; p1; p0; l1; l0; u] ++ body ->
        2 <= struct.be16 l1 l0 ->
        struct.be16 l1 l0 - 1 <= Py.len body ->
        Socket.checkFrame w
        = (Ok true,
           Socket.set_header
             (Socket.mkHeader (struct.be16 t1 t0) (struct.be16 p1 p0)
                (struct.be16 l1 l0) (Py.int u)) w)).
Proof.
  rewrite socket_checkFrame_eq.
  destruct (Socket._buffer w)
    as [| t1 [| t0 [| p1 [| p0 [| l1 [| l0 [| u [| b rest]]]]]]]] eqn:E;
    try (cbn [fst snd]; split; [discriminate |]; split;
         [split; [discriminate |];
          intros (? & ? & ? & ? & ? & ? & ? & body & Hbuf & Hl & Hb)
         | intros ? ? ? ? ? ? ? body Hbuf Hl Hb];
         apply (f_equal (@length byte)) in Hbuf;
         rewrite length_app in Hbuf; cbn [length] in Hbuf;
         unfold Py.len in Hb; lia).
  cbv zeta.
  assert (Hlen : Py.len (t1 :: t0 :: p1 :: p0 :: l1 :: l0 :: u :: b :: rest)
                 - Socket._hsize + 1 = Py.len (b :: rest) + 1).
  { unfold Py.len, Socket._hsize. cbn [length]. lia. }
  rewrite Hlen.
  destruct (Z.ltb_spec (struct.be16 l1 l0) 2) as [Hl | Hl]; cbn [fst snd].
  - split; [discriminate |]. split.
    + split; [discriminate |].
      intros (? & ? & ? & ? & l1' & l0' & ? & body & [= ] & Hl' & _).
      subst. lia.
    + intros ? ? ? ? l1' l0' ? body [= ] Hl' _. subst. lia.
  - split; [discriminate |].
    destruct (Z.leb_spec (struct.be16 l1 l0) (Py.len (b :: rest) + 1))
      as [Hr | Hr]; split.
    + split; [| reflexivity].
      intros _. exists t1, t0, p1, p0, l1, l0, u, (b :: rest).
      split; [reflexivity |]. split; lia.
    + intros ? ? ? ? ? ? ? body [= ] _ _. subst. reflexivity.
    + split; [discriminate |].
      intros (? & ? & ? & ? & l1' & l0' & ? & body & [= ] & _ & Hb).
      subst. lia.
    + intros ? ? ? ? l1' l0' ? body [= ] _ Hb. subst. lia.
Qed.

(** X20.  Noise does not pile up in the RTU framer.  When no index of the
    buffer that has at least three bytes behind it is a plausible start of
    a frame, [frameProcessIncomingPacket] returns normally, hands nothing to
    the callback, leaves the header alone and keeps just the last three
    bytes of the buffer (all of it when it is no longer than that). *)
Theorem rtu_noise_is_trimmed (decoder : Decoder) (computeCRC : list byte -> Z)
    (single : bool) (s0 : Z) (slave' : list Z) (w : Rtu.Framer) :
  (forall j, (j + 3 < length (Rtu._buffer w))%nat ->
     ~ plausible_start (lookup_keys decoder) (s0 :: slave') (s0 =? 0)
         (Rtu._buffer w) j) ->
  Rtu.frameProcessIncomingPacket decoder computeCRC single (s0 :: slave') w
  = (Ok tt,
     Rtu.mkFramer (skipn (length (Rtu._buffer w) - 3) (Rtu._buffer w))
       (Rtu._header w) (Rtu.called w)).
Proof.
  intros Hnoise.
  unfold Rtu.frameProcessIncomingPacket. monad_unfold. rewrite getitem_0.
  unfold Rtu.turns.
  replace (2 * length (Rtu._buffer w) + 2)%nat
    with (S (2 * length (Rtu._buffer w) + 1)) by lia.
  cbn [Rtu.while_getFrameStart]. monad_unfold.
  rewrite getFrameStart_eq. cbv zeta.
  destruct (Nat.ltb_spec (length (Rtu._buffer w)) 4) as [Hlt | Hge].
  - cbn [negb].
    replace (length (Rtu._buffer w) - 3)%nat with 0%nat by lia.
    cbn [skipn]. rewrite framer_eta. reflexivity.
  - destruct (find _ _) as [i |] eqn:Ef.
    + apply find_seq_least in Ef. destruct Ef as (Hr & Hi & _).
      apply is_start_plausible in Hi; [| lia].
      exfalso. apply (Hnoise i); [lia | exact Hi].
    + cbn [negb]. reflexivity.
Qed.

Lemma rtu_noise_is_trimmed_witness :
  Rtu.frameProcessIncomingPacket Demo.decoder utilities.computeCRC false [1]
    (Rtu.mkFramer [xff; xfe; xfd; xfc; xfb] Rtu.zero_header [])
  = (Ok tt, Rtu.mkFramer [xfd; xfc; xfb] Rtu.zero_header []).
Proof.
  apply (rtu_noise_is_trimmed Demo.decoder utilities.computeCRC false 1 []
           (Rtu.mkFramer [xff; xfe; xfd; xfc; xfb] Rtu.zero_header [])).
  intros j Hj Hp. cbn [Rtu._buffer length] in Hj, Hp.
  apply is_start_plausible in Hp; [| cbn [length]; lia].
  destruct j as [| [| j]]; [discriminate Hp | discriminate Hp | lia].
Defined.

(** X21.  [decode_data] of the RTU framer never raises: the index reads of
    bytes 0 and 1 are guarded by the length test.  On at most [_hsize]
    bytes, one byte or none, it returns the empty result; on more it
    returns the first byte as slave id and the second as function code. *)
Theorem rtu_decode_data_total (data : list byte) :
  (Py.len data <= Rtu._hsize /\ Rtu.decode_data data = Ok None)
  \/ exists u f rest,
       data = u :: f :: rest
       /\ Rtu.decode_data data = Ok (Some (Py.int u, Py.int f)).
Proof.
  unfold Rtu.decode_data.
  destruct (Z.ltb_spec Rtu._hsize (Py.len data)) as [Hlt | Hge].
  - right. destruct data as [| u [| f rest]].
    + unfold Py.len, Rtu._hsize in Hlt. cbn [length] in Hlt. lia.
    + unfold Py.len, Rtu._hsize in Hlt. cbn [length] in Hlt. lia.
    + exists u, f, rest. split; [reflexivity |].
      rewrite getitem_0.
      change (Py.getitem (u :: f :: rest) 1)
        with (Py.getitem (u :: f :: rest) (Z.of_nat 1)).
      rewrite getitem_nat by (cbn [length]; lia). reflexivity.
  - left. split; [exact Hge | reflexivity].
Qed.
